(** * Real-estate harvesting and cleaning pipeline: a shallow embedding

    The development follows the Python modules of the repository:
    - [data_analyzer.py]   (class [ImovelAnalyzer]): module [ImovelAnalyzer];
    - [leilao_scraper.py]  (class [LeilaoScraper]):  module [LeilaoScraper];
    - [vivareal_scraper.py] (class [VivaRealScraper]): module [VivaRealScraper].
    [main.py] only calls the methods of these classes in sequence.

    Conventions of the embedding.
    - A Python [float] is an extended rational ([Float.float]): exact
      arithmetic on finite values, the IEEE rules for [nan] and the two
      infinities.  Rounding and the sign of zero are not represented.
    - A Python [str] is a [string]; every character stands for one code
      point below 256 (Latin-1), which covers the markers the code looks
      for (digits, [,], [.], [m], [U+00B2], white space).
    - [None] in a dict produced by a scraper is [None] of [option]; a missing
      value inside a pandas column is the cell [Num NaN] ([isna] holds of it).
    - Exceptions are values of [exn]; code that can raise lives in the error
      monad [sum exn] of ExtLib, [try: ... except Exception:] is [try_except]. *)

From Stdlib Require Import ZArith QArith Qround List String Ascii Bool Lia.
From Stdlib Require DecimalString.
From ExtLib Require Import Structures.Monad Data.Monads.EitherMonad.
Import ListNotations.
Import MonadNotation.
Local Open Scope monad_scope.
Local Open Scope string_scope.
Local Open Scope list_scope.

(** ** Floating-point values *)

Module Float.

Inductive float : Type :=
| NaN
| NegInf
| Fin (q : Q)
| PosInf.

(** Finite results are kept in lowest terms, so that equal values are
    equal terms. *)
Definition fin (q : Q) : float := Fin (Qred q).

Definition of_Z (z : Z) : float := Fin (inject_Z z).

Definition isnan (x : float) : bool :=
  match x with NaN => true | _ => false end.

Definition is_zero (q : Q) : bool := Qeq_bool q 0.
Definition is_neg (q : Q) : bool := negb (Qle_bool 0 q).

Definition opp (x : float) : float :=
  match x with
  | NaN => NaN
  | NegInf => PosInf
  | PosInf => NegInf
  | Fin q => fin (- q)
  end.

Definition add (x y : float) : float :=
  match x, y with
  | NaN, _ | _, NaN => NaN
  | PosInf, NegInf | NegInf, PosInf => NaN
  | PosInf, _ | _, PosInf => PosInf
  | NegInf, _ | _, NegInf => NegInf
  | Fin a, Fin b => fin (a + b)
  end.

Definition sub (x y : float) : float := add x (opp y).

(** The infinity with the sign of [q] when [neg] is false, the opposite
    sign when [neg] is true; [q] is not zero. *)
Definition inf_signed (neg : bool) (q : Q) : float :=
  if xorb neg (is_neg q) then NegInf else PosInf.

Definition mul (x y : float) : float :=
  match x, y with
  | NaN, _ | _, NaN => NaN
  | Fin a, Fin b => fin (a * b)
  | Fin a, PosInf | PosInf, Fin a =>
      if is_zero a then NaN else inf_signed false a
  | Fin a, NegInf | NegInf, Fin a =>
      if is_zero a then NaN else inf_signed true a
  | PosInf, PosInf | NegInf, NegInf => PosInf
  | PosInf, NegInf | NegInf, PosInf => NegInf
  end.

Definition div (x y : float) : float :=
  match x, y with
  | NaN, _ | _, NaN => NaN
  | Fin a, Fin b =>
      if is_zero b
      then (if is_zero a then NaN else inf_signed false a)
      else fin (a / b)
  | Fin _, PosInf | Fin _, NegInf => Fin 0
  | PosInf, Fin b => inf_signed false (if is_zero b then 1 else b)
  | NegInf, Fin b => inf_signed true (if is_zero b then 1 else b)
  | _, _ => NaN
  end.

(** [2^e] *)
Definition pow2 (e : Z) : Q :=
  if (0 <=? e)%Z then inject_Z (2 ^ e) else 1 # Z.to_pos (2 ^ (- e)).

(** The integer nearest to [x], ties to even. *)
Definition round_half_even (x : Q) : Z :=
  let n := Qfloor x in
  match Qcompare (x - inject_Z n) (1 # 2) with
  | Lt => n
  | Gt => (n + 1)%Z
  | Eq => if Z.even n then n else (n + 1)%Z
  end.

(** The [e] with [2^e <= q < 2^(e+1)], for [q > 0]. *)
Definition exponent (q : Q) : Z :=
  let e := (Z.log2 (Qnum q) - Z.log2 (Zpos (Qden q)))%Z in
  if Qle_bool (pow2 e) q then e else (e - 1)%Z.

(** The double nearest to [q > 0], ties to even: 53 bits of precision
    down to the exponent -1022, then the subnormal grid of step 2^-1074
    (which rounds a small enough [q] to zero); infinity from 2^1024 on. *)
Definition round_pos (q : Q) : float :=
  let e := Z.max (exponent q) (-1022) in
  let ulp := pow2 (e - 52) in
  let r := (inject_Z (round_half_even (q / ulp)) * ulp)%Q in
  if Qle_bool (pow2 1024) r then PosInf else fin r.

(** The double nearest to a rational: what [float(s)] gives for a decimal
    text and what an operation on two doubles gives for its exact result. *)
Definition round (q : Q) : float :=
  match Qcompare q 0 with
  | Eq => Fin 0
  | Gt => round_pos q
  | Lt => opp (round_pos (- q))
  end.

(** A result of [div] and the like, rounded to a double. *)
Definition rounded (x : float) : float :=
  match x with
  | Fin q => round q
  | _ => x
  end.

(** [x <= y]; false as soon as one side is [nan]. *)
Definition leb (x y : float) : bool :=
  match x, y with
  | NaN, _ | _, NaN => false
  | NegInf, _ => true
  | _, PosInf => true
  | Fin a, Fin b => Qle_bool a b
  | _, _ => false
  end.

Definition geb (x y : float) : bool := leb y x.

(** [x == y] of Python: [nan] differs from everything. *)
Definition eqb (x y : float) : bool :=
  match x, y with
  | NegInf, NegInf | PosInf, PosInf => true
  | Fin a, Fin b => Qeq_bool a b
  | _, _ => false
  end.

(** Insertion sort of values none of which is [nan]. *)
Fixpoint insert (x : float) (l : list float) : list float :=
  match l with
  | [] => [x]
  | y :: l' => if leb x y then x :: l else y :: insert x l'
  end.

Fixpoint sort (l : list float) : list float :=
  match l with
  | [] => []
  | x :: l' => insert x (sort l')
  end.

Definition sum (l : list float) : float := fold_left add l (Fin 0).

End Float.

Export Float(float, NaN, NegInf, Fin, PosInf).

(** ** Text *)

Module Text.

Definition code (c : ascii) : nat := nat_of_ascii c.

(** [str.isdigit] restricted to the characters [\d] can match below 256. *)
Definition is_digit (c : ascii) : bool :=
  (48 <=? code c)%nat && (code c <=? 57)%nat.

(** White space of [str.strip] and of [\s], below 256. *)
Definition is_space (c : ascii) : bool :=
  let n := code c in
  ((9 <=? n)%nat && (n <=? 13)%nat)
  || ((28 <=? n)%nat && (n <=? 32)%nat)
  || (n =? 133)%nat || (n =? 160)%nat.

Fixpoint drop_while (p : ascii -> bool) (l : list ascii) : list ascii :=
  match l with
  | [] => []
  | c :: l' => if p c then drop_while p l' else l
  end.

Fixpoint take_while (p : ascii -> bool) (l : list ascii) : list ascii :=
  match l with
  | [] => []
  | c :: l' => if p c then c :: take_while p l' else []
  end.

Definition chars (s : string) : list ascii := list_ascii_of_string s.
Definition text (l : list ascii) : string := string_of_list_ascii l.

(** [s.strip()] *)
Definition strip (s : string) : string :=
  text (rev (drop_while is_space (rev (drop_while is_space (chars s))))).

(** [s.lower()]: the letters [A-Z] and the upper-case Latin-1 letters. *)
Definition lower_char (c : ascii) : ascii :=
  let n := code c in
  if ((65 <=? n)%nat && (n <=? 90)%nat)
     || ((192 <=? n)%nat && (n <=? 222)%nat && negb (n =? 215)%nat)
  then ascii_of_nat (n + 32) else c.

Definition lower (s : string) : string := text (map lower_char (chars s)).

Fixpoint starts_with (p l : list ascii) : bool :=
  match p, l with
  | [], _ => true
  | _ :: _, [] => false
  | a :: p', b :: l' => Ascii.eqb a b && starts_with p' l'
  end.

(** [p in s] for strings. *)
Fixpoint contains_chars (p l : list ascii) : bool :=
  starts_with p l ||
  match l with
  | [] => false
  | _ :: l' => contains_chars p l'
  end.

Definition contains (p s : string) : bool := contains_chars (chars p) (chars s).

(** Truth value of a string: non-empty. *)
Definition truthy (s : string) : bool :=
  match s with EmptyString => false | _ => true end.

(** [str(n)] for a natural number. *)
Definition of_nat (n : nat) : string :=
  DecimalString.NilEmpty.string_of_uint (Nat.to_uint n).

(** Value of a run of decimal digits. *)
Definition digits_value (l : list ascii) : Z :=
  fold_left (fun acc c => (10 * acc + Z.of_nat (code c - 48))%Z) l 0%Z.

(** [float(s)] for [s] of the shape [digits], [digits.], [.digits] or
    [digits.digits]: [i] is the integer part, [f] the fractional part.  The
    result is the double nearest to the decimal number: infinity for a
    number too large, zero for one too small. *)
Definition decimal_value (i f : list ascii) : float :=
  Float.round (inject_Z (digits_value i)
               + inject_Z (digits_value f) / inject_Z (10 ^ Z.of_nat (List.length f))).

Definition is_char (n : nat) (c : ascii) : bool := (code c =? n)%nat.

(** The text made of one double quote. *)
Definition quote : string := String (ascii_of_nat 34) EmptyString.

(** [s.replace(',', '.')] *)
Definition commas_to_dots (l : list ascii) : list ascii :=
  map (fun c => if is_char 44 c then ascii_of_nat 46 else c) l.

(** [re.sub(r'[^\d,.]', '', s)] *)
Definition keep_price_chars (l : list ascii) : list ascii :=
  filter (fun c => is_digit c || is_char 44 c || is_char 46 c) l.

(** [float(s)] on a text made of digits and dots, the only texts the
    scrapers hand to it: [None] stands for [ValueError]. *)
Definition float_of_chars (l : list ascii) : option float :=
  let i := take_while is_digit l in
  match drop_while is_digit l with
  | [] => match i with [] => None | _ :: _ => Some (decimal_value i []) end
  | c :: f =>
      if is_char 46 c && forallb is_digit f
         && negb (Nat.eqb (List.length i + List.length f) 0)
      then Some (decimal_value i f)
      else None
  end.

(** [\s*m] at the head of [l]. *)
Definition unit_follows (l : list ascii) : bool :=
  match drop_while is_space l with
  | c :: _ => is_char 109 c
  | [] => false
  end.

(** A match of [(\d+(?:,\d+)?)\s*m] that starts at the head of [l]: its
    group 1.  The optional last character of the pattern changes neither
    whether it matches nor the group. *)
Definition area_match_here (l : list ascii) : option (list ascii) :=
  match take_while is_digit l with
  | [] => None
  | (_ :: _) as whole =>
      let rest := drop_while is_digit l in
      let with_fraction :=
        match rest with
        | c :: rest' =>
            if is_char 44 c
            then match take_while is_digit rest' with
                 | [] => None
                 | (_ :: _) as fraction =>
                     if unit_follows (drop_while is_digit rest')
                     then Some (whole ++ c :: fraction)
                     else None
                 end
            else None
        | [] => None
        end in
      match with_fraction with
      | Some g => Some g
      | None => if unit_follows rest then Some whole else None
      end
  end.

(** [re.search(r'(\d+(?:,\d+)?)\s*m²?', s)]: group 1 of the leftmost match. *)
Fixpoint area_search (l : list ascii) : option (list ascii) :=
  match area_match_here l with
  | Some g => Some g
  | None => match l with
            | [] => None
            | _ :: l' => area_search l'
            end
  end.

(** [re.search(r'(\d+)', s)]: the leftmost run of digits. *)
Fixpoint digits_search (l : list ascii) : option (list ascii) :=
  match l with
  | [] => None
  | c :: l' => if is_digit c then Some (take_while is_digit l)
               else digits_search l'
  end.

(** [s.replace(old, new)], [old] not empty. *)
Fixpoint replace_chars (fuel : nat) (old new l : list ascii) : list ascii :=
  match fuel with
  | O => l
  | S fuel' =>
      match l with
      | [] => []
      | c :: l' =>
          if starts_with old l
          then new ++ replace_chars fuel' old new (skipn (List.length old) l)
          else c :: replace_chars fuel' old new l'
      end
  end.

Definition replace (old new s : string) : string :=
  text (replace_chars (String.length s) (chars old) (chars new) (chars s)).

End Text.

(** ** Exceptions *)

Inductive exn : Type :=
| KeyError (key : string)
| TypeError
| AttributeError
| ValueError
| HTTPError (status : nat)
| Timeout
| ConnectionError
| InvalidURL
| OSError.

Abbreviation result := (sum exn).

Definition raise {A : Type} (e : exn) : result A := inl e.

(** [try: body except Exception as e: handler e] *)
Definition try_except {A : Type} (body : result A) (handler : exn -> result A)
  : result A :=
  match body with
  | inl e => handler e
  | inr v => inr v
  end.

(** ** The part of pandas the analyzer uses *)

Module Pandas.

Inductive cell : Type :=
| Num (x : float)
| Str (s : string).

Inductive dtype : Type := Float64 | Object.

Record Series : Type := mkSeries { dtype_of : dtype; values : list cell }.

(** Columns in their order; [nrows] is the length of the index. *)
Record DataFrame : Type :=
  mkDataFrame { nrows : nat; columns : list (string * Series) }.

Fixpoint lookup {A : Type} (k : string) (l : list (string * A)) : option A :=
  match l with
  | [] => None
  | (k', v) :: l' => if String.eqb k k' then Some v else lookup k l'
  end.

Fixpoint assign {A : Type} (k : string) (v : A) (l : list (string * A))
  : list (string * A) :=
  match l with
  | [] => [(k, v)]
  | (k', v') :: l' =>
      if String.eqb k k' then (k, v) :: l' else (k', v') :: assign k v l'
  end.

(** [df.get(col)] *)
Definition get (df : DataFrame) (col : string) : option Series :=
  lookup col (columns df).

(** [col in df.columns] *)
Definition has_column (df : DataFrame) (col : string) : bool :=
  match get df col with Some _ => true | None => false end.

(** [df[col]] *)
Definition getitem (df : DataFrame) (col : string) : result Series :=
  match get df col with
  | Some s => ret s
  | None => raise (KeyError col)
  end.

(** [df[col] = s] *)
Definition setitem (df : DataFrame) (col : string) (s : Series) : DataFrame :=
  mkDataFrame (nrows df) (assign col s (columns df)).

(** The column obtained from assigning the scalar [None]. *)
Definition none_column (df : DataFrame) : Series :=
  mkSeries Object (repeat (Num NaN) (nrows df)).

(** The column obtained from assigning a string scalar. *)
Definition str_column (df : DataFrame) (s : string) : Series :=
  mkSeries Object (repeat (Str s) (nrows df)).

Definition isna (c : cell) : bool :=
  match c with Num NaN => true | _ => false end.

(** [s.isna().all()] *)
Definition isna_all (s : Series) : bool := forallb isna (values s).

Section Coercion.

(** The text-to-number reading of [pd.to_numeric]; it yields [NaN] on a
    text it does not read ([errors='coerce']). *)
Variable str_to_float : string -> float.

Definition coerce (c : cell) : cell :=
  match c with
  | Num x => Num x
  | Str s => Num (str_to_float s)
  end.

(** [pd.to_numeric(s, errors='coerce')] *)
Definition to_numeric (s : Series) : Series :=
  mkSeries Float64 (map coerce (values s)).

End Coercion.

Fixpoint numeric_cells (l : list cell) : result (list float) :=
  match l with
  | [] => ret []
  | Num x :: l' => xs <- numeric_cells l' ;; ret (x :: xs)
  | Str _ :: _ => raise TypeError
  end.

(** The values of a column used as numbers. *)
Definition numeric_values (s : Series) : result (list float) :=
  numeric_cells (values s).

(** [a / b], element by element. *)
Definition series_div (a b : Series) : result Series :=
  xs <- numeric_values a ;;
  ys <- numeric_values b ;;
  ret (mkSeries Float64
         (map (fun p => Num (Float.div (fst p) (snd p))) (combine xs ys))).

Definition dropna (xs : list float) : list float :=
  filter (fun x => negb (Float.isnan x)) xs.

(** Linear interpolation of numpy between neighbours [a] and [b]. *)
Definition lerp (a b : float) (t : Q) : float :=
  let diff_b_a := Float.sub b a in
  if Qle_bool (1 # 2) t
  then Float.sub b (Float.mul diff_b_a (Float.fin (1 - t)))
  else Float.add a (Float.mul diff_b_a (Float.fin t)).

(** [np.percentile(xs, 100 q, method='linear')] after the missing values
    were masked out; [nan] for no value at all. *)
Definition quantile_floats (xs : list float) (q : Q) : float :=
  let arr := Float.sort (dropna xs) in
  match arr with
  | [] => NaN
  | _ :: _ =>
      let n := List.length arr in
      let virtual_index := (q * inject_Z (Z.of_nat (n - 1)))%Q in
      let previous := Z.to_nat (Qfloor virtual_index) in
      let next := Nat.min (previous + 1) (n - 1) in
      let gamma := (virtual_index - inject_Z (Qfloor virtual_index))%Q in
      lerp (nth previous arr NaN) (nth next arr NaN) gamma
  end.

(** [s.quantile(q)] *)
Definition quantile (s : Series) (q : Q) : result float :=
  xs <- numeric_values s ;;
  ret (quantile_floats xs q).

(** [s.mean()] *)
Definition mean (s : Series) : result float :=
  xs <- numeric_values s ;;
  let v := dropna xs in
  ret (match v with
       | [] => NaN
       | _ :: _ => Float.div (Float.sum v) (Float.of_Z (Z.of_nat (List.length v)))
       end).

(** [s.median()] *)
Definition median (s : Series) : result float :=
  xs <- numeric_values s ;;
  let arr := Float.sort (dropna xs) in
  let n := List.length arr in
  ret (match arr with
       | [] => NaN
       | _ :: _ =>
           if Nat.even n
           then Float.div (Float.add (nth (n / 2 - 1) arr NaN) (nth (n / 2) arr NaN))
                          (Float.of_Z 2)
           else nth (n / 2) arr NaN
       end).

(** [(s >= lo) & (s <= hi)] *)
Definition within (lo hi : float) (x : float) : bool :=
  Float.geb x lo && Float.leb x hi.

Definition between (s : Series) (lo hi : float) : result (list bool) :=
  xs <- numeric_values s ;;
  ret (map (within lo hi) xs).

Fixpoint mask_filter {A : Type} (mask : list bool) (l : list A) : list A :=
  match mask, l with
  | b :: mask', x :: l' =>
      if b then x :: mask_filter mask' l' else mask_filter mask' l'
  | _, _ => []
  end.

Definition count_true (mask : list bool) : nat :=
  List.length (filter (fun b => b) mask).

(** [df[mask]] *)
Definition select_rows (mask : list bool) (df : DataFrame) : DataFrame :=
  mkDataFrame (count_true mask)
    (map (fun kv => (fst kv, mkSeries (dtype_of (snd kv))
                                (mask_filter mask (values (snd kv)))))
         (columns df)).

Definition is_str (c : cell) : bool :=
  match c with Str _ => true | Num _ => false end.

(** [s.str.f()] for a text method [f]: the accessor exists on an object
    column holding text (or nothing but missing values); an entry that is
    not text becomes missing. *)
Definition str_map (f : string -> string) (s : Series) : result Series :=
  match dtype_of s with
  | Float64 => raise AttributeError
  | Object =>
      if existsb is_str (values s) || forallb isna (values s)
      then ret (mkSeries Object
                  (map (fun c => match c with
                                 | Str t => Str (f t)
                                 | Num _ => Num NaN
                                 end) (values s)))
      else raise AttributeError
  end.

(** [s.replace(mapping)] for a mapping between texts. *)
Definition replace (mapping : list (string * string)) (s : Series) : Series :=
  mkSeries (dtype_of s)
    (map (fun c => match c with
                   | Str t => match lookup t mapping with
                              | Some t' => Str t'
                              | None => Str t
                              end
                   | Num x => Num x
                   end) (values s)).

Definition cell_eqb (a b : cell) : bool :=
  match a, b with
  | Num x, Num y => Float.eqb x y
  | Str s, Str t => String.eqb s t
  | _, _ => false
  end.

(** The same value for [unique] and for the keys of a dict: equal, or
    both missing. *)
Definition same_cell (a b : cell) : bool :=
  cell_eqb a b || (isna a && isna b).

(** [s.unique()]: the distinct values in order of first appearance. *)
Fixpoint unique_cells (seen l : list cell) : list cell :=
  match l with
  | [] => []
  | c :: l' =>
      if existsb (same_cell c) seen then unique_cells seen l'
      else c :: unique_cells (c :: seen) l'
  end.

Definition unique (s : Series) : list cell := unique_cells [] (values s).

Definition union_names (a b : list string) : list string :=
  a ++ filter (fun k => negb (existsb (String.eqb k) a)) b.

Definition join_dtype (a b : option Series) : dtype :=
  match a, b with
  | Some x, Some y =>
      match dtype_of x, dtype_of y with
      | Float64, Float64 => Float64
      | _, _ => Object
      end
  | Some x, None | None, Some x => dtype_of x
  | None, None => Object
  end.

Definition column_or_missing (df : DataFrame) (col : string) : list cell :=
  match get df col with
  | Some s => values s
  | None => repeat (Num NaN) (nrows df)
  end.

(** [pd.concat([a, b], ignore_index=True, sort=False)] *)
Definition concat2 (a b : DataFrame) : DataFrame :=
  mkDataFrame (nrows a + nrows b)
    (map (fun col =>
            (col, mkSeries (join_dtype (get a col) (get b col))
                    (column_or_missing a col ++ column_or_missing b col)))
         (union_names (map fst (columns a)) (map fst (columns b)))).

(** [pd.concat(datasets, ignore_index=True, sort=False)], [datasets] not empty *)
Fixpoint concat (first : DataFrame) (others : list DataFrame) : DataFrame :=
  match others with
  | [] => first
  | d :: others' => concat (concat2 first d) others'
  end.

End Pandas.

(** What [logger] received. *)
Inductive log_event : Type :=
| Info (message : string)
| Error (cause : option exn).

(** ** Methods of an object: state that survives an exception *)

Section Methods.

Context {S : Type}.

(** A method runs on the instance state [S]; what it assigned before it
    raised stays assigned. *)
Definition method (A : Type) : Type := S -> S * result A.

Definition method_ret {A : Type} (v : A) : method A := fun s => (s, inr v).

Definition method_bind {A B : Type} (m : method A) (k : A -> method B)
  : method B :=
  fun s =>
    match m s with
    | (s', inr v) => k v s'
    | (s', inl e) => (s', inl e)
    end.

#[export] Instance Monad_method : Monad method :=
  {| ret := @method_ret; bind := @method_bind |}.

Definition lift {A : Type} (r : result A) : method A := fun s => (s, r).

Definition gets {A : Type} (f : S -> A) : method A := fun s => (s, inr (f s)).

Definition modify (f : S -> S) : method unit := fun s => (f s, inr tt).

(** [try: body except Exception as e: handler e] inside a method. *)
Definition try_method {A : Type} (body : method A) (handler : exn -> method A)
  : method A :=
  fun s =>
    match body s with
    | (s', inl e) => handler e s'
    | (s', inr v) => (s', inr v)
    end.

(** [for x in l: body x] *)
Fixpoint for_each {A : Type} (l : list A) (body : A -> method unit)
  : method unit :=
  match l with
  | [] => method_ret tt
  | x :: l' => method_bind (body x) (fun _ => for_each l' body)
  end.

End Methods.

Arguments method : clear implicits.

(** ** data_analyzer.py *)

Module ImovelAnalyzer.

Import Pandas.

Record analyzer : Type := mkAnalyzer {
  df_leiloes : option DataFrame;
  df_tradicional : option DataFrame;
  df_combined : option DataFrame;
  log : list log_event
}.

(** [ImovelAnalyzer.__init__] *)
Definition init : analyzer := mkAnalyzer None None None [].

Definition set_df_leiloes (d : option DataFrame) (a : analyzer) : analyzer :=
  mkAnalyzer d (df_tradicional a) (df_combined a) (log a).

Definition set_df_tradicional (d : option DataFrame) (a : analyzer) : analyzer :=
  mkAnalyzer (df_leiloes a) d (df_combined a) (log a).

Definition set_df_combined (d : option DataFrame) (a : analyzer) : analyzer :=
  mkAnalyzer (df_leiloes a) (df_tradicional a) d (log a).

Definition logger (ev : log_event) : method analyzer unit :=
  modify (fun a => mkAnalyzer (df_leiloes a) (df_tradicional a) (df_combined a)
                     (log a ++ [ev])).

(** What a file argument of [load_data] stands for once it is read. *)
Inductive source_file : Type :=
| Missing                    (* no path given, or no file at the path *)
| Unreadable (e : exn)       (* reading or parsing the file raised *)
| Content (df : DataFrame).  (* the frame built from the file *)

(** [load_data]; the whole body is under one [try]. *)
Definition load_data (leiloes_file tradicional_file : source_file)
  : method analyzer unit :=
  try_method
    ((match leiloes_file with
      | Missing => ret tt
      | Unreadable e => lift (raise e)
      | Content df =>
          modify (set_df_leiloes
                    (Some (setitem df "fonte" (str_column df "leilao")))) ;;
          logger (Info "Carregados registros de leiloes")
      end) ;;
     (match tradicional_file with
      | Missing => ret tt
      | Unreadable e => lift (raise e)
      | Content df =>
          modify (set_df_tradicional
                    (Some (setitem df "fonte" (str_column df "tradicional")))) ;;
          logger (Info "Carregados registros do mercado tradicional")
      end))
    (fun e => logger (Error (Some e))).

Definition numeric_columns : list string :=
  ["preco"; "area"; "quartos"; "banheiros"; "vagas"].

Definition tipo_imovel_names : list (string * string) :=
  [("apartamento", "apartamento"); ("casa", "casa");
   ("comercial", "comercial"); ("terreno", "terreno")].

Section Cleaning.

Variable str_to_float : string -> float.

(** Lines 95-97: the price column of an auction frame. *)
Definition standardize_price (fonte : string) (df_clean : DataFrame)
  : DataFrame :=
  if String.eqb fonte "leilao"
  then setitem df_clean "preco"
         (match get df_clean "preco_atual" with
          | Some preco_atual => preco_atual
          | None =>
              match get df_clean "preco_inicial" with
              | Some preco_inicial => preco_inicial
              | None => none_column df_clean
              end
          end)
  else df_clean.

(** Lines 99-103: numeric columns are coerced. *)
Definition convert_types (df_clean : DataFrame) : DataFrame :=
  fold_left
    (fun d col =>
       match get d col with
       | Some s => setitem d col (to_numeric str_to_float s)
       | None => d
       end)
    numeric_columns df_clean.

(** Line 106: the test that decides whether the price per square metre
    is derived. *)
Definition derives_preco_m2 (df_clean : DataFrame) : bool :=
  match get df_clean "preco_m2" with
  | None => true
  | Some s => isna_all s
  end.

(** Lines 105-107. *)
Definition derive_preco_m2 (df_clean : DataFrame) : result DataFrame :=
  if derives_preco_m2 df_clean
  then
    preco <- getitem df_clean "preco" ;;
    area <- getitem df_clean "area" ;;
    preco_m2 <- series_div preco area ;;
    ret (setitem df_clean "preco_m2" preco_m2)
  else ret df_clean.

(** The two bounds of lines 111-112. *)
Definition outlier_bounds (preco_m2 : Series) : result (float * float) :=
  Q1 <- quantile preco_m2 (1 # 100) ;;
  Q3 <- quantile preco_m2 (99 # 100) ;;
  ret (Q1, Q3).

(** Line 113 alone: the rows between two given bounds. *)
Definition keep_between (Q1 Q3 : float) (df_clean : DataFrame)
  : result DataFrame :=
  preco_m2 <- getitem df_clean "preco_m2" ;;
  mask <- between preco_m2 Q1 Q3 ;;
  ret (select_rows mask df_clean).

(** Lines 109-113. *)
Definition remove_outliers (df_clean : DataFrame) : result DataFrame :=
  match get df_clean "preco_m2" with
  | Some preco_m2 =>
      bounds <- outlier_bounds preco_m2 ;;
      keep_between (fst bounds) (snd bounds) df_clean
  | None => ret df_clean
  end.

(** Lines 115-123. *)
Definition standardize_tipo (df_clean : DataFrame) : result DataFrame :=
  match get df_clean "tipo_imovel" with
  | Some tipo =>
      lowered <- str_map Text.lower tipo ;;
      stripped <- str_map Text.strip lowered ;;
      ret (setitem df_clean "tipo_imovel" (replace tipo_imovel_names stripped))
  | None => ret df_clean
  end.

(** The frame on which the outliers are looked for. *)
Definition before_rejection (df : DataFrame) (fonte : string)
  : result DataFrame :=
  derive_preco_m2 (convert_types (standardize_price fonte df)).

Definition _clean_dataframe (df : DataFrame) (fonte : string)
  : result DataFrame :=
  df_clean <- before_rejection df fonte ;;
  df_clean <- remove_outliers df_clean ;;
  standardize_tipo df_clean.

(** [_combine_datasets] *)
Definition _combine_datasets : method analyzer unit :=
  l <- gets df_leiloes ;;
  t <- gets df_tradicional ;;
  let datasets :=
    (match l with Some d => [d] | None => [] end)
    ++ (match t with Some d => [d] | None => [] end) in
  match datasets with
  | first :: others =>
      modify (set_df_combined (Some (concat first others))) ;;
      logger (Info "Dataset combinado criado")
  | [] => ret tt
  end.

(** [clean_data] *)
Definition clean_data : method analyzer unit :=
  try_method
    (l <- gets df_leiloes ;;
     (match l with
      | Some df =>
          df' <- lift (_clean_dataframe df "leilao") ;;
          modify (set_df_leiloes (Some df'))
      | None => ret tt
      end) ;;
     t <- gets df_tradicional ;;
     (match t with
      | Some df =>
          df' <- lift (_clean_dataframe df "tradicional") ;;
          modify (set_df_tradicional (Some df'))
      | None => ret tt
      end) ;;
     _combine_datasets ;;
     logger (Info "Limpeza de dados concluida"))
    (fun e => logger (Error (Some e))).

End Cleaning.

(** *** Statistics *)

Record source_stats : Type := mkSourceStats {
  total_imoveis : nat;
  preco_medio : float;
  preco_mediano : float;
  preco_m2_medio : float;
  preco_m2_mediano : float;
  area_media : float
}.

Record comparison : Type := mkComparison {
  diferenca_preco_medio : float;
  diferenca_preco_m2_medio : float
}.

Inductive entry : Type :=
| PerSource (s : source_stats)
| Comparacao (c : comparison).

(** The dict [stats], in insertion order. *)
Definition stats : Type := list (cell * entry).

Fixpoint dict_get (k : cell) (d : stats) : option entry :=
  match d with
  | [] => None
  | (k', v) :: d' => if same_cell k k' then Some v else dict_get k d'
  end.

Fixpoint dict_set (k : cell) (v : entry) (d : stats) : stats :=
  match d with
  | [] => [(k, v)]
  | (k', v') :: d' =>
      if same_cell k k' then (k', v) :: d' else (k', v') :: dict_set k v d'
  end.

(** [k in stats] *)
Definition dict_mem (k : cell) (d : stats) : bool :=
  match dict_get k d with Some _ => true | None => false end.

(** Lines 152-161 for one value of the column [fonte]. *)
Definition source_statistics (df_combined : DataFrame) (fonte_col : Series)
           (fonte : cell) : result source_stats :=
  let df_fonte :=
    select_rows (map (fun c => cell_eqb c fonte) (values fonte_col)) df_combined in
  preco <- getitem df_fonte "preco" ;;
  medio <- mean preco ;;
  preco <- getitem df_fonte "preco" ;;
  mediano <- median preco ;;
  preco_m2 <- getitem df_fonte "preco_m2" ;;
  m2_medio <- mean preco_m2 ;;
  preco_m2 <- getitem df_fonte "preco_m2" ;;
  m2_mediano <- median preco_m2 ;;
  area <- getitem df_fonte "area" ;;
  a_media <- mean area ;;
  ret (mkSourceStats (nrows df_fonte) medio mediano m2_medio m2_mediano a_media).

Fixpoint per_source (df_combined : DataFrame) (fonte_col : Series)
         (fontes : list cell) (acc : stats) : result stats :=
  match fontes with
  | [] => ret acc
  | fonte :: fontes' =>
      s <- source_statistics df_combined fonte_col fonte ;;
      per_source df_combined fonte_col fontes' (dict_set fonte (PerSource s) acc)
  end.

(** [((tradicional - leilao) / tradicional) * 100] *)
Definition percent_below (tradicional leilao : float) : float :=
  Float.mul (Float.div (Float.sub tradicional leilao) tradicional)
            (Float.of_Z 100).

(** [stats[k][field]] where the entry is a per-source one. *)
Definition source_entry (k : cell) (d : stats) : result source_stats :=
  match dict_get k d with
  | Some (PerSource s) => ret s
  | _ => raise (KeyError "preco_medio")
  end.

(** Lines 163-168. *)
Definition add_comparison (d : stats) : result stats :=
  if dict_mem (Str "leilao") d && dict_mem (Str "tradicional") d
  then
    t <- source_entry (Str "tradicional") d ;;
    l <- source_entry (Str "leilao") d ;;
    ret (dict_set (Str "comparacao")
           (Comparacao
              (mkComparison
                 (percent_below (preco_medio t) (preco_medio l))
                 (percent_below (preco_m2_medio t) (preco_m2_medio l))))
           d)
  else ret d.

(** Lines 148-168: the dict [stats] built from the combined frame. *)
Definition build_statistics (df_combined : DataFrame) : result stats :=
  fonte_col <- getitem df_combined "fonte" ;;
  d <- per_source df_combined fonte_col (unique fonte_col) [] ;;
  add_comparison d.

(** [generate_statistics]; [write] is the outcome of writing the file. *)
Definition generate_statistics (write : result unit)
  : method analyzer (option stats) :=
  combined <- gets df_combined ;;
  match combined with
  | None => logger (Error None) ;; ret None
  | Some df =>
      try_method
        (d <- lift (build_statistics df) ;;
         lift write ;;
         logger (Info "Estatisticas salvas") ;;
         ret (Some d))
        (fun e => logger (Error (Some e)) ;; ret None)
  end.

End ImovelAnalyzer.

(** ** Pages and the network *)

Module Web.

(** A parsed page, as far as the scrapers look at it: the [href] of every
    anchor that has one, in document order, and for every selector the
    texts ([get_text(strip=True)]) of the elements it matches, in document
    order. *)
Record document : Type := mkDocument {
  hrefs : list string;
  elements : list (string * string)
}.

(** [soup.select(selector)], as texts. *)
Definition select (soup : document) (selector : string) : list string :=
  map snd (filter (fun kv => String.eqb selector (fst kv)) (elements soup)).

(** [soup.select_one(selector)], as text. *)
Definition select_one (soup : document) (selector : string) : option string :=
  hd_error (select soup selector).

(** What one request comes back with. *)
Inductive response : Type :=
| Response (status_code : nat) (content : document)
| Failure (e : exn).

(** The answer of the network to the [n]-th request (from 0) for a URL. *)
Definition server : Type := string -> nat -> response.

Definition times_requested (url : string) (sent : list string) : nat :=
  count_occ string_dec sent url.

(** [response.raise_for_status()] *)
Definition raise_for_status (r : response) : result document :=
  match r with
  | Failure e => raise e
  | Response status_code content =>
      if (400 <=? status_code)%nat && (status_code <? 600)%nat
      then raise (HTTPError status_code)
      else ret content
  end.

(** [lst[:stop]] *)
Definition slice_to {A : Type} (stop : Z) (l : list A) : list A :=
  if (0 <=? stop)%Z then firstn (Z.to_nat stop) l
  else firstn (Z.to_nat (Z.of_nat (List.length l) + stop)) l.

(** [range(1, stop + 1)] *)
Definition range_from_1 (stop : Z) : list nat := seq 1 (Z.to_nat stop).

End Web.

(** ** leilao_scraper.py *)

Module LeilaoScraper.

Import Web.

(** The dict built by [extract_imovel_data]. *)
Record imovel : Type := mkImovel {
  url : string;
  titulo : option string;
  preco_inicial : option float;
  preco_atual : option float;
  endereco : option string;
  area : option float;
  tipo_imovel : option string;
  data_leilao : option string;
  situacao : option string;
  descricao : option string;
  data_coleta : string
}.

(** The instance: [self.data], the requests [self.scraper] has sent, the
    files written and what was logged. *)
Record scraper : Type := mkScraper {
  data : list imovel;
  sent : list string;
  files : list (string * list imovel);
  log : list log_event
}.

(** [LeilaoScraper.__init__] *)
Definition init : scraper := mkScraper [] [] [] [].

Definition base_url : string := "https://www.leiloesjudiciais.com.br".

Definition logger (ev : log_event) : method scraper unit :=
  modify (fun s => mkScraper (data s) (sent s) (files s) (log s ++ [ev])).

(** [self.data.append(d)] *)
Definition data_append (d : imovel) : method scraper unit :=
  modify (fun s => mkScraper (data s ++ [d]) (sent s) (files s) (log s)).

(** The session has sent one more request. *)
Definition record_request (u : string) (s : scraper) : scraper :=
  mkScraper (data s) (sent s ++ [u]) (files s) (log s).

(** [time.sleep(...)]: no effect on any value. *)
Definition sleep : method scraper unit := ret tt.

(** [_safe_extract] *)
Definition _safe_extract (soup : document) (selector : string) : option string :=
  select_one soup selector.

(** [_extract_price] *)
Definition _extract_price (soup : document) (selector : string) : option float :=
  match _safe_extract soup selector with
  | Some price_text =>
      if Text.truthy price_text
      then
        let price_clean :=
          Text.commas_to_dots (Text.keep_price_chars (Text.chars price_text)) in
        match price_clean with
        | [] => None
        | _ :: _ => Text.float_of_chars price_clean
        end
      else None
  | None => None
  end.

(** [a or b] on optional texts. *)
Definition or_text (a b : option string) : option string :=
  match a with
  | Some t => if Text.truthy t then a else b
  | None => b
  end.

(** [_extract_area] *)
Definition _extract_area (soup : document) : option float :=
  match or_text (_safe_extract soup ".area") (_safe_extract soup ".metragem") with
  | Some area_text =>
      if Text.truthy area_text
      then match Text.area_search (Text.chars area_text) with
           | Some group1 => Text.float_of_chars (Text.commas_to_dots group1)
           | None => None
           end
      else None
  | None => None
  end.

Section Net.

Variable net : server.
(** [urljoin] of [urllib.parse]. *)
Variable urljoin : string -> string -> string.
(** [datetime.now()] as text, by the number of requests sent so far. *)
Variable clock : nat -> string.

(** [self.scraper.get(url)] followed by [raise_for_status] and parsing. *)
Definition fetch (url : string) : method scraper document :=
  n <- gets (fun s => times_requested url (sent s)) ;;
  modify (record_request url) ;;
  lift (raise_for_status (net url n)).

(** The inner loop of [get_imoveis_urls] over the anchors of a page. *)
Definition collect_links (links : list string) (urls : list string)
  : list string :=
  fold_left
    (fun urls href =>
       if Text.truthy href && Text.contains "/imovel/" href
       then let full_url := urljoin base_url href in
            if existsb (String.eqb full_url) urls then urls
            else urls ++ [full_url]
       else urls)
    links urls.

(** One turn of the loop over pages, with its [try]. *)
Definition visit_page (page : nat) (urls : list string)
  : method scraper (list string) :=
  try_method
    (let url := (base_url ++ "/imoveis?page=" ++ Text.of_nat page)%string in
     logger (Info "Processando pagina") ;;
     soup <- fetch url ;;
     let urls' := collect_links (hrefs soup) urls in
     sleep ;;
     ret urls')
    (fun e => logger (Error (Some e)) ;; ret urls).

Fixpoint visit_pages (pages : list nat) (urls : list string)
  : method scraper (list string) :=
  match pages with
  | [] => ret urls
  | page :: pages' =>
      urls' <- visit_page page urls ;;
      visit_pages pages' urls'
  end.

(** [get_imoveis_urls] *)
Definition get_imoveis_urls (max_pages : Z) : method scraper (list string) :=
  urls <- visit_pages (range_from_1 max_pages) [] ;;
  logger (Info "Coletadas URLs de imoveis") ;;
  ret urls.

(** [extract_imovel_data] *)
Definition extract_imovel_data (u : string) : method scraper (option imovel) :=
  try_method
    (soup <- fetch u ;;
     now <- gets (fun s => clock (List.length (sent s))) ;;
     ret (Some (mkImovel u
                  (_safe_extract soup "h1")
                  (_extract_price soup ".preco-inicial")
                  (_extract_price soup ".preco-atual")
                  (_safe_extract soup ".endereco")
                  (_extract_area soup)
                  (_safe_extract soup ".tipo-imovel")
                  (_safe_extract soup ".data-leilao")
                  (_safe_extract soup ".situacao")
                  (_safe_extract soup ".descricao")
                  now)))
    (fun e => logger (Error (Some e)) ;; ret None).

(** The body of the loop of [scrape_leiloes] over the URLs. *)
Definition process_url (u : string) : method scraper unit :=
  logger (Info "Processando imovel") ;;
  d <- extract_imovel_data u ;;
  (match d with
   | Some d => data_append d
   | None => ret tt
   end) ;;
  sleep.

(** [scrape_leiloes]; it returns nothing. *)
Definition scrape_leiloes (max_pages max_imoveis : Z) : method scraper unit :=
  logger (Info "Iniciando coleta de dados de leiloes judiciais") ;;
  urls <- get_imoveis_urls max_pages ;;
  let urls :=
    if (max_imoveis <? Z.of_nat (List.length urls))%Z
    then slice_to max_imoveis urls else urls in
  for_each urls process_url ;;
  logger (Info "Coleta finalizada").

(** What writing a file at a path comes to, from making its directory
    to closing it ([os.makedirs], [open], [json.dump] or [to_csv]): done,
    or an exception, as for a path that names a directory. *)
Variable disk : string -> result unit.

(** [save_data]: the JSON file, then the CSV file when there is data;
    nothing is caught, and [files] keeps the writes that were done. *)
Definition save_data (filename : option string) : method scraper unit :=
  now <- gets (fun s => clock (List.length (sent s))) ;;
  let filename :=
    match filename with
    | Some f =>
        if Text.truthy f then f
        else ("leiloes_data_" ++ now ++ ".json")%string
    | None => ("leiloes_data_" ++ now ++ ".json")%string
    end in
  let filepath :=
    if Text.starts_with (Text.chars "/") (Text.chars filename)
    then filename else ("../data/" ++ filename)%string in
  lift (disk filepath) ;;
  modify (fun s => mkScraper (data s) (sent s)
                     (files s ++ [(filepath, data s)]) (log s)) ;;
  logger (Info "Dados salvos") ;;
  d <- gets data ;;
  match d with
  | [] => ret tt
  | _ :: _ =>
      let csv_filename := Text.replace ".json" ".csv" filepath in
      lift (disk csv_filename) ;;
      modify (fun s => mkScraper (data s) (sent s)
                         (files s ++ [(csv_filename, data s)])
                         (log s)) ;;
      logger (Info "Dados tambem salvos")
  end.

End Net.

End LeilaoScraper.

(** ** vivareal_scraper.py *)

Module VivaRealScraper.

Import Web.

(** The dict built by [extract_imovel_data]. *)
Record imovel : Type := mkImovel {
  url : string;
  titulo : option string;
  preco : option float;
  endereco : option string;
  bairro : option string;
  cidade : option string;
  area : option float;
  quartos : option Z;
  banheiros : option Z;
  vagas : option Z;
  tipo_imovel : option string;
  descricao : option string;
  caracteristicas : option (list string);
  preco_m2 : option float;
  data_coleta : string;
  fonte : string
}.

Record scraper : Type := mkScraper {
  data : list imovel;
  sent : list string;
  files : list (string * list imovel);
  log : list log_event
}.

(** [VivaRealScraper.__init__] *)
Definition init : scraper := mkScraper [] [] [] [].

Definition base_url : string := "https://www.vivareal.com.br".

Definition logger (ev : log_event) : method scraper unit :=
  modify (fun s => mkScraper (data s) (sent s) (files s) (log s ++ [ev])).

(** [self.data.append(d)] *)
Definition data_append (d : imovel) : method scraper unit :=
  modify (fun s => mkScraper (data s ++ [d]) (sent s) (files s) (log s)).

(** The session has sent one more request. *)
Definition record_request (u : string) (s : scraper) : scraper :=
  mkScraper (data s) (sent s ++ [u]) (files s) (log s).

(** [time.sleep(...)]: no effect on any value. *)
Definition sleep : method scraper unit := ret tt.

(** [_safe_extract] *)
Definition _safe_extract (soup : document) (selector : string) : option string :=
  select_one soup selector.

(** [[data-testid="name"]] *)
Definition testid (name : string) : string :=
  ("[data-testid=" ++ Text.quote ++ name ++ Text.quote ++ "]")%string.

Definition price_selectors : list string :=
  [".price"; ".valor"; testid "price"; ".js-price"].

(** The cleaning and conversion of lines 164-166. *)
Definition price_of_text (price_text : string) : option float :=
  let price_clean :=
    Text.commas_to_dots (Text.keep_price_chars (Text.chars price_text)) in
  match price_clean with
  | [] => None
  | _ :: _ => Text.float_of_chars price_clean
  end.

(** The loop of [_extract_price]: the first selector that finds an element
    ends the function, whatever its text gives. *)
Fixpoint price_loop (soup : document) (selectors : list string) : option float :=
  match selectors with
  | [] => None
  | selector :: selectors' =>
      match select_one soup selector with
      | Some price_text => price_of_text price_text
      | None => price_loop soup selectors'
      end
  end.

(** [_extract_price] *)
Definition _extract_price (soup : document) : option float :=
  price_loop soup price_selectors.

Definition address_selectors : list string :=
  [".address"; ".endereco"; testid "address"].

Fixpoint address_loop (soup : document) (selectors : list string) : option string :=
  match selectors with
  | [] => None
  | selector :: selectors' =>
      match _safe_extract soup selector with
      | Some address =>
          if Text.truthy address then Some address
          else address_loop soup selectors'
      | None => address_loop soup selectors'
      end
  end.

(** [_extract_address] *)
Definition _extract_address (soup : document) : option string :=
  address_loop soup address_selectors.

Definition area_selectors : list string :=
  [".area"; ".metragem"; testid "area"].

(** The loop of [_extract_area]: a selector whose text is empty or does not
    match the pattern lets the loop go on. *)
Fixpoint area_loop (soup : document) (selectors : list string) : option float :=
  match selectors with
  | [] => None
  | selector :: selectors' =>
      match _safe_extract soup selector with
      | Some area_text =>
          if Text.truthy area_text
          then match Text.area_search (Text.chars area_text) with
               | Some group1 => Text.float_of_chars (Text.commas_to_dots group1)
               | None => area_loop soup selectors'
               end
          else area_loop soup selectors'
      | None => area_loop soup selectors'
      end
  end.

(** [_extract_area] *)
Definition _extract_area (soup : document) : option float :=
  area_loop soup area_selectors.

(** [_extract_number] *)
Definition _extract_number (soup : document) (selector : string) : option Z :=
  match _safe_extract soup selector with
  | Some t =>
      if Text.truthy t
      then match Text.digits_search (Text.chars t) with
           | Some group1 => Some (Text.digits_value group1)
           | None => None
           end
      else None
  | None => None
  end.

(** [_extract_features] *)
Definition _extract_features (soup : document) : option (list string) :=
  match filter Text.truthy (select soup ".feature, .caracteristica, .amenity") with
  | [] => None
  | (_ :: _) as features => Some features
  end.

(** Truth value of an optional number: present and not zero. *)
Definition truthy_float (x : option float) : bool :=
  match x with
  | Some (Fin q) => negb (Float.is_zero q)
  | Some _ => true
  | None => false
  end.

Section Net.

Variable net : server.
(** [urljoin] of [urllib.parse]. *)
Variable urljoin : string -> string -> string.
(** [datetime.now()] as text, by the number of requests sent so far. *)
Variable clock : nat -> string.
(** [list(set(l))]: the elements of [l] once each, in the order of the
    hash table. *)
Variable list_of_set : list string -> list string.

(** [self.scraper.get(url)] followed by [raise_for_status] and parsing. *)
Definition fetch (url : string) : method scraper document :=
  n <- gets (fun s => times_requested url (sent s)) ;;
  modify (record_request url) ;;
  lift (raise_for_status (net url n)).

Definition collect_links (links : list string) (urls : list string)
  : list string :=
  fold_left
    (fun urls href =>
       if Text.truthy href && Text.contains "/imovel/" href
       then let full_url := urljoin base_url href in
            if existsb (String.eqb full_url) urls then urls
            else urls ++ [full_url]
       else urls)
    links urls.

Definition visit_page (cidade tipo : string) (page : nat) (urls : list string)
  : method scraper (list string) :=
  try_method
    (let search_url :=
       (base_url ++ "/venda/" ++ cidade ++ "/" ++ tipo ++ "/?pagina="
          ++ Text.of_nat page)%string in
     logger (Info "Buscando pagina") ;;
     soup <- fetch search_url ;;
     let urls' := collect_links (hrefs soup) urls in
     sleep ;;
     ret urls')
    (fun e => logger (Error (Some e)) ;; ret urls).

Fixpoint visit_pages (cidade tipo : string) (pages : list nat)
         (urls : list string) : method scraper (list string) :=
  match pages with
  | [] => ret urls
  | page :: pages' =>
      urls' <- visit_page cidade tipo page urls ;;
      visit_pages cidade tipo pages' urls'
  end.

(** [search_imoveis] *)
Definition search_imoveis (cidade tipo : string) (max_pages : Z)
  : method scraper (list string) :=
  urls <- visit_pages cidade tipo (range_from_1 max_pages) [] ;;
  logger (Info "Encontradas URLs de imoveis") ;;
  ret urls.

(** [extract_imovel_data] *)
Definition extract_imovel_data (u : string) : method scraper (option imovel) :=
  try_method
    (soup <- fetch u ;;
     now <- gets (fun s => clock (List.length (sent s))) ;;
     let p := _extract_price soup in
     let a := _extract_area soup in
     ret (Some (mkImovel u
                  (_safe_extract soup "h1")
                  p
                  (_extract_address soup)
                  (_safe_extract soup ".neighborhood")
                  (_safe_extract soup ".city")
                  a
                  (_extract_number soup ".bedrooms")
                  (_extract_number soup ".bathrooms")
                  (_extract_number soup ".parking")
                  (_safe_extract soup ".property-type")
                  (_safe_extract soup ".description")
                  (_extract_features soup)
                  (match p, a with
                   | Some pv, Some av =>
                       if truthy_float p && truthy_float a
                       then Some (Float.rounded (Float.div pv av)) else None
                   | _, _ => None
                   end)
                  now
                  "vivareal")))
    (fun e => logger (Error (Some e)) ;; ret None).

Definition process_url (u : string) : method scraper unit :=
  logger (Info "Processando imovel") ;;
  d <- extract_imovel_data u ;;
  (match d with
   | Some d => data_append d
   | None => ret tt
   end) ;;
  sleep.

(** The loop over [tipos] for one city; [all_urls.extend(urls)]. *)
Fixpoint search_tipos (max_pages : Z) (c : string) (tipos : list string)
         (all_urls : list string) : method scraper (list string) :=
  match tipos with
  | [] => ret all_urls
  | tipo :: tipos' =>
      logger (Info "Buscando tipo em cidade") ;;
      urls <- search_imoveis c tipo max_pages ;;
      sleep ;;
      search_tipos max_pages c tipos' (all_urls ++ urls)
  end.

(** The loop over [cidades]. *)
Fixpoint search_cidades (max_pages : Z) (cidades tipos : list string)
         (all_urls : list string) : method scraper (list string) :=
  match cidades with
  | [] => ret all_urls
  | c :: cidades' =>
      all_urls' <- search_tipos max_pages c tipos all_urls ;;
      search_cidades max_pages cidades' tipos all_urls'
  end.

(** [x if x else default] for an optional list argument. *)
Definition or_default (x : option (list string)) (default : list string)
  : list string :=
  match x with
  | Some (_ :: _ as l) => l
  | _ => default
  end.

(** [scrape_mercado_tradicional]; it returns nothing. *)
Definition scrape_mercado_tradicional (cidades tipos : option (list string))
           (max_pages max_imoveis : Z) : method scraper unit :=
  let cidades :=
    or_default cidades ["sao-paulo"; "rio-de-janeiro"; "goiania"; "brasilia"] in
  let tipos := or_default tipos ["apartamento"; "casa"] in
  logger (Info "Iniciando coleta de dados do mercado tradicional") ;;
  all_urls <- search_cidades max_pages cidades tipos [] ;;
  let all_urls := list_of_set all_urls in
  let all_urls :=
    if (max_imoveis <? Z.of_nat (List.length all_urls))%Z
    then slice_to max_imoveis all_urls else all_urls in
  for_each all_urls process_url ;;
  logger (Info "Coleta finalizada").

(** What writing a file at a path comes to, from making its directory
    to closing it ([os.makedirs], [open], [json.dump] or [to_csv]): done,
    or an exception, as for a path that names a directory. *)
Variable disk : string -> result unit.

(** [save_data]: the JSON file, then the CSV file when there is data;
    nothing is caught, and [files] keeps the writes that were done. *)
Definition save_data (filename : option string) : method scraper unit :=
  now <- gets (fun s => clock (List.length (sent s))) ;;
  let filename :=
    match filename with
    | Some f =>
        if Text.truthy f then f
        else ("vivareal_data_" ++ now ++ ".json")%string
    | None => ("vivareal_data_" ++ now ++ ".json")%string
    end in
  let filepath :=
    if Text.starts_with (Text.chars "/") (Text.chars filename)
    then filename else ("../data/" ++ filename)%string in
  lift (disk filepath) ;;
  modify (fun s => mkScraper (data s) (sent s)
                     (files s ++ [(filepath, data s)]) (log s)) ;;
  logger (Info "Dados salvos") ;;
  d <- gets data ;;
  match d with
  | [] => ret tt
  | _ :: _ =>
      let csv_filename := Text.replace ".json" ".csv" filepath in
      lift (disk csv_filename) ;;
      modify (fun s => mkScraper (data s) (sent s)
                         (files s ++ [(csv_filename, data s)])
                         (log s)) ;;
      logger (Info "Dados tambem salvos")
  end.

End Net.

End VivaRealScraper.

(** ** Notions used to state the properties *)

Module Observations.

Import Pandas.

(** The cell of column [col] in row [i]. *)
Definition cell_at (df : DataFrame) (col : string) (i : nat) : option cell :=
  match get df col with
  | Some s => nth_error (values s) i
  | None => None
  end.

(** The cells of a column; none when the frame has no such column. *)
Definition cells_of (df : DataFrame) (col : string) : list cell :=
  match get df col with
  | Some s => values s
  | None => []
  end.

(** An area that is missing or not strictly positive. *)
Definition area_unusable (c : cell) : bool :=
  match c with
  | Num (Fin q) => Qle_bool q 0
  | Num PosInf => false
  | _ => true
  end.

Definition count_unusable_area (df : DataFrame) : nat :=
  List.length (filter area_unusable (cells_of df "area")).

(** A value lies in the closed interval [[lo, hi]]. *)
Definition in_interval (lo hi : float) (c : cell) : Prop :=
  exists x, c = Num x /\ Float.leb lo x = true /\ Float.leb x hi = true.

(** The number of rows whose price and area are both present once the
    numeric columns are coerced. *)
Definition usable_listings (str_to_float : string -> float) (df : DataFrame)
           (fonte : string) : nat :=
  let df_clean :=
    ImovelAnalyzer.convert_types str_to_float
      (ImovelAnalyzer.standardize_price fonte df) in
  List.length
    (filter (fun pa => negb (isna (fst pa)) && negb (isna (snd pa)))
            (combine (cells_of df_clean "preco") (cells_of df_clean "area"))).

(** The same count over the frames an analyzer holds. *)
Definition usable_in (str_to_float : string -> float)
           (a : ImovelAnalyzer.analyzer) : nat :=
  (match ImovelAnalyzer.df_leiloes a with
   | Some d => usable_listings str_to_float d "leilao"
   | None => 0
   end
   + match ImovelAnalyzer.df_tradicional a with
     | Some d => usable_listings str_to_float d "tradicional"
     | None => 0
     end)%nat.

(** The per-source entries of the dict [stats]. *)
Definition source_keys (d : ImovelAnalyzer.stats) : list cell :=
  map fst (filter (fun kv => match snd kv with
                             | ImovelAnalyzer.PerSource _ => true
                             | ImovelAnalyzer.Comparacao _ => false
                             end) d).

(** Every cell of the column [fonte] is the tag of the source. *)
Definition tagged (tag : string) (d : option DataFrame) : Prop :=
  forall df, d = Some df ->
    exists s, get df "fonte" = Some s /\ Forall (eq (Str tag)) (values s).

Definition leilao_key : cell := Str "leilao".
Definition tradicional_key : cell := Str "tradicional".

Definition known_source (c : cell) : Prop :=
  c = Str "leilao" \/ c = Str "tradicional".

Definition sources_known (d : option DataFrame) : Prop :=
  forall df s, d = Some df -> get df "fonte" = Some s ->
    Forall known_source (values s).

(** The invariant of an analyzer: its frames carry the tags that
    [load_data] wrote. *)
Definition tags_kept (a : ImovelAnalyzer.analyzer) : Prop :=
  tagged "leilao" (ImovelAnalyzer.df_leiloes a)
  /\ tagged "tradicional" (ImovelAnalyzer.df_tradicional a)
  /\ sources_known (ImovelAnalyzer.df_combined a).

(** The states an analyzer goes through when its methods are called. *)
Inductive reachable (str_to_float : string -> float)
  : ImovelAnalyzer.analyzer -> Prop :=
| reach_init : reachable str_to_float ImovelAnalyzer.init
| reach_load a leiloes_file tradicional_file :
    reachable str_to_float a ->
    reachable str_to_float
      (fst (ImovelAnalyzer.load_data leiloes_file tradicional_file a))
| reach_clean a :
    reachable str_to_float a ->
    reachable str_to_float (fst (ImovelAnalyzer.clean_data str_to_float a))
| reach_statistics a write :
    reachable str_to_float a ->
    reachable str_to_float (fst (ImovelAnalyzer.generate_statistics write a)).

(** The failures the specification calls transient: a timeout, a reset
    connection, a 5xx status, and rate limiting (429). *)
Definition transient (r : Web.response) : bool :=
  match r with
  | Web.Failure Timeout | Web.Failure ConnectionError => true
  | Web.Failure _ => false
  | Web.Response status _ =>
      ((500 <=? status)%nat && (status <? 600)%nat) || (status =? 429)%nat
  end.

(** A request that ends in an exception. *)
Definition failed (r : Web.response) : bool :=
  match Web.raise_for_status r with inl _ => true | inr _ => false end.

(** The URLs a run of [scrape_leiloes] goes through: those found on the
    index pages, cut at [max_imoveis]. *)
Definition leilao_urls (net : Web.server) (urljoin : string -> string -> string)
           (max_pages max_imoveis : Z) (s : LeilaoScraper.scraper) : list string :=
  match snd (LeilaoScraper.get_imoveis_urls net urljoin max_pages s) with
  | inr urls =>
      if (max_imoveis <? Z.of_nat (List.length urls))%Z
      then Web.slice_to max_imoveis urls else urls
  | inl _ => []
  end.

(** The URLs a run of [scrape_mercado_tradicional] goes through. *)
Definition vivareal_urls (net : Web.server) (urljoin : string -> string -> string)
           (list_of_set : list string -> list string)
           (cidades tipos : option (list string)) (max_pages max_imoveis : Z)
           (s : VivaRealScraper.scraper) : list string :=
  let cidades :=
    VivaRealScraper.or_default cidades
      ["sao-paulo"; "rio-de-janeiro"; "goiania"; "brasilia"] in
  let tipos := VivaRealScraper.or_default tipos ["apartamento"; "casa"] in
  match snd (VivaRealScraper.search_cidades net urljoin max_pages cidades tipos []
               (fst (VivaRealScraper.logger
                       (Info "Iniciando coleta de dados do mercado tradicional") s)))
  with
  | inr all_urls =>
      let all_urls := list_of_set all_urls in
      if (max_imoveis <? Z.of_nat (List.length all_urls))%Z
      then Web.slice_to max_imoveis all_urls else all_urls
  | inl _ => []
  end.

(** The network answers a URL the same way at every request, and the
    clock does not move. *)
Definition stationary (net : Web.server) (clock : nat -> string) : Prop :=
  (forall u n, net u n = net u 0%nat) /\ (forall n, clock n = clock 0%nat).

End Observations.

(** ** Concrete frames, pages and networks *)

Module Scenarios.

Import Pandas.

Definition floats (l : list Z) : Series :=
  mkSeries Float64 (map (fun z => Num (Float.of_Z z)) l).

(** A reading of texts that reads nothing. *)
Definition reads_nothing (s : string) : float := NaN.

(** Five listings whose price per square metre is 1, 2, 3, 4, 5. *)
Definition five : DataFrame :=
  mkDataFrame 5 [("preco_m2", floats [1; 2; 3; 4; 5]%Z)].

Definition five_once : DataFrame :=
  mkDataFrame 3 [("preco_m2", floats [2; 3; 4]%Z)].

Definition five_twice : DataFrame :=
  mkDataFrame 1 [("preco_m2", floats [3]%Z)].

(** Two auction listings: both carry an initial price, only the first a
    current price. *)
Definition mixed_bids : DataFrame :=
  mkDataFrame 2
    [("preco_inicial", floats [80; 90]%Z);
     ("preco_atual", mkSeries Float64 [Num (Float.of_Z 100); Num NaN]);
     ("area", floats [10; 10]%Z)].

(** Two listings of the traditional market, the second without an area. *)
Definition missing_area : DataFrame :=
  mkDataFrame 2
    [("preco", floats [100000; 200000]%Z);
     ("area", mkSeries Float64 [Num (Float.of_Z 50); Num NaN])].

(** One listing of the traditional market with a negative area. *)
Definition negative_area : DataFrame :=
  mkDataFrame 1
    [("preco", floats [100000]%Z); ("area", floats [-50]%Z)].

(** Two auction listings with a price and no area. *)
Definition no_area : DataFrame :=
  mkDataFrame 2
    [("preco_atual", floats [100; 200]%Z);
     ("area", mkSeries Float64 [Num NaN; Num NaN])].

(** [missing_area] before the outliers are looked for, and cleaned. *)
Definition missing_area_pre : DataFrame :=
  mkDataFrame 2
    [("preco", floats [100000; 200000]%Z);
     ("area", mkSeries Float64 [Num (Float.of_Z 50); Num NaN]);
     ("preco_m2", mkSeries Float64 [Num (Float.of_Z 2000); Num NaN])].

Definition missing_area_cleaned : DataFrame :=
  mkDataFrame 1
    [("preco", floats [100000]%Z);
     ("area", floats [50]%Z);
     ("preco_m2", floats [2000]%Z)].

(** [negative_area] cleaned: the listing stays, with a negative price per
    square metre. *)
Definition negative_area_cleaned : DataFrame :=
  mkDataFrame 1
    [("preco", floats [100000]%Z);
     ("area", floats [-50]%Z);
     ("preco_m2", floats [-2000]%Z)].

(** [no_area] cleaned: no row is left. *)
Definition no_area_cleaned : DataFrame :=
  mkDataFrame 0
    [("preco_atual", floats []); ("area", floats []);
     ("preco", floats []); ("preco_m2", floats [])].

(** [mixed_bids] cleaned: the listing without a current price is gone. *)
Definition mixed_bids_cleaned : DataFrame :=
  mkDataFrame 1
    [("preco_inicial", floats [80]%Z); ("preco_atual", floats [100]%Z);
     ("area", floats [10]%Z); ("preco", floats [100]%Z);
     ("preco_m2", floats [10]%Z)].

(** Auction listings at 3000 per square metre on average, market listings
    at 4000. *)
Definition auction_file : DataFrame :=
  mkDataFrame 3
    [("preco_inicial", floats [200000; 250000; 300000]%Z);
     ("preco_atual", floats [290000; 300000; 310000]%Z);
     ("area", floats [100; 100; 100]%Z)].

Definition market_file : DataFrame :=
  mkDataFrame 3
    [("preco", floats [487500; 500000; 512500]%Z);
     ("area", floats [125; 125; 125]%Z);
     ("preco_m2", mkSeries Float64 [Num NaN; Num NaN; Num NaN])].

Definition two_sources : ImovelAnalyzer.analyzer :=
  fst (ImovelAnalyzer.clean_data reads_nothing
         (fst (ImovelAnalyzer.load_data (ImovelAnalyzer.Content auction_file)
                 (ImovelAnalyzer.Content market_file) ImovelAnalyzer.init))).

Definition two_sources_stats : ImovelAnalyzer.stats :=
  [(Str "leilao",
    ImovelAnalyzer.PerSource
      (ImovelAnalyzer.mkSourceStats 1 (Float.of_Z 300000) (Float.of_Z 300000)
         (Float.of_Z 3000) (Float.of_Z 3000) (Float.of_Z 100)));
   (Str "tradicional",
    ImovelAnalyzer.PerSource
      (ImovelAnalyzer.mkSourceStats 1 (Float.of_Z 500000) (Float.of_Z 500000)
         (Float.of_Z 4000) (Float.of_Z 4000) (Float.of_Z 125)));
   (Str "comparacao",
    ImovelAnalyzer.Comparacao
      (ImovelAnalyzer.mkComparison (Float.of_Z 40) (Float.of_Z 25)))].

(** A combined frame with a third value in the column [fonte]; no such
    frame comes out of [load_data]. *)
Definition three_tags : DataFrame :=
  mkDataFrame 3
    [("fonte", mkSeries Object [Str "leilao"; Str "tradicional"; Str "outro"]);
     ("preco", floats [300000; 500000; 400000]%Z);
     ("area", floats [100; 125; 100]%Z);
     ("preco_m2", floats [3000; 4000; 4000]%Z)].

(** Pages and networks. *)

Definition join (base href : string) : string := (base ++ href)%string.

Definition noon (n : nat) : string := "2025-01-01T12:00:00".

Definition listing_page : Web.document :=
  Web.mkDocument []
    [("h1", "Casa em leilao"); (".preco-inicial", "R$ 400");
     (".preco-atual", "R$ 500"); (".area", "85 m2")].

Definition index_one : Web.document := Web.mkDocument ["/imovel/1"] [].

Definition index_two : Web.document :=
  Web.mkDocument ["/imovel/0"; "/imovel/1"] [].

Definition empty_page : Web.document := Web.mkDocument [] [].

Definition page_1 : string :=
  (LeilaoScraper.base_url ++ "/imoveis?page=1")%string.

Definition listing_url : string :=
  (LeilaoScraper.base_url ++ "/imovel/1")%string.

(** One listing on the index, and its page. *)
Definition net_one : Web.server :=
  fun url _ =>
    if String.eqb url page_1 then Web.Response 200 index_one
    else if String.eqb url listing_url then Web.Response 200 listing_page
         else Web.Response 404 empty_page.

(** Two listings on the index; the page of the first is not found. *)
Definition net_two : Web.server :=
  fun url _ =>
    if String.eqb url page_1 then Web.Response 200 index_two
    else if String.eqb url listing_url then Web.Response 200 listing_page
         else Web.Response 404 empty_page.

(** Every first request times out, every later one is answered. *)
Definition flaky : Web.server :=
  fun _ n =>
    match n with
    | O => Web.Failure Timeout
    | S _ => Web.Response 200 listing_page
    end.

(** Every request times out. *)
Definition down : Web.server := fun _ _ => Web.Failure Timeout.

Definition the_listing : LeilaoScraper.imovel :=
  LeilaoScraper.mkImovel listing_url (Some "Casa em leilao")
    (Some (Float.of_Z 400)) (Some (Float.of_Z 500)) None
    (Some (Float.of_Z 85)) None None None None "2025-01-01T12:00:00".

(** The first price selector finds a text without a number, the second a
    price. *)
Definition price_fallback_page : Web.document :=
  Web.mkDocument [] [(".price", "Sob consulta"); (".valor", "R$ 500")].

(** The first area selector finds a text without an area, the second an
    area. *)
Definition area_fallback_page : Web.document :=
  Web.mkDocument [] [(".area", "Consulte"); (".metragem", "85 m2")].

End Scenarios.


(** ** data_analyzer.py: plots and report *)

Module Reports.

Import Pandas ImovelAnalyzer.

(** [create_visualizations]; [plots] is the outcome of the body of its
    [try]: the plotting calls and the writing of the images. *)
Definition create_visualizations (plots : result unit) : method analyzer unit :=
  combined <- gets df_combined ;;
  match combined with
  | None => logger (Error None)
  | Some _ =>
      try_method
        (lift plots ;;
         logger (Info "Visualizacoes criadas"))
        (fun e => logger (Error (Some e)))
  end.

(** [generate_report]; [opening] is the outcome of opening the file and
    writing the lines that come before the statistics, [write] the outcome
    of the file that [generate_statistics] writes, [closing] the outcome of
    the lines that come after.  The text of the report is not represented. *)
Definition generate_report (opening write closing : result unit)
  : method analyzer unit :=
  combined <- gets df_combined ;;
  match combined with
  | None => logger (Error None)
  | Some _ =>
      try_method
        (lift opening ;;
         generate_statistics write ;;
         lift closing ;;
         logger (Info "Relatorio gerado"))
        (fun e => logger (Error (Some e)))
  end.

End Reports.

(** ** main.py *)

Module ImovelPipeline.

Import Pandas.

Definition text_cell (o : option string) : cell :=
  match o with Some s => Str s | None => Num NaN end.

Definition float_cell (o : option float) : cell :=
  match o with Some x => Num x | None => Num NaN end.

Definition is_some {A : Type} (o : option A) : bool :=
  match o with Some _ => true | None => false end.

(** A column of texts and [None]. *)
Definition text_series (l : list (option string)) : Series :=
  mkSeries Object (map text_cell l).

(** A column of numbers and [None]: numeric as soon as one number is
    there, a column of [None] objects otherwise. *)
Definition float_series (l : list (option float)) : Series :=
  mkSeries (if existsb is_some l then Float64 else Object) (map float_cell l).

(** [pd.DataFrame(json.load(f))] on the file that [LeilaoScraper.save_data]
    wrote: one column per key; no column at all for an empty list. *)
Definition leilao_frame (records : list LeilaoScraper.imovel) : DataFrame :=
  match records with
  | [] => mkDataFrame 0 []
  | _ :: _ =>
      mkDataFrame (List.length records)
        [("url", text_series (map (fun r => Some (LeilaoScraper.url r)) records));
         ("titulo", text_series (map LeilaoScraper.titulo records));
         ("preco_inicial", float_series (map LeilaoScraper.preco_inicial records));
         ("preco_atual", float_series (map LeilaoScraper.preco_atual records));
         ("endereco", text_series (map LeilaoScraper.endereco records));
         ("area", float_series (map LeilaoScraper.area records));
         ("tipo_imovel", text_series (map LeilaoScraper.tipo_imovel records));
         ("data_leilao", text_series (map LeilaoScraper.data_leilao records));
         ("situacao", text_series (map LeilaoScraper.situacao records));
         ("descricao", text_series (map LeilaoScraper.descricao records));
         ("data_coleta",
          text_series (map (fun r => Some (LeilaoScraper.data_coleta r)) records))]
  end.

(** The content of the file at [path]: what was written there last. *)
Definition read_file {A : Type} (path : string) (files : list (string * A))
  : option A :=
  lookup path (rev files).

(** The dict [config]. *)
Record config : Type := mkConfig {
  leiloes_max_pages : Z;
  leiloes_max_imoveis : Z;
  vivareal_cidades : option (list string);
  vivareal_tipos : option (list string);
  vivareal_max_pages : Z;
  vivareal_max_imoveis : Z
}.

Definition default_config : config :=
  mkConfig 2 30 (Some ["sao-paulo"; "goiania"]) (Some ["apartamento"; "casa"]) 2 20.

(** The dict that [run_full_pipeline] returns. *)
Record outcome : Type := mkOutcome {
  leiloes_file : option string;
  vivareal_file : option string;
  statistics : option ImovelAnalyzer.stats
}.

Section Pipeline.

Variable net : Web.server.
Variable urljoin : string -> string -> string.
Variable clock : nat -> string.
Variable list_of_set : list string -> list string.
(** What writing a file at a path comes to. *)
Variable disk : string -> result unit.
Variable str_to_float : string -> float.
(** [pd.DataFrame(json.load(f))] on the file that
    [VivaRealScraper.save_data] wrote. *)
Variable vivareal_frame : list VivaRealScraper.imovel -> DataFrame.
(** [self.timestamp] *)
Variable timestamp : string.
(** The outcomes of writing the statistics (twice), the plots and the
    report. *)
Variable write_stats plots opening write_again closing : result unit.

(** [run_leilao_scraping]: a new scraper, one run, one save. *)
Definition run_leilao_scraping (max_pages max_imoveis : Z)
  : LeilaoScraper.scraper * option string :=
  let filename := ("leiloes_data_" ++ timestamp ++ ".json")%string in
  match
    (LeilaoScraper.scrape_leiloes net urljoin clock max_pages max_imoveis ;;
     LeilaoScraper.save_data clock disk (Some filename)) LeilaoScraper.init
  with
  | (s, inr _) => (s, Some ("../data/" ++ filename)%string)
  | (s, inl _) => (s, None)
  end.

(** [run_vivareal_scraping] *)
Definition run_vivareal_scraping (cidades tipos : option (list string))
           (max_pages max_imoveis : Z)
  : VivaRealScraper.scraper * option string :=
  let cidades := VivaRealScraper.or_default cidades ["sao-paulo"; "goiania"] in
  let tipos := VivaRealScraper.or_default tipos ["apartamento"; "casa"] in
  let filename := ("vivareal_data_" ++ timestamp ++ ".json")%string in
  match
    (VivaRealScraper.scrape_mercado_tradicional net urljoin clock list_of_set
       (Some cidades) (Some tipos) max_pages max_imoveis ;;
     VivaRealScraper.save_data clock disk (Some filename)) VivaRealScraper.init
  with
  | (s, inr _) => (s, Some ("../data/" ++ filename)%string)
  | (s, inl _) => (s, None)
  end.

(** [run_analysis] on what the two paths hold. *)
Definition run_analysis (leiloes vivareal : ImovelAnalyzer.source_file)
  : ImovelAnalyzer.analyzer * option ImovelAnalyzer.stats :=
  match
    (ImovelAnalyzer.load_data leiloes vivareal ;;
     ImovelAnalyzer.clean_data str_to_float ;;
     stats <- ImovelAnalyzer.generate_statistics write_stats ;;
     Reports.create_visualizations plots ;;
     Reports.generate_report opening write_again closing ;;
     ret stats) ImovelAnalyzer.init
  with
  | (a, inr stats) => (a, stats)
  | (a, inl _) => (a, None)
  end.

(** What [load_data] finds at a path after the scrapers ran. *)
Definition open_file {A : Type} (frame : list A -> DataFrame)
           (files : list (string * list A)) (path : option string)
  : ImovelAnalyzer.source_file :=
  match path with
  | None => ImovelAnalyzer.Missing
  | Some p =>
      match read_file p files with
      | Some records => ImovelAnalyzer.Content (frame records)
      | None => ImovelAnalyzer.Missing
      end
  end.

(** [run_full_pipeline] *)
Definition run_full_pipeline (cfg : option config) : option outcome :=
  let cfg := match cfg with Some c => c | None => default_config end in
  let (ls, leiloes_path) :=
    run_leilao_scraping (leiloes_max_pages cfg) (leiloes_max_imoveis cfg) in
  let (vs, vivareal_path) :=
    run_vivareal_scraping (vivareal_cidades cfg) (vivareal_tipos cfg)
      (vivareal_max_pages cfg) (vivareal_max_imoveis cfg) in
  if is_some leiloes_path || is_some vivareal_path
  then
    let (_, stats) :=
      run_analysis
        (open_file leilao_frame (LeilaoScraper.files ls) leiloes_path)
        (open_file vivareal_frame (VivaRealScraper.files vs) vivareal_path) in
    Some (mkOutcome leiloes_path vivareal_path stats)
  else None.

End Pipeline.

End ImovelPipeline.

(** ** More notions used to state the properties *)

Module Measures.

Import Pandas.

(** Every column has one cell per row. *)
Definition well_formed (df : DataFrame) : Prop :=
  Forall (fun kv => List.length (values (snd kv)) = nrows df) (columns df).

(** The number of errors logged. *)
Definition errors_logged (l : list log_event) : nat :=
  List.length (filter (fun ev => match ev with Error _ => true | Info _ => false end) l).

(** The URL of an index page of the auction site. *)
Definition leilao_page_url (page : nat) : string :=
  (LeilaoScraper.base_url ++ "/imoveis?page=" ++ Text.of_nat page)%string.

(** The URL of a search page of the market site. *)
Definition vivareal_page_url (cidade tipo : string) (page : nat) : string :=
  (VivaRealScraper.base_url ++ "/venda/" ++ cidade ++ "/" ++ tipo ++ "/?pagina="
     ++ Text.of_nat page)%string.

(** The search pages of a run: for every city, for every type, the pages
    from 1 to [max_pages]. *)
Definition search_urls (cidades tipos : list string) (max_pages : Z)
  : list string :=
  flat_map
    (fun c =>
       flat_map
         (fun t => map (vivareal_page_url c t) (Web.range_from_1 max_pages))
         tipos)
    cidades.

(** [u] is the address of a link to a listing, joined to the site. *)
Definition linked (urljoin : string -> string -> string) (base u : string)
  : Prop :=
  exists href, u = urljoin base href /\ Text.contains "/imovel/" href = true.

(** One turn of the loop over the anchors of a page, for either site. *)
Definition link_step (urljoin : string -> string -> string) (base : string)
           (urls : list string) (href : string) : list string :=
  if Text.truthy href && Text.contains "/imovel/" href
  then let full_url := urljoin base href in
       if existsb (String.eqb full_url) urls then urls
       else urls ++ [full_url]
  else urls.

(** Distinct addresses of links to listings. *)
Definition distinct_links (urljoin : string -> string -> string) (base : string)
           (urls : list string) : Prop :=
  NoDup urls /\ Forall (linked urljoin base) urls.

(** A column of texts and missing values, as [pd.DataFrame] builds from
    strings and [None]. *)
Definition textual (s : Series) : Prop :=
  dtype_of s = Object /\
  Forall (fun c => is_str c = true \/ isna c = true) (values s).

(** The frame [load_data] keeps for the auction file. *)
Definition loaded_leiloes (df : DataFrame) : DataFrame :=
  setitem df "fonte" (str_column df "leilao").

(** The commas and dots of a text. *)
Definition separators (t : string) : nat :=
  List.length (filter (fun c => Text.is_char 44 c || Text.is_char 46 c) (Text.chars t)).

(** A number that is finite and not negative. *)
Definition plain_number (x : float) : Prop :=
  exists q : Q, x = Fin q /\ (0 <= q)%Q.

(** A number that is not negative: a finite one, or the infinity that
    [float] gives for a text of too many digits; not [nan]. *)
Definition not_negative (x : float) : Prop :=
  x = PosInf \/ plain_number x.

(** The request for [u] after the requests [sent] is answered. *)
Definition answers (net : Web.server) (sent : list string) (u : string) : bool :=
  negb (Observations.failed (net u (Web.times_requested u sent))).

(** A disk on which every write is done. *)
Definition writable : string -> result unit := fun _ => inr tt.

(** The URLs of a run of [scrape_leiloes] whose request is answered, in
    the order the run goes through them: [s0] is the instance when the
    URLs are collected, [s1] when the loop over them starts. *)
Definition leilao_harvest (net : Web.server)
           (urljoin : string -> string -> string)
           (max_pages max_imoveis : Z) (s : LeilaoScraper.scraper)
  : list string :=
  let s0 :=
    fst (LeilaoScraper.logger
           (Info "Iniciando coleta de dados de leiloes judiciais") s) in
  let s1 := fst (LeilaoScraper.get_imoveis_urls net urljoin max_pages s0) in
  filter (answers net (LeilaoScraper.sent s1))
         (Observations.leilao_urls net urljoin max_pages max_imoveis s0).

(** The same for a run of [scrape_mercado_tradicional]. *)
Definition vivareal_harvest (net : Web.server)
           (urljoin : string -> string -> string)
           (list_of_set : list string -> list string)
           (cidades tipos : option (list string)) (max_pages max_imoveis : Z)
           (v : VivaRealScraper.scraper) : list string :=
  let v0 :=
    fst (VivaRealScraper.logger
           (Info "Iniciando coleta de dados do mercado tradicional") v) in
  let v1 :=
    fst (VivaRealScraper.search_cidades net urljoin max_pages
           (VivaRealScraper.or_default cidades
              ["sao-paulo"; "rio-de-janeiro"; "goiania"; "brasilia"])
           (VivaRealScraper.or_default tipos ["apartamento"; "casa"]) [] v0) in
  filter (answers net (VivaRealScraper.sent v1))
         (Observations.vivareal_urls net urljoin list_of_set cidades tipos
            max_pages max_imoveis v).

(** [list(set(l))] in order of first appearance. *)
Definition set_list (l : list string) : list string := nodup string_dec l.

(** Both sites list the listings 0 and 1 on every index page; the page of
    listing 0 is not found, the page of listing 1 is. *)
Definition two_sites : Web.server :=
  fun url _ =>
    if Text.contains "/imovel/" url
    then if Text.contains "/imovel/0" url
         then Web.Response 404 Scenarios.empty_page
         else Web.Response 200 Scenarios.listing_page
    else Web.Response 200 Scenarios.index_two.

(** What the market scraper makes of the page of listing 1. *)
Definition market_listing_1 : VivaRealScraper.imovel :=
  VivaRealScraper.mkImovel
    (VivaRealScraper.base_url ++ "/imovel/1")%string
    (Some "Casa em leilao") None None None None
    (Some (Float.of_Z 85)) None None None None None None
    None "2025-01-01T12:00:00" "vivareal".

(** [strip] on the characters of a text. *)
Definition trimmed (l : list ascii) : list ascii :=
  rev (Text.drop_while Text.is_space (rev (Text.drop_while Text.is_space l))).

(** What [.str.lower().str.strip()] makes of a cell. *)
Definition tidy_cell (c : cell) : cell :=
  match c with
  | Str t => Str (Text.strip (Text.lower t))
  | Num _ => Num NaN
  end.

(** The rows of the combined frame that carry a given tag. *)
Definition rows_tagged (tag : cell) (df : DataFrame) : nat :=
  count_true (map (fun c => cell_eqb c tag) (Observations.cells_of df "fonte")).

(** The sum of [total_imoveis] over the per-source entries. *)
Definition total_counted (d : ImovelAnalyzer.stats) : nat :=
  fold_right
    (fun kv acc =>
       match snd kv with
       | ImovelAnalyzer.PerSource s => (ImovelAnalyzer.total_imoveis s + acc)%nat
       | ImovelAnalyzer.Comparacao _ => acc
       end) 0%nat d.

(** A page whose price has thousands separators. *)
Definition thousands_page : Web.document :=
  Web.mkDocument [] [(".preco-atual", "R$ 1.250.000,00")].

(** A market listing at 500 for 100 square metres, and a network that
    answers every request with it. *)
Definition market_page : Web.document :=
  Web.mkDocument [] [(".price", "R$ 500"); (".area", "100 m2")].

Definition market_net : Web.server := fun _ _ => Web.Response 200 market_page.

Definition market_listing : VivaRealScraper.imovel :=
  VivaRealScraper.mkImovel "u" None (Some (Float.of_Z 500)) None None None
    (Some (Float.of_Z 100)) None None None None None None
    (Some (Float.of_Z 5)) "2025-01-01T12:00:00" "vivareal".

(** Three well-formed auction listings; the third has no area. *)
Definition three_listings : DataFrame :=
  mkDataFrame 3
    [("preco_atual", Scenarios.floats [290000; 300000; 310000]%Z);
     ("area", mkSeries Float64
                [Num (Float.of_Z 100); Num (Float.of_Z 100); Num NaN]);
     ("tipo_imovel", mkSeries Object [Str " Casa "; Str "APARTAMENTO"; Num NaN])].

End Measures.

(** * Properties *)

(** ** Facts about the pandas operations *)

Module PandasFacts.

Import Pandas.

Lemma lookup_assign_same {A : Type} (k : string) (v : A) (l : list (string * A)) :
  lookup k (assign k v l) = Some v.
Proof.
  induction l as [|[k' v'] l IH]; simpl.
  - now rewrite String.eqb_refl.
  - destruct (String.eqb k k') eqn:E; simpl.
    + now rewrite String.eqb_refl.
    + now rewrite E.
Qed.

Lemma lookup_assign_other {A : Type} (k k' : string) (v : A)
      (l : list (string * A)) :
  String.eqb k k' = false -> lookup k (assign k' v l) = lookup k l.
Proof.
  intros Hne. induction l as [|[k0 v0] l IH]; simpl.
  - now rewrite Hne.
  - destruct (String.eqb k' k0) eqn:E; simpl.
    + apply String.eqb_eq in E. subst k0. now rewrite Hne.
    + destruct (String.eqb k k0); auto.
Qed.

Lemma get_setitem_same df col s : get (setitem df col s) col = Some s.
Proof. apply lookup_assign_same. Qed.

Lemma get_setitem_other df col col' s :
  String.eqb col col' = false -> get (setitem df col' s) col = get df col.
Proof. apply lookup_assign_other. Qed.

Lemma numeric_cells_map l xs : numeric_cells l = inr xs -> l = map Num xs.
Proof.
  revert xs. induction l as [|c l IH]; simpl; intros xs H.
  - inversion H. reflexivity.
  - destruct c as [x|s]; [|discriminate].
    destruct (numeric_cells l) as [e|ys]; simpl in H; [discriminate|].
    inversion H. subst xs. simpl. f_equal. now apply IH.
Qed.

Lemma numeric_cells_of_map xs : numeric_cells (map Num xs) = inr xs.
Proof.
  induction xs as [|x xs IH]; simpl; [reflexivity|]. now rewrite IH.
Qed.

Lemma mask_filter_map {A B : Type} (p : A -> bool) (f : A -> B) (l : list A) :
  mask_filter (map p l) (map f l) = map f (filter p l).
Proof.
  induction l as [|x l IH]; simpl; [reflexivity|].
  destruct (p x); simpl; now rewrite IH.
Qed.

Lemma count_true_map {A : Type} (p : A -> bool) (l : list A) :
  count_true (map p l) = List.length (filter p l).
Proof.
  unfold count_true. induction l as [|x l IH]; simpl; [reflexivity|].
  destruct (p x); simpl; now rewrite IH.
Qed.

Lemma lookup_map_values {A B : Type} (f : A -> B) (k : string)
      (l : list (string * A)) :
  lookup k (map (fun kv => (fst kv, f (snd kv))) l) = option_map f (lookup k l).
Proof.
  induction l as [|[k' v] l IH]; simpl; [reflexivity|].
  destruct (String.eqb k k'); simpl; auto.
Qed.

Lemma get_select_rows mask df col :
  get (select_rows mask df) col
  = option_map (fun s => mkSeries (dtype_of s) (mask_filter mask (values s)))
               (get df col).
Proof.
  unfold get, select_rows. simpl.
  apply (lookup_map_values
           (fun s => mkSeries (dtype_of s) (mask_filter mask (values s)))).
Qed.

(** A mask of [n] times [True] keeps a column of at most [n] cells whole. *)
Lemma mask_filter_all_true {A : Type} (mask : list bool) (l : list A) :
  forallb (fun b => b) mask = true ->
  (List.length l <= List.length mask)%nat ->
  mask_filter mask l = l.
Proof.
  revert l. induction mask as [|b mask IH]; intros [|x l]; simpl; auto.
  - intros _ H. lia.
  - intros H Hl. apply andb_true_iff in H as [-> H]. f_equal.
    apply IH; auto. lia.
Qed.

Lemma mask_filter_length {A : Type} (mask : list bool) (l : list A) :
  (List.length (mask_filter mask l) <= count_true mask)%nat.
Proof.
  unfold count_true. revert l.
  induction mask as [|b mask IH]; intros [|x l]; simpl; try lia;
    destruct b; simpl; try lia; specialize (IH l); lia.
Qed.

Lemma forallb_map_filter {A : Type} (p : A -> bool) (l : list A) :
  forallb (fun b => b) (map p (filter p l)) = true.
Proof.
  induction l as [|x l IH]; simpl; [reflexivity|].
  destruct (p x) eqn:E; simpl; [rewrite E|]; auto.
Qed.

Lemma within_spec lo hi x :
  within lo hi x = true <-> Float.leb lo x = true /\ Float.leb x hi = true.
Proof. unfold within, Float.geb. apply andb_true_iff. Qed.

Lemma within_nan lo hi : within lo hi NaN = false.
Proof. unfold within, Float.geb. now destruct lo. Qed.

Lemma div_nan_r x : Float.div x NaN = NaN.
Proof. now destruct x. Qed.

Lemma div_nan_l y : Float.div NaN y = NaN.
Proof. reflexivity. Qed.

End PandasFacts.

(** ** Cleaning *)

Module CleaningFacts.

Import Pandas ImovelAnalyzer PandasFacts Observations.

#[local] Arguments series_div : simpl never.
#[local] Arguments str_map : simpl never.
#[local] Arguments select_rows : simpl never.
#[local] Arguments setitem : simpl never.
#[local] Arguments numeric_values : simpl never.
#[local] Arguments concat : simpl never.
#[local] Arguments _clean_dataframe : simpl never.
Section Facts.
Variable f : string -> float.

Lemma remove_outliers_inr df d1 :
  remove_outliers df = inr d1 ->
  (get df "preco_m2" = None /\ d1 = df) \/
  exists s xs, get df "preco_m2" = Some s /\ values s = map Num xs /\
     d1 = select_rows (map (within (quantile_floats xs (1#100)) (quantile_floats xs (99#100))) xs) df.
Proof.
  unfold remove_outliers. destruct (get df "preco_m2") as [s|] eqn:G.
  - intros H. right. exists s.
    unfold outlier_bounds, quantile, keep_between, getitem, between in H.
    rewrite G in H. cbn in H.
    destruct (numeric_values s) as [e|xs] eqn:N; cbn in H; [discriminate|].
    exists xs. inversion H. split; [reflexivity|]. split; [|reflexivity].
    now apply numeric_cells_map.
  - intros H. left. inversion H. auto.
Qed.

Lemma standardize_tipo_inr df d :
  standardize_tipo df = inr d ->
  nrows d = nrows df /\
  forall col, String.eqb col "tipo_imovel" = false -> get d col = get df col.
Proof.
  unfold standardize_tipo. destruct (get df "tipo_imovel") as [t|].
  - destruct (str_map Text.lower t) as [e|l]; cbn; [discriminate|].
    destruct (str_map Text.strip l) as [e|st]; cbn; [discriminate|].
    intros H. inversion H. split; [reflexivity|].
    intros col Hc. now apply get_setitem_other.
  - intros H. inversion H. auto.
Qed.

Lemma derive_preco_m2_column df d :
  derive_preco_m2 df = inr d -> exists s, get d "preco_m2" = Some s.
Proof.
  unfold derive_preco_m2, derives_preco_m2.
  destruct (get df "preco_m2") as [s|] eqn:G.
  - destruct (isna_all s).
    + unfold getitem. destruct (get df "preco") as [p|]; cbn; [|discriminate].
      destruct (get df "area") as [ar|]; cbn; [|discriminate].
      destruct (series_div p ar); cbn; [discriminate|].
      intros H. inversion H. eexists. apply get_setitem_same.
    + intros H. inversion H. subst. eauto.
  - unfold getitem. destruct (get df "preco") as [p|]; cbn; [|discriminate].
    destruct (get df "area") as [ar|]; cbn; [|discriminate].
    destruct (series_div p ar); cbn; [discriminate|].
    intros H. inversion H. eexists. apply get_setitem_same.
Qed.

Lemma clean_dataframe_inr df fonte d :
  _clean_dataframe f df fonte = inr d ->
  exists pre mid, before_rejection f df fonte = inr pre /\
                  remove_outliers pre = inr mid /\
                  standardize_tipo mid = inr d.
Proof.
  unfold _clean_dataframe.
  destruct (before_rejection f df fonte) as [e|pre]; cbn; [discriminate|].
  destruct (remove_outliers pre) as [e|mid] eqn:E; cbn; [discriminate|].
  intros H. exists pre, mid. auto.
Qed.

Lemma clean_data_sources a :
  let a' := fst (clean_data f a) in
  (df_leiloes a' = df_leiloes a \/
   exists d d', df_leiloes a = Some d /\ _clean_dataframe f d "leilao" = inr d'
                /\ df_leiloes a' = Some d') /\
  (df_tradicional a' = df_tradicional a \/
   exists d d', df_tradicional a = Some d
                /\ _clean_dataframe f d "tradicional" = inr d'
                /\ df_tradicional a' = Some d').
Proof.
  unfold clean_data, try_method. cbn. unfold method_bind, gets, lift, modify, logger, _combine_datasets. cbn.
  destruct a as [l t c lg]. cbn.
  destruct l as [dl|]; cbn.
  - destruct (_clean_dataframe f dl "leilao") as [e|dl'] eqn:El; cbn.
    + auto.
    + destruct t as [dt|]; cbn.
      * destruct (_clean_dataframe f dt "tradicional") as [e|dt'] eqn:Et; cbn.
        -- split; [right; eauto|auto].
        -- split; right; eauto.
      * split; [right; eauto|auto].
  - destruct t as [dt|]; cbn.
    + destruct (_clean_dataframe f dt "tradicional") as [e|dt'] eqn:Et; cbn.
      * auto.
      * split; [auto|right; eauto].
    + auto.
Qed.

(** C1. A cleaning pass keeps a listing only if its price per square metre
      lies between the 1st and the 99th percentile of the column of that same
      frame as it stood before the rejection; and [clean_data] hands every
      source its own frame alone, so no bound comes from another source. *)
Theorem C1_retained_within_own_percentiles
        (df : DataFrame) (fonte : string) (cleaned : DataFrame) :
  _clean_dataframe f df fonte = inr cleaned ->
  (exists pre preco_m2 Q1 Q3,
      before_rejection f df fonte = inr pre /\
      get pre "preco_m2" = Some preco_m2 /\
      quantile preco_m2 (1 # 100) = inr Q1 /\
      quantile preco_m2 (99 # 100) = inr Q3 /\
      Forall (in_interval Q1 Q3) (cells_of cleaned "preco_m2")) /\
  (forall a : analyzer,
      let a' := fst (clean_data f a) in
      (df_leiloes a' = df_leiloes a \/
       exists d d', df_leiloes a = Some d
                    /\ _clean_dataframe f d "leilao" = inr d'
                    /\ df_leiloes a' = Some d') /\
      (df_tradicional a' = df_tradicional a \/
       exists d d', df_tradicional a = Some d
                    /\ _clean_dataframe f d "tradicional" = inr d'
                    /\ df_tradicional a' = Some d')).
Proof.
  intros H. split; [|apply clean_data_sources].
  destruct (clean_dataframe_inr _ _ _ H) as (pre & mid & Hpre & Hmid & Htipo).
  assert (Hcol : exists s, get pre "preco_m2" = Some s).
  { unfold before_rejection in Hpre. eapply derive_preco_m2_column; eauto. }
  destruct Hcol as [s Hs].
  destruct (remove_outliers_inr _ _ Hmid) as [[Hnone _]|(s' & xs & Hs' & Hxs & ->)];
    [congruence|].
  rewrite Hs in Hs'. inversion Hs'. subst s'. clear Hs'.
  exists pre, s, (quantile_floats xs (1 # 100)), (quantile_floats xs (99 # 100)).
  repeat split; auto.
  - unfold quantile, numeric_values. rewrite Hxs, numeric_cells_of_map. reflexivity.
  - unfold quantile, numeric_values. rewrite Hxs, numeric_cells_of_map. reflexivity.
  - destruct (standardize_tipo_inr _ _ Htipo) as [_ Hget].
    unfold cells_of. rewrite (Hget "preco_m2" eq_refl), get_select_rows, Hs. cbn.
    rewrite Hxs, mask_filter_map.
    apply Forall_forall. intros c Hc.
    apply in_map_iff in Hc as (x & <- & Hx).
    apply filter_In in Hx as [_ Hx]. apply within_spec in Hx.
    exists x. tauto.
Qed.


Lemma count_true_all_true mask :
  forallb (fun b => b) mask = true -> count_true mask = List.length mask.
Proof.
  unfold count_true. induction mask as [|b mask IH]; simpl; auto.
  intros H. apply andb_true_iff in H as [-> H]. simpl. now rewrite IH.
Qed.

(** Selecting with a mask that is true everywhere, on a frame that came
    out of a selection keeping as many rows. *)
Lemma select_rows_again mask mask' df :
  forallb (fun b => b) mask' = true ->
  List.length mask' = count_true mask ->
  select_rows mask' (select_rows mask df) = select_rows mask df.
Proof.
  intros Hall Hlen. unfold select_rows. cbn.
  rewrite (count_true_all_true _ Hall), Hlen. f_equal.
  rewrite map_map. apply map_ext. intros [col s]. cbn. f_equal. f_equal.
  apply mask_filter_all_true; auto.
  rewrite Hlen. apply mask_filter_length.
Qed.

(** C9, amended. Selecting again between the two bounds [Q1], [Q3] that
      the first pass computed removes no listing from the frame that pass
      produced. *)
Theorem C9_same_bounds_remove_nothing
        (df : DataFrame) (preco_m2 : Series) (Q1 Q3 : float) (once : DataFrame) :
  get df "preco_m2" = Some preco_m2 ->
  outlier_bounds preco_m2 = inr (Q1, Q3) ->
  remove_outliers df = inr once ->
  keep_between Q1 Q3 once = inr once.
Proof.
  intros Hs Hb Honce.
  destruct (remove_outliers_inr _ _ Honce) as [[Hnone _]|(s & xs & Hs' & Hxs & ->)];
    [congruence|].
  rewrite Hs in Hs'. inversion Hs'. subst s. clear Hs'.
  unfold outlier_bounds, quantile, numeric_values in Hb.
  rewrite Hxs, numeric_cells_of_map in Hb. cbn in Hb. inversion Hb. subst Q1 Q3.
  set (p := within (quantile_floats xs (1 # 100)) (quantile_floats xs (99 # 100))).
  unfold keep_between, getitem. rewrite get_select_rows, Hs. cbn.
  unfold between, numeric_values. cbn.
  rewrite Hxs, mask_filter_map, numeric_cells_of_map. cbn.
  f_equal. apply select_rows_again.
  - apply forallb_map_filter.
  - now rewrite length_map, count_true_map.
Qed.


Lemma combine_nth_error {A B : Type} (l1 : list A) (l2 : list B) i x y :
  nth_error (combine l1 l2) i = Some (x, y) ->
  nth_error l1 i = Some x /\ nth_error l2 i = Some y.
Proof.
  revert l2 i. induction l1 as [|a l1 IH]; intros [|b l2] [|i]; simpl;
    try discriminate.
  - intros H. inversion H. auto.
  - apply IH.
Qed.

(** What [derive_preco_m2] builds when it derives the column. *)
Lemma derive_preco_m2_derived df pre :
  derives_preco_m2 df = true ->
  derive_preco_m2 df = inr pre ->
  exists preco area ps ars,
    get df "preco" = Some preco /\ get df "area" = Some area /\
    values preco = map Num ps /\ values area = map Num ars /\
    pre = setitem df "preco_m2"
            (mkSeries Float64
               (map (fun p => Num (Float.div (fst p) (snd p))) (combine ps ars))).
Proof.
  unfold derive_preco_m2. intros ->. unfold getitem.
  destruct (get df "preco") as [preco|]; cbn; [|discriminate].
  destruct (get df "area") as [area|]; cbn; [|discriminate].
  unfold series_div.
  destruct (numeric_values preco) as [e|ps] eqn:Ep; cbn; [discriminate|].
  destruct (numeric_values area) as [e|ars] eqn:Ea; cbn; [discriminate|].
  intros H. inversion H. exists preco, area, ps, ars.
  repeat split; auto; now apply numeric_cells_map.
Qed.

Lemma kept_areas_present lo hi ps ars :
  Forall (fun a => isna a = false)
    (mask_filter
       (map (within lo hi)
            (map (fun p => Float.div (fst p) (snd p)) (combine ps ars)))
       (map Num ars)).
Proof.
  revert ars. induction ps as [|x ps IH]; intros [|a ars]; simpl; auto.
  destruct (within lo hi (Float.div x a)) eqn:W; [|apply IH].
  constructor; [|apply IH].
  destruct a; try reflexivity.
  rewrite div_nan_r, within_nan in W. discriminate.
Qed.

Lemma no_usable_none_kept lo hi ps ars :
  List.length
    (filter (fun pa => negb (isna (fst pa)) && negb (isna (snd pa)))
            (combine (map Num ps) (map Num ars))) = 0%nat ->
  count_true
    (map (within lo hi)
         (map (fun p => Float.div (fst p) (snd p)) (combine ps ars))) = 0%nat.
Proof.
  unfold count_true.
  revert ars. induction ps as [|x ps IH]; intros [|a ars]; simpl; auto.
  destruct x, a; simpl; try discriminate; intros H;
    rewrite ?within_nan; simpl; auto.
Qed.

Lemma clean_data_returns a : snd (clean_data f a) = inr tt.
Proof.
  unfold clean_data, try_method. cbn.
  unfold method_bind, gets, lift, modify, logger, _combine_datasets. cbn.
  destruct a as [l t c lg]. cbn.
  destruct l as [dl|]; cbn.
  - destruct (_clean_dataframe f dl "leilao") as [e|dl']; cbn; [reflexivity|].
    destruct t as [dt|]; cbn; [|reflexivity].
    destruct (_clean_dataframe f dt "tradicional") as [e|dt']; reflexivity.
  - destruct t as [dt|]; cbn; [|reflexivity].
    destruct (_clean_dataframe f dt "tradicional") as [e|dt']; reflexivity.
Qed.

(** C2, amended. When the price per square metre is derived by the
      cleaning, a listing whose area is missing gets a missing value for it,
      and no listing with a missing area is left in the cleaned frame: the
      outlier selection drops it. *)
Theorem C2_missing_area_is_dropped
        (df : DataFrame) (fonte : string) (cleaned : DataFrame) :
  _clean_dataframe f df fonte = inr cleaned ->
  derives_preco_m2 (convert_types f (standardize_price fonte df)) = true ->
  exists pre,
    before_rejection f df fonte = inr pre /\
    (forall i a p,
        cell_at pre "area" i = Some a ->
        cell_at pre "preco_m2" i = Some p ->
        isna a = true -> p = Num NaN) /\
    Forall (fun a => isna a = false) (cells_of cleaned "area").
Proof.
  intros H Hd.
  destruct (clean_dataframe_inr _ _ _ H) as (pre & mid & Hpre & Hmid & Htipo).
  exists pre. split; [assumption|].
  unfold before_rejection in Hpre.
  destruct (derive_preco_m2_derived _ _ Hd Hpre)
    as (preco & area & ps & ars & Hp & Ha & Hps & Hars & ->).
  set (conv := convert_types f (standardize_price fonte df)) in *.
  split.
  - intros i a p. unfold cell_at.
    rewrite get_setitem_same, (get_setitem_other _ "area" "preco_m2" _ eq_refl), Ha.
    cbn. rewrite Hars. intros Hia Hip Hna.
    rewrite nth_error_map in Hip.
    destruct (nth_error (combine ps ars) i) as [[x y]|] eqn:E; [|discriminate].
    cbn in Hip. inversion Hip. subst p.
    apply combine_nth_error in E as [_ Ey].
    rewrite nth_error_map, Ey in Hia. cbn in Hia. inversion Hia. subst a.
    destruct y; try discriminate. now rewrite div_nan_r.
  - destruct (remove_outliers_inr _ _ Hmid) as [[Hnone _]|(s & xs & Hs & Hxs & ->)].
    + rewrite get_setitem_same in Hnone. discriminate.
    + rewrite get_setitem_same in Hs. inversion Hs. subst s. cbn in Hxs.
      destruct (standardize_tipo_inr _ _ Htipo) as [_ Hget].
      unfold cells_of.
      rewrite (Hget "area" eq_refl), get_select_rows,
        (get_setitem_other _ "area" "preco_m2" _ eq_refl), Ha.
      cbn. rewrite Hars.
      assert (Exs : xs = map (fun p => Float.div (fst p) (snd p)) (combine ps ars)).
      { apply (f_equal numeric_cells) in Hxs.
        rewrite numeric_cells_of_map in Hxs.
        rewrite <- map_map with (g := Num) in Hxs.
        rewrite numeric_cells_of_map in Hxs. now inversion Hxs. }
      rewrite Exs. apply kept_areas_present.
Qed.

(** C4, amended. When no listing has both a price and an area after
      coercion, and the price per square metre is derived from them, the
      cleaning returns a frame without rows instead of raising; and
      [clean_data] never raises to its caller, whatever the frames. *)
Theorem C4_no_usable_listing_gives_empty_dataset
        (df : DataFrame) (fonte : string) (cleaned : DataFrame) :
  _clean_dataframe f df fonte = inr cleaned ->
  derives_preco_m2 (convert_types f (standardize_price fonte df)) = true ->
  usable_listings f df fonte = 0%nat ->
  nrows cleaned = 0%nat /\
  (forall a : analyzer, snd (clean_data f a) = inr tt).
Proof.
  intros H Hd Hu. split; [|apply clean_data_returns].
  destruct (clean_dataframe_inr _ _ _ H) as (pre & mid & Hpre & Hmid & Htipo).
  unfold before_rejection in Hpre.
  destruct (derive_preco_m2_derived _ _ Hd Hpre)
    as (preco & area & ps & ars & Hp & Ha & Hps & Hars & ->).
  unfold usable_listings, cells_of in Hu.
  set (conv := convert_types f (standardize_price fonte df)) in *.
  rewrite Hp, Ha, Hps, Hars in Hu.
  destruct (remove_outliers_inr _ _ Hmid) as [[Hnone _]|(s & xs & Hs & Hxs & ->)].
  - rewrite get_setitem_same in Hnone. discriminate.
  - rewrite get_setitem_same in Hs. inversion Hs. subst s. cbn in Hxs.
    destruct (standardize_tipo_inr _ _ Htipo) as [-> _].
    assert (Exs : xs = map (fun p => Float.div (fst p) (snd p)) (combine ps ars)).
    { apply (f_equal numeric_cells) in Hxs.
      rewrite numeric_cells_of_map in Hxs.
      rewrite <- map_map with (g := Num) in Hxs.
      rewrite numeric_cells_of_map in Hxs. now inversion Hxs. }
    cbn. rewrite Exs. now apply no_usable_none_kept.
Qed.

Lemma standardize_price_whole_column df preco_atual :
  get df "preco_atual" = Some preco_atual ->
  get (standardize_price "leilao" df) "preco" = Some preco_atual.
Proof.
  intros H. unfold standardize_price. cbn. rewrite H. apply get_setitem_same.
Qed.

End Facts.

Import Scenarios.

(** C1 at the frame [five]: the pass keeps 2, 3 and 4, which lie between
    the percentiles 26/25 and 124/25 of 1..5. *)
Lemma C1_five_listings :
  _clean_dataframe reads_nothing five "tradicional" = inr five_once /\
  exists pre preco_m2 Q1 Q3,
    before_rejection reads_nothing five "tradicional" = inr pre /\
    get pre "preco_m2" = Some preco_m2 /\
    quantile preco_m2 (1 # 100) = inr Q1 /\
    quantile preco_m2 (99 # 100) = inr Q3 /\
    Forall (in_interval Q1 Q3) (cells_of five_once "preco_m2").
Proof.
  split; [vm_compute; reflexivity|].
  apply (C1_retained_within_own_percentiles reads_nothing five "tradicional").
  vm_compute; reflexivity.
Defined.

(** C2 as stated fails: in [missing_area] the listing without an area is
    not kept in the cleaned frame. *)
Lemma C2_area_rule_fails :
  ~ (forall f df fonte pre cleaned,
        before_rejection f df fonte = inr pre ->
        _clean_dataframe f df fonte = inr cleaned ->
        derives_preco_m2 (convert_types f (standardize_price fonte df)) = true ->
        (forall i a p,
            cell_at pre "area" i = Some a ->
            area_unusable a = true ->
            cell_at pre "preco_m2" i = Some p ->
            isna p = true) /\
        count_unusable_area cleaned = count_unusable_area pre).
Proof.
  intros H.
  destruct (H reads_nothing missing_area "tradicional" missing_area_pre missing_area_cleaned)
    as [_ Hcount]; try (vm_compute; reflexivity).
  vm_compute in Hcount. discriminate Hcount.
Qed.

(** C2, amended, at the frame [missing_area]. *)
Lemma C2_listing_without_area :
  _clean_dataframe reads_nothing missing_area "tradicional" = inr missing_area_cleaned /\
  exists pre,
    before_rejection reads_nothing missing_area "tradicional" = inr pre /\
    (forall i a p,
        cell_at pre "area" i = Some a ->
        cell_at pre "preco_m2" i = Some p ->
        isna a = true -> p = Num NaN) /\
    Forall (fun a => isna a = false) (cells_of missing_area_cleaned "area").
Proof.
  split; [vm_compute; reflexivity|].
  apply (C2_missing_area_is_dropped reads_nothing missing_area "tradicional");
    vm_compute; reflexivity.
Defined.

(** No guard on the sign of the area: a negative area gives a negative price
    per square metre, and the listing stays. *)
Lemma negative_area_gets_a_price_per_area :
  _clean_dataframe reads_nothing negative_area "tradicional"
  = inr negative_area_cleaned.
Proof. vm_compute; reflexivity. Qed.

(** C3 at the frame [mixed_bids]: the column of current prices is taken
    whole, so the second listing, which has an initial price of 90 and no
    current price, gets no price and is dropped by the cleaning. *)
Lemma C3_no_price_for_listing_without_bid :
  cells_of mixed_bids "preco_inicial" = [Num (Float.of_Z 80); Num (Float.of_Z 90)] /\
  cells_of mixed_bids "preco_atual" = [Num (Float.of_Z 100); Num NaN] /\
  cells_of (standardize_price "leilao" mixed_bids) "preco"
  = [Num (Float.of_Z 100); Num NaN] /\
  _clean_dataframe reads_nothing mixed_bids "leilao" = inr mixed_bids_cleaned.
Proof. repeat split; vm_compute; reflexivity. Qed.

(** C4 as stated fails: the frame [no_area] has no usable listing, yet
    neither [_clean_dataframe] nor [clean_data] raises. *)
Lemma C4_no_error_without_usable_listing :
  ~ (forall f df fonte,
        (exists e, _clean_dataframe f df fonte = inl e)
        <-> usable_listings f df fonte = 0%nat)
  /\
  ~ (forall f a,
        (exists e, snd (clean_data f a) = inl e) <-> usable_in f a = 0%nat).
Proof.
  split; intros H.
  - destruct (proj2 (H reads_nothing no_area "leilao")) as [e He];
      [vm_compute; reflexivity|].
    vm_compute in He. discriminate He.
  - destruct (proj2 (H reads_nothing
                       (fst (load_data (Content no_area) Missing init))))
      as [e He]; [vm_compute; reflexivity|].
    rewrite clean_data_returns in He. discriminate He.
Qed.

(** C4, amended, at the frame [no_area]. *)
Lemma C4_no_area :
  _clean_dataframe reads_nothing no_area "leilao" = inr no_area_cleaned /\
  nrows no_area_cleaned = 0%nat /\
  (forall a : analyzer, snd (clean_data reads_nothing a) = inr tt).
Proof.
  split; [vm_compute; reflexivity|].
  apply (C4_no_usable_listing_gives_empty_dataset reads_nothing no_area "leilao");
    vm_compute; reflexivity.
Defined.

(** C9, amended, at the frame [five]. *)
Lemma C9_five_listings :
  remove_outliers five = inr five_once /\
  keep_between (Fin (26 # 25)) (Fin (124 # 25)) five_once = inr five_once.
Proof.
  split; [vm_compute; reflexivity|].
  apply (C9_same_bounds_remove_nothing five (floats [1; 2; 3; 4; 5]%Z));
    vm_compute; reflexivity.
Defined.

(** C9 as stated fails when the step is run again as it is written, with
    its percentiles computed anew: of 1..5 the first pass keeps 2, 3, 4 and
    the second pass only 3. *)
Lemma C9_recomputed_bounds_remove_more :
  ~ (forall df once twice : DataFrame,
        remove_outliers df = inr once ->
        remove_outliers once = inr twice ->
        nrows twice = nrows once).
Proof.
  intros H.
  specialize (H five five_once five_twice).
  assert (E : nrows five_twice = nrows five_once)
    by (apply H; vm_compute; reflexivity).
  discriminate E.
Qed.

End CleaningFacts.

(** ** Statistics *)

Module StatisticsFacts.

Import Pandas ImovelAnalyzer PandasFacts Observations.

#[local] Arguments select_rows : simpl never.
#[local] Arguments setitem : simpl never.
#[local] Arguments concat2 : simpl never.
#[local] Arguments _clean_dataframe : simpl never.
#[local] Arguments source_statistics : simpl never.
#[local] Arguments str_column : simpl never.
#[local] Arguments series_div : simpl never.
#[local] Arguments str_map : simpl never.
#[local] Arguments numeric_values : simpl never.

Lemma Forall_mask_filter {A : Type} (P : A -> Prop) mask (l : list A) :
  Forall P l -> Forall P (mask_filter mask l).
Proof.
  intros H. revert mask. induction H as [|x l Hx Hl IH]; intros [|b mask];
    simpl; auto.
  destruct b; auto.
Qed.

Lemma tagged_known tag d :
  tag = "leilao" \/ tag = "tradicional" -> tagged tag d -> sources_known d.
Proof.
  intros Htag H df s Hd Hs. destruct (H df Hd) as (s' & Hs' & Hall).
  rewrite Hs in Hs'. inversion Hs'. subst s'.
  eapply Forall_impl; [|exact Hall].
  intros c <-. destruct Htag as [-> | ->]; [left|right]; reflexivity.
Qed.

(** The column [fonte] through the steps of the cleaning. *)
Lemma convert_types_fonte f df :
  get (convert_types f df) "fonte" = get df "fonte".
Proof.
  unfold convert_types, numeric_columns. cbn.
  repeat match goal with
         | |- context [match get ?d ?c with _ => _ end] =>
             destruct (get d c); rewrite ?get_setitem_other by reflexivity
         end; reflexivity.
Qed.

Lemma before_rejection_fonte f df fonte pre :
  before_rejection f df fonte = inr pre -> get pre "fonte" = get df "fonte".
Proof.
  unfold before_rejection, derive_preco_m2, getitem.
  set (conv := convert_types f (standardize_price fonte df)).
  assert (Hconv : get conv "fonte" = get df "fonte").
  { unfold conv. rewrite convert_types_fonte. unfold standardize_price.
    destruct (String.eqb fonte "leilao"); [|reflexivity].
    now rewrite get_setitem_other by reflexivity. }
  clearbody conv.
  destruct (derives_preco_m2 conv).
  - destruct (get conv "preco") as [p|]; cbn; [|discriminate].
    destruct (get conv "area") as [ar|]; cbn; [|discriminate].
    destruct (series_div p ar) as [e|s]; cbn; [discriminate|].
    intros H. inversion H.
    now rewrite get_setitem_other by reflexivity.
  - intros H. inversion H. now subst.
Qed.

Lemma clean_dataframe_tagged f tag df fonte cleaned :
  tagged tag (Some df) ->
  _clean_dataframe f df fonte = inr cleaned ->
  tagged tag (Some cleaned).
Proof.
  intros Htag H d Hd. inversion Hd. subst d. clear Hd.
  destruct (Htag df eq_refl) as (s & Hs & Hall).
  destruct (CleaningFacts.clean_dataframe_inr _ _ _ _ H)
    as (pre & mid & Hpre & Hmid & Htipo).
  apply before_rejection_fonte in Hpre. rewrite Hs in Hpre.
  destruct (CleaningFacts.standardize_tipo_inr _ _ Htipo) as [_ Hget].
  rewrite (Hget "fonte" eq_refl).
  destruct (CleaningFacts.remove_outliers_inr _ _ Hmid)
    as [[_ ->]|(s' & xs & _ & _ & ->)].
  - eauto.
  - rewrite get_select_rows, Hpre. cbn. eexists. split; [reflexivity|].
    cbn. now apply Forall_mask_filter.
Qed.

Lemma lookup_named (g : string -> Series) k names :
  lookup k (map (fun col => (col, g col)) names)
  = if existsb (String.eqb k) names then Some (g k) else None.
Proof.
  induction names as [|n names IH]; simpl; [reflexivity|].
  destruct (String.eqb k n) eqn:E; simpl; [|exact IH].
  apply String.eqb_eq in E. now subst.
Qed.

Lemma concat2_sources_known a b :
  sources_known (Some a) -> sources_known (Some b) ->
  (exists s, get a "fonte" = Some s) -> (exists s, get b "fonte" = Some s) ->
  sources_known (Some (concat2 a b)).
Proof.
  intros Ha Hb [sa Hsa] [sb Hsb] df s Hdf Hs. inversion Hdf. subst df. clear Hdf.
  unfold concat2, get in Hs. cbn in Hs.
  rewrite (lookup_named
             (fun col => mkSeries (join_dtype (get a col) (get b col))
                           (column_or_missing a col ++ column_or_missing b col)))
    in Hs.
  destruct (existsb _ _); [|discriminate].
  inversion Hs. cbn. unfold column_or_missing. rewrite Hsa, Hsb.
  apply Forall_app. split; [eapply Ha|eapply Hb]; eauto.
Qed.

Lemma load_data_tags l t a : tags_kept a -> tags_kept (fst (load_data l t a)).
Proof.
  intros (Hl & Ht & Hc).
  assert (Hcol : forall df tag, tagged tag (Some (setitem df "fonte" (str_column df tag)))).
  { intros df tag d Hd. inversion Hd. eexists. split; [apply get_setitem_same|].
    unfold str_column. cbn. apply Forall_forall. intros c Hin.
    now apply repeat_spec in Hin. }
  unfold load_data, try_method. cbn.
  unfold method_bind, gets, lift, modify, logger, method_ret. cbn.
  destruct a as [dl dt dc lg]. cbn in *.
  destruct l as [|e|df]; cbn; destruct t as [|e'|df']; cbn;
    repeat split; cbn; auto.
Qed.

Lemma combine_datasets_tags a :
  tagged "leilao" (df_leiloes a) -> tagged "tradicional" (df_tradicional a) ->
  sources_known (df_combined a) ->
  tags_kept (fst (_combine_datasets a)).
Proof.
  intros Hl Ht Hc.
  unfold _combine_datasets. cbn.
  unfold method_bind, gets, lift, modify, logger, method_ret. cbn.
  destruct a as [dl dt dc lg]. cbn in *.
  destruct dl as [l|]; destruct dt as [t|]; cbn; repeat split; auto.
  - apply concat2_sources_known.
    + eapply tagged_known; [|exact Hl]. auto.
    + eapply tagged_known; [|exact Ht]. auto.
    + destruct (Hl l eq_refl) as (s & Hs & _). eauto.
    + destruct (Ht t eq_refl) as (s & Hs & _). eauto.
  - eapply tagged_known; [|exact Hl]. auto.
  - eapply tagged_known; [|exact Ht]. auto.
Qed.


Lemma logger_tags ev a : tags_kept a -> tags_kept (fst (logger ev a)).
Proof. destruct a. auto. Qed.

Lemma combine_datasets_returns a : snd (_combine_datasets a) = inr tt.
Proof.
  unfold _combine_datasets. cbn.
  unfold method_bind, gets, lift, modify, logger, method_ret. cbn.
  destruct a as [[l|] [t|] dc lg]; reflexivity.
Qed.

#[local] Arguments _combine_datasets : simpl never.
#[local] Arguments build_statistics : simpl never.

Ltac combine_step :=
  match goal with
  | |- context [_combine_datasets ?X] =>
      let Hk := fresh "Hk" in
      let Hr := fresh "Hr" in
      assert (Hk : tags_kept (fst (_combine_datasets X)))
        by (apply combine_datasets_tags; cbn; eauto using clean_dataframe_tagged);
      pose proof (combine_datasets_returns X) as Hr;
      destruct (_combine_datasets X) as [? ?]; cbn in Hk, Hr; subst; cbn;
      apply (logger_tags _ _ Hk)
  end.

Lemma clean_data_tags f a : tags_kept a -> tags_kept (fst (clean_data f a)).
Proof.
  intros (Hl & Ht & Hc).
  unfold clean_data, try_method. cbn.
  unfold method_bind, gets, lift, modify, method_ret. cbn.
  destruct a as [dl dt dc lg]. cbn in *.
  destruct dl as [l|]; cbn.
  - destruct (_clean_dataframe f l "leilao") as [e|l'] eqn:El; cbn.
    + repeat split; auto.
    + destruct dt as [t|]; cbn.
      * destruct (_clean_dataframe f t "tradicional") as [e|t'] eqn:Et; cbn.
        -- repeat split; cbn; eauto using clean_dataframe_tagged.
        -- combine_step.
      * combine_step.
  - destruct dt as [t|]; cbn.
    + destruct (_clean_dataframe f t "tradicional") as [e|t'] eqn:Et; cbn.
      * repeat split; cbn; eauto using clean_dataframe_tagged.
      * combine_step.
    + combine_step.
Qed.

Lemma generate_statistics_frames w a :
  let a' := fst (generate_statistics w a) in
  df_leiloes a' = df_leiloes a /\ df_tradicional a' = df_tradicional a
  /\ df_combined a' = df_combined a.
Proof.
  unfold generate_statistics, try_method. cbn.
  unfold method_bind, gets, lift, modify, method_ret, logger. cbn.
  destruct a as [dl dt [c|] lg]; cbn; auto.
  destruct (build_statistics c); cbn; auto.
  destruct w as [e|[]]; cbn; auto.
Qed.

Lemma reachable_tags f a : reachable f a -> tags_kept a.
Proof.
  induction 1 as [|a l t _ IH|a _ IH|a w _ IH].
  - repeat split; intros d; discriminate.
  - now apply load_data_tags.
  - now apply clean_data_tags.
  - destruct (generate_statistics_frames w a) as (E1 & E2 & E3).
    unfold tags_kept. rewrite E1, E2, E3. exact IH.
Qed.

#[local] Abbreviation L := leilao_key.
#[local] Abbreviation T := tradicional_key.

Lemma unique_seen_both l :
  Forall known_source l ->
  unique_cells [T; L] l = [] /\ unique_cells [L; T] l = [].
Proof.
  induction 1 as [|c l [-> | ->] _ IH]; simpl; auto.
Qed.

Lemma unique_seen_one l :
  Forall known_source l ->
  (unique_cells [L] l = [] \/ unique_cells [L] l = [T]) /\
  (unique_cells [T] l = [] \/ unique_cells [T] l = [L]).
Proof.
  induction 1 as [|c l [-> | ->] Hl IH]; simpl; auto;
    destruct (unique_seen_both l Hl) as [E1 E2]; fold leilao_key tradicional_key;
    rewrite ?E1, ?E2; tauto.
Qed.

Lemma unique_known l :
  Forall known_source l ->
  unique_cells [] l = [] \/ unique_cells [] l = [L] \/ unique_cells [] l = [T]
  \/ unique_cells [] l = [L; T] \/ unique_cells [] l = [T; L].
Proof.
  induction 1 as [|c l [-> | ->] Hl IH]; simpl; auto;
    destruct (unique_seen_one l Hl) as [[E1|E1] [E2|E2]]; fold leilao_key tradicional_key;
    rewrite ?E1, ?E2; tauto.
Qed.

Lemma generate_statistics_some w a a' st :
  generate_statistics w a = (a', inr (Some st)) ->
  exists df, df_combined a = Some df /\ build_statistics df = inr st.
Proof.
  unfold generate_statistics, try_method. cbn.
  unfold method_bind, gets, lift, modify, method_ret, logger. cbn.
  destruct (df_combined a) as [df|]; cbn; [|discriminate].
  destruct (build_statistics df) as [e|d] eqn:Eb; cbn; [discriminate|].
  destruct w as [e|[]]; cbn; [discriminate|].
  intros H. inversion H. subst. eauto.
Qed.

Lemma percent_below_example :
  percent_below (Float.of_Z 4000) (Float.of_Z 3000) = Float.of_Z 25.
Proof. reflexivity. Qed.

(** In every state an analyzer can reach, the dict of statistics has the
      entry [comparacao] exactly when it has exactly two per-source
      entries. *)
Lemma loaded_frames_compare_two_sources
      (f : string -> float) (a a' : analyzer) (w : result unit) (st : stats) :
  reachable f a ->
  generate_statistics w a = (a', inr (Some st)) ->
  (dict_mem (Str "comparacao") st = true
   <-> List.length (source_keys st) = 2%nat) /\
  (forall c,
      dict_get (Str "comparacao") st = Some (Comparacao c) ->
      exists l t,
        dict_get (Str "leilao") st = Some (PerSource l) /\
        dict_get (Str "tradicional") st = Some (PerSource t) /\
        diferenca_preco_medio c
        = percent_below (preco_medio t) (preco_medio l) /\
        diferenca_preco_m2_medio c
        = percent_below (preco_m2_medio t) (preco_m2_medio l) /\
        (preco_m2_medio l = Float.of_Z 3000 ->
         preco_m2_medio t = Float.of_Z 4000 ->
         diferenca_preco_m2_medio c = Float.of_Z 25)).
Proof.
  intros Hreach Hgen.
  destruct (generate_statistics_some _ _ _ _ Hgen) as (df & Hdf & Hb).
  destruct (reachable_tags _ _ Hreach) as (_ & _ & Hknown).
  unfold build_statistics, getitem in Hb.
  destruct (get df "fonte") as [s|] eqn:Hs; cbn in Hb; [|discriminate].
  specialize (Hknown df s Hdf Hs).
  unfold unique in Hb.
  destruct (unique_known _ Hknown) as [E|[E|[E|[E|E]]]]; rewrite E in Hb;
    unfold leilao_key, tradicional_key in Hb; cbn in Hb;
    repeat match type of Hb with
           | context [source_statistics ?d ?c ?k] =>
               destruct (source_statistics d c k) as [?|?]; cbn in Hb;
               [discriminate|]
           end;
    inversion Hb; subst st; clear Hb; cbn;
    (split; [split; intros; (discriminate || reflexivity)|]);
    intros c Hc; inversion Hc; subst c; clear Hc; cbn;
    do 2 eexists; repeat split; intros -> ->; reflexivity.
Qed.

Import Scenarios.

(** *** The dict of statistics, key by key *)

Lemma same_cell_str_l s c : same_cell (Str s) c = true -> c = Str s.
Proof.
  unfold same_cell. destruct c as [x|t]; cbn; [discriminate|].
  rewrite orb_false_r. intros H. apply String.eqb_eq in H. now subst.
Qed.

Lemma same_cell_str_r s c : same_cell c (Str s) = true -> c = Str s.
Proof.
  unfold same_cell. destruct c as [x|t]; cbn.
  - now rewrite andb_false_r.
  - rewrite orb_false_r. intros H. apply String.eqb_eq in H. now subst.
Qed.

Lemma same_cell_str_refl s : same_cell (Str s) (Str s) = true.
Proof. unfold same_cell. cbn. now rewrite String.eqb_refl. Qed.

Lemma dict_get_set_str s k v d :
  dict_get (Str s) (dict_set k v d)
  = if same_cell (Str s) k then Some v else dict_get (Str s) d.
Proof.
  induction d as [|[k' v'] d IH]; cbn; [reflexivity|].
  destruct (same_cell k k') eqn:Ekk; cbn.
  - destruct (same_cell (Str s) k') eqn:E1.
    + apply same_cell_str_l in E1. subst k'.
      apply same_cell_str_r in Ekk. subst k.
      now rewrite same_cell_str_refl.
    + destruct (same_cell (Str s) k) eqn:E2; [|reflexivity].
      apply same_cell_str_l in E2. subst k.
      apply same_cell_str_l in Ekk. subst k'.
      now rewrite same_cell_str_refl in E1.
  - rewrite IH. destruct (same_cell (Str s) k') eqn:E1; [|reflexivity].
    destruct (same_cell (Str s) k) eqn:E2; [|reflexivity].
    apply same_cell_str_l in E1, E2. subst k k'.
    now rewrite same_cell_str_refl in Ekk.
Qed.

Lemma per_source_get df col s keys :
  forall acc d,
    per_source df col keys acc = inr d ->
    (existsb (same_cell (Str s)) keys = true ->
     exists r, source_statistics df col (Str s) = inr r /\
               dict_get (Str s) d = Some (PerSource r)) /\
    (existsb (same_cell (Str s)) keys = false ->
     dict_get (Str s) d = dict_get (Str s) acc).
Proof.
  induction keys as [|k keys IH]; intros acc d H.
  - cbn in H. injection H as <-. split; [discriminate|reflexivity].
  - cbn [per_source] in H.
    destruct (source_statistics df col k) as [e|r0] eqn:Ek; cbn in H;
      [discriminate|].
    destruct (IH _ _ H) as [IH1 IH2]. cbn [existsb].
    destruct (existsb (same_cell (Str s)) keys) eqn:E.
    + rewrite orb_true_r. split; [intros _; now apply IH1|discriminate].
    + rewrite orb_false_r. rewrite (IH2 eq_refl), dict_get_set_str.
      destruct (same_cell (Str s) k) eqn:Es.
      * apply same_cell_str_l in Es. subst k.
        split; [intros _; eauto|discriminate].
      * split; [discriminate|reflexivity].
Qed.

Lemma unique_cells_mem s l :
  forall seen,
    existsb (same_cell (Str s)) seen
    || existsb (same_cell (Str s)) (unique_cells seen l)
    = existsb (same_cell (Str s)) seen || existsb (same_cell (Str s)) l.
Proof.
  induction l as [|c l IH]; intros seen; [reflexivity|].
  cbn [unique_cells existsb].
  destruct (existsb (same_cell c) seen) eqn:Ec.
  - rewrite IH. destruct (same_cell (Str s) c) eqn:Es; [|reflexivity].
    apply same_cell_str_l in Es. subst c. now rewrite Ec.
  - cbn [existsb]. specialize (IH (c :: seen)). cbn [existsb] in IH.
    destruct (same_cell (Str s) c); cbn in *;
      [now rewrite !orb_true_r|exact IH].
Qed.

Lemma existsb_same_cell_In s l :
  existsb (same_cell (Str s)) l = true <-> In (Str s) l.
Proof.
  rewrite existsb_exists. split.
  - intros (c & Hin & Hc). apply same_cell_str_l in Hc. now subst.
  - intros Hin. exists (Str s). split; [assumption|apply same_cell_str_refl].
Qed.

Lemma unique_mem s col :
  existsb (same_cell (Str s)) (unique col) = true <-> In (Str s) (values col).
Proof.
  unfold unique. pose proof (unique_cells_mem s (values col) []) as H.
  cbn in H. rewrite H. apply existsb_same_cell_In.
Qed.

#[local] Arguments per_source : simpl never.
#[local] Arguments dict_set : simpl never.
#[local] Arguments dict_get : simpl never.

(** What [build_statistics] puts under the three names. *)
Lemma build_statistics_names df st :
  build_statistics df = inr st ->
  exists fonte,
    get df "fonte" = Some fonte /\
    ((exists c, dict_get (Str "comparacao") st = Some (Comparacao c))
     <-> In (Str "leilao") (values fonte) /\ In (Str "tradicional") (values fonte)) /\
    (forall c,
        dict_get (Str "comparacao") st = Some (Comparacao c) ->
        exists l t,
          source_statistics df fonte (Str "leilao") = inr l /\
          source_statistics df fonte (Str "tradicional") = inr t /\
          dict_get (Str "leilao") st = Some (PerSource l) /\
          dict_get (Str "tradicional") st = Some (PerSource t) /\
          c = mkComparison (percent_below (preco_medio t) (preco_medio l))
                (percent_below (preco_m2_medio t) (preco_m2_medio l))).
Proof.
  unfold build_statistics, getitem.
  destruct (get df "fonte") as [fonte|] eqn:Hf; cbn; [|discriminate].
  destruct (per_source df fonte (unique fonte) []) as [e|d] eqn:Hd; cbn;
    [discriminate|].
  intros Hadd. exists fonte. split; [reflexivity|].
  destruct (per_source_get df fonte "leilao" _ _ _ Hd) as [Ll Ln].
  destruct (per_source_get df fonte "tradicional" _ _ _ Hd) as [Tl Tn].
  destruct (per_source_get df fonte "comparacao" _ _ _ Hd) as [Cl Cn].
  assert (Hplain : forall c, dict_get (Str "comparacao") d <> Some (Comparacao c)).
  { intros c. destruct (existsb (same_cell (Str "comparacao")) (unique fonte)).
    - destruct (Cl eq_refl) as (r & _ & ->). discriminate.
    - rewrite (Cn eq_refl). discriminate. }
  unfold add_comparison, dict_mem, source_entry in Hadd.
  rewrite <- !unique_mem.
  destruct (existsb (same_cell (Str "leilao")) (unique fonte)) eqn:El.
  - destruct (Ll eq_refl) as (l & Hl & Gl). rewrite Gl in Hadd.
    destruct (existsb (same_cell (Str "tradicional")) (unique fonte)) eqn:Et.
    + destruct (Tl eq_refl) as (t & Ht & Gt). rewrite Gt in Hadd. cbn in Hadd.
      injection Hadd as <-.
      rewrite !dict_get_set_str. cbn [same_cell cell_eqb String.eqb Ascii.eqb
                                        Bool.eqb isna orb andb].
      split.
      * split; [auto|]. intros _. eexists. reflexivity.
      * intros c Hc. injection Hc as <-. exists l, t. auto.
    + rewrite (Tn eq_refl) in Hadd. cbn in Hadd. injection Hadd as <-.
      split.
      * split; [intros [c Hc]; now destruct (Hplain c)|intros [_ H]; discriminate H].
      * intros c Hc. now destruct (Hplain c).
  - rewrite (Ln eq_refl) in Hadd. cbn in Hadd. injection Hadd as <-.
    split.
    + split; [intros [c Hc]; now destruct (Hplain c)|intros [H _]; discriminate H].
    + intros c Hc. now destruct (Hplain c).
Qed.

(** C5, amended. The dict of statistics has the comparison exactly when
      the column of sources of the combined frame holds both ['leilao'] and
      ['tradicional'], whatever else it holds; the comparison is
      (tradicional - leilao) / tradicional * 100 over the means that the
      rows of the two sources give, which is 25 for means of 3000 and 4000;
      in every state an analyzer can reach, the comparison is there exactly
      when there are exactly two per-source entries. *)
Theorem C5_comparison_for_the_two_names
        (f : string -> float) (a a' : analyzer) (w : result unit)
        (df : DataFrame) (st : stats) :
  df_combined a = Some df ->
  generate_statistics w a = (a', inr (Some st)) ->
  exists fonte,
    get df "fonte" = Some fonte /\
    ((exists c, dict_get (Str "comparacao") st = Some (Comparacao c))
     <-> In (Str "leilao") (values fonte) /\ In (Str "tradicional") (values fonte)) /\
    (forall c,
        dict_get (Str "comparacao") st = Some (Comparacao c) ->
        exists l t,
          source_statistics df fonte (Str "leilao") = inr l /\
          source_statistics df fonte (Str "tradicional") = inr t /\
          dict_get (Str "leilao") st = Some (PerSource l) /\
          dict_get (Str "tradicional") st = Some (PerSource t) /\
          diferenca_preco_medio c
          = percent_below (preco_medio t) (preco_medio l) /\
          diferenca_preco_m2_medio c
          = percent_below (preco_m2_medio t) (preco_m2_medio l) /\
          (preco_m2_medio l = Float.of_Z 3000 ->
           preco_m2_medio t = Float.of_Z 4000 ->
           diferenca_preco_m2_medio c = Float.of_Z 25)) /\
    (reachable f a ->
     (dict_mem (Str "comparacao") st = true
      <-> List.length (source_keys st) = 2%nat)).
Proof.
  intros Hdf Hgen.
  destruct (generate_statistics_some _ _ _ _ Hgen) as (df' & Hdf' & Hb).
  rewrite Hdf in Hdf'. injection Hdf' as <-.
  destruct (build_statistics_names _ _ Hb) as (fonte & Hf & Hiff & Hval).
  exists fonte. split; [exact Hf|]. split; [exact Hiff|]. split.
  - intros c Hc. destruct (Hval c Hc) as (l & t & Hl & Ht & Gl & Gt & ->).
    exists l, t. cbn. repeat split; auto. intros -> ->. reflexivity.
  - intros Hreach.
    apply (loaded_frames_compare_two_sources f a a' w st Hreach Hgen).
Qed.

Import Scenarios.

(** C5 on two files whose cleaned listings average 3000 and 4000 per
      square metre. *)
Lemma C5_auction_3000_market_4000 :
  exists df fonte,
    df_combined two_sources = Some df /\
    generate_statistics (inr tt) two_sources
    = (fst (generate_statistics (inr tt) two_sources),
       inr (Some two_sources_stats)) /\
    get df "fonte" = Some fonte /\
    In (Str "leilao") (values fonte) /\ In (Str "tradicional") (values fonte) /\
    dict_get (Str "comparacao") two_sources_stats
    = Some (Comparacao (mkComparison (Float.of_Z 40) (Float.of_Z 25))).
Proof.
  destruct (df_combined two_sources) as [df|] eqn:E;
    [|vm_compute in E; discriminate E].
  assert (Hgen : generate_statistics (inr tt) two_sources
                 = (fst (generate_statistics (inr tt) two_sources),
                    inr (Some two_sources_stats)))
    by (vm_compute; reflexivity).
  destruct (C5_comparison_for_the_two_names reads_nothing two_sources _ (inr tt)
              df two_sources_stats E Hgen) as (fonte & Hf & Hiff & _).
  exists df, fonte. split; [reflexivity|]. split; [exact Hgen|].
  split; [exact Hf|].
  assert (Hc : exists c, dict_get (Str "comparacao") two_sources_stats
                         = Some (Comparacao c))
    by (eexists; reflexivity).
  apply Hiff in Hc. destruct Hc as [Hl Ht].
  split; [exact Hl|]. split; [exact Ht|]. reflexivity.
Defined.

(** C5 as stated fails: with a third source beside the two names there
      are three per-source entries, and the comparison is produced all the
      same. *)
Lemma C5_third_source_is_compared :
  ~ (forall (a a' : analyzer) (w : result unit) (st : stats),
        generate_statistics w a = (a', inr (Some st)) ->
        (dict_mem (Str "comparacao") st = true
         <-> List.length (source_keys st) = 2%nat)).
Proof.
  intros H.
  destruct (H (mkAnalyzer None None (Some three_tags) [])
              (fst (generate_statistics (inr tt)
                      (mkAnalyzer None None (Some three_tags) [])))
              (inr tt)
              (match snd (generate_statistics (inr tt)
                            (mkAnalyzer None None (Some three_tags) [])) with
               | inr (Some st) => st
               | _ => []
               end)) as [H1 _]; [vm_compute; reflexivity|].
  specialize (H1 ltac:(vm_compute; reflexivity)).
  vm_compute in H1. discriminate H1.
Qed.

(** The test of line 164 looks for the two names, not for a number of
    sources. *)
Lemma comparison_looks_for_the_two_names d :
  dict_mem (Str "leilao") d && dict_mem (Str "tradicional") d = false ->
  add_comparison d = inr d.
Proof. unfold add_comparison. now intros ->. Qed.

Lemma comparison_with_a_third_tag :
  exists st, build_statistics three_tags = inr st
             /\ dict_mem (Str "comparacao") st = true
             /\ List.length (source_keys st) = 3%nat.
Proof. eexists. repeat split; vm_compute; reflexivity. Qed.

End StatisticsFacts.

(** ** The auction scraper *)

Module LeilaoFacts.

Import Web LeilaoScraper Observations.

#[local] Arguments fetch : simpl never.
#[local] Arguments raise_for_status : simpl never.
#[local] Arguments logger : simpl never.
#[local] Arguments times_requested : simpl never.
#[local] Arguments extract_imovel_data : simpl never.
#[local] Arguments visit_page : simpl never.
#[local] Arguments get_imoveis_urls : simpl never.
#[local] Arguments process_url : simpl never.

Lemma logger_run ev s :
  logger ev s = (mkScraper (data s) (sent s) (files s) (log s ++ [ev]), inr tt).
Proof. reflexivity. Qed.

Section Runs.

Variable net : server.
Variable urljoin : string -> string -> string.
Variable clock : nat -> string.

Lemma fetch_run u s :
  fetch net u s
  = (record_request u s,
     raise_for_status (net u (times_requested u (sent s)))).
Proof. reflexivity. Qed.

Lemma extract_imovel_data_run u s :
  exists r,
    snd (extract_imovel_data net clock u s) = inr r /\
    data (fst (extract_imovel_data net clock u s)) = data s /\
    files (fst (extract_imovel_data net clock u s)) = files s /\
    sent (fst (extract_imovel_data net clock u s)) = sent s ++ [u] /\
    (failed (net u (times_requested u (sent s))) = true -> r = None).
Proof.
  unfold extract_imovel_data, try_method, failed. cbn.
  unfold method_bind. rewrite fetch_run.
  destruct (raise_for_status (net u (times_requested u (sent s)))) as [e|soup];
    cbn; rewrite ?logger_run; cbn; eexists; repeat split; auto; discriminate.
Qed.

Lemma visit_page_run page urls s :
  exists urls',
    snd (visit_page net urljoin page urls s) = inr urls' /\
    data (fst (visit_page net urljoin page urls s)) = data s /\
    files (fst (visit_page net urljoin page urls s)) = files s /\
    sent (fst (visit_page net urljoin page urls s))
    = sent s ++ [(base_url ++ "/imoveis?page=" ++ Text.of_nat page)%string] /\
    (failed (net (base_url ++ "/imoveis?page=" ++ Text.of_nat page)%string
               (times_requested
                  (base_url ++ "/imoveis?page=" ++ Text.of_nat page)%string
                  (sent s))) = true -> urls' = urls).
Proof.
  unfold visit_page, try_method, failed. cbn.
  unfold method_bind. rewrite !logger_run, fetch_run. cbn.
  destruct (raise_for_status _) as [e|soup];
    cbn; rewrite ?logger_run; cbn; eexists; repeat split; auto; discriminate.
Qed.

Lemma visit_pages_run pages urls s :
  exists urls',
    snd (visit_pages net urljoin pages urls s) = inr urls' /\
    data (fst (visit_pages net urljoin pages urls s)) = data s /\
    files (fst (visit_pages net urljoin pages urls s)) = files s.
Proof.
  revert urls s. induction pages as [|page pages IH]; intros urls s.
  - exists urls. auto.
  - destruct (visit_page_run page urls s) as (urls1 & Hr & Hd & Hf & _).
    cbn. unfold method_bind.
    destruct (visit_page net urljoin page urls s) as [s1 r1]. cbn in *.
    subst r1.
    destruct (IH urls1 s1) as (urls' & Hr' & Hd' & Hf').
    exists urls'. rewrite Hd', Hf'. auto.
Qed.

Lemma get_imoveis_urls_run max_pages s :
  exists urls,
    snd (get_imoveis_urls net urljoin max_pages s) = inr urls /\
    data (fst (get_imoveis_urls net urljoin max_pages s)) = data s /\
    files (fst (get_imoveis_urls net urljoin max_pages s)) = files s.
Proof.
  unfold get_imoveis_urls. cbn. unfold method_bind.
  destruct (visit_pages_run (range_from_1 max_pages) [] s)
    as (urls & Hr & Hd & Hf).
  destruct (visit_pages net urljoin (range_from_1 max_pages) [] s) as [s1 r1].
  cbn in *. subst r1. rewrite logger_run. cbn. eauto.
Qed.

(** One turn of the loop of [scrape_leiloes]: the listing, when there is
    one, goes to the end of [data]. *)
Lemma process_url_run u s :
  snd (process_url net clock u s) = inr tt /\
  files (fst (process_url net clock u s)) = files s /\
  data (fst (process_url net clock u s))
  = data s ++ match snd (extract_imovel_data net clock u
                           (fst (logger (Info "Processando imovel") s))) with
              | inr (Some d) => [d]
              | _ => []
              end.
Proof.
  unfold process_url. cbn. unfold method_bind.
  rewrite logger_run. cbn.
  set (s0 := mkScraper (data s) (sent s) (files s)
               (log s ++ [Info "Processando imovel"])).
  destruct (extract_imovel_data_run u s0) as (r & Hr & Hd & Hf & _).
  destruct (extract_imovel_data net clock u s0) as [s1 r1]. cbn in *.
  subst r1. destruct r as [d|]; cbn; rewrite ?Hd, ?Hf, ?app_nil_r; auto.
Qed.

Lemma for_each_run urls s :
  exists collected,
    snd (for_each urls (process_url net clock) s) = inr tt /\
    files (fst (for_each urls (process_url net clock) s)) = files s /\
    data (fst (for_each urls (process_url net clock) s))
    = data s ++ collected /\
    (List.length collected <= List.length urls)%nat.
Proof.
  revert s. induction urls as [|u urls IH]; intros s.
  - exists []. cbn. rewrite app_nil_r. auto.
  - destruct (process_url_run u s) as (Hr & Hf & Hd).
    cbn. unfold method_bind.
    destruct (process_url net clock u s) as [s1 r1]. cbn in *. subst r1.
    destruct (IH s1) as (c & Hr' & Hf' & Hd' & Hlen).
    eexists. rewrite Hr', Hf', Hd', Hd, Hf, <- app_assoc.
    repeat split; auto.
    rewrite length_app.
    destruct (snd (extract_imovel_data net clock u _)) as [|[|]]; cbn; lia.
Qed.

Lemma scrape_leiloes_run max_pages max_imoveis s :
  exists collected,
    snd (scrape_leiloes net urljoin clock max_pages max_imoveis s) = inr tt /\
    files (fst (scrape_leiloes net urljoin clock max_pages max_imoveis s))
    = files s /\
    data (fst (scrape_leiloes net urljoin clock max_pages max_imoveis s))
    = data s ++ collected /\
    (List.length collected
     <= List.length (leilao_urls net urljoin max_pages max_imoveis
                       (fst (logger
                               (Info "Iniciando coleta de dados de leiloes judiciais")
                               s))))%nat.
Proof.
  unfold scrape_leiloes, leilao_urls. cbn. unfold method_bind.
  rewrite logger_run. cbn.
  set (s0 := mkScraper (data s) (sent s) (files s)
               (log s ++ [Info "Iniciando coleta de dados de leiloes judiciais"])).
  destruct (get_imoveis_urls_run max_pages s0) as (urls & Hr & Hd & Hf).
  destruct (get_imoveis_urls net urljoin max_pages s0) as [s1 r1].
  cbn in *. subst r1.
  set (capped := if (max_imoveis <? Z.of_nat (List.length urls))%Z
                 then slice_to max_imoveis urls else urls).
  destruct (for_each_run capped s1) as (c & Hr' & Hf' & Hd' & Hlen).
  destruct (for_each capped (process_url net clock) s1) as [s2 r2].
  cbn in *. subst r2. rewrite logger_run. cbn.
  exists c. rewrite Hf', Hd', Hd, Hf. auto.
Qed.

(** [save_data] leaves [data] alone; when it returns, it has written
    all of [data] to the JSON file, and to the CSV file when there is
    any. *)
Lemma save_data_run disk filename s :
  data (fst (save_data clock disk filename s)) = data s /\
  (snd (save_data clock disk filename s) = inr tt ->
   exists path,
     files (fst (save_data clock disk filename s))
     = files s
         ++ (path, data s)
            :: match data s with
               | [] => []
               | _ :: _ => [(Text.replace ".json" ".csv" path, data s)]
               end).
Proof.
  unfold save_data. cbn. unfold method_bind, gets, modify, lift.
  destruct (disk _) as [e|[]]; cbn; [split; [reflexivity|discriminate]|].
  rewrite !logger_run. cbn.
  destruct (data s) eqn:E; cbn; rewrite ?E.
  - split; [reflexivity|]. intros _. eexists. reflexivity.
  - destruct (disk _) as [e|[]]; cbn; rewrite ?E;
      [split; [reflexivity|discriminate]|].
    rewrite logger_run. cbn. rewrite ?E. split; [reflexivity|].
    intros _. eexists. rewrite <- app_assoc. reflexivity.
Qed.

(** *** Runs against a network that always answers the same *)

Hypothesis Hstationary : stationary net clock.

Lemma extract_imovel_data_same u s1 s2 :
  snd (extract_imovel_data net clock u s1)
  = snd (extract_imovel_data net clock u s2).
Proof.
  destruct Hstationary as [Hnet Hclock].
  unfold extract_imovel_data, try_method. cbn.
  unfold method_bind. rewrite !fetch_run.
  rewrite (Hnet u (times_requested u (sent s1))),
    (Hnet u (times_requested u (sent s2))).
  destruct (raise_for_status (net u 0%nat)) as [e|soup]; cbn;
    rewrite ?logger_run; cbn; [reflexivity|].
  unfold gets. cbn.
  now rewrite (Hclock (List.length (sent s1 ++ [u]))),
    (Hclock (List.length (sent s2 ++ [u]))).
Qed.

Lemma visit_page_same page urls s1 s2 :
  snd (visit_page net urljoin page urls s1)
  = snd (visit_page net urljoin page urls s2).
Proof.
  destruct Hstationary as [Hnet _].
  unfold visit_page, try_method. cbn.
  unfold method_bind. rewrite !logger_run, !fetch_run. cbn.
  rewrite (Hnet _ (times_requested _ (sent s1))),
    (Hnet _ (times_requested _ (sent s2))).
  destruct (raise_for_status _) as [e|soup]; cbn; rewrite ?logger_run;
    reflexivity.
Qed.

Lemma visit_pages_same pages urls s1 s2 :
  snd (visit_pages net urljoin pages urls s1)
  = snd (visit_pages net urljoin pages urls s2).
Proof.
  revert urls s1 s2. induction pages as [|page pages IH]; intros urls s1 s2.
  - reflexivity.
  - cbn. unfold method_bind.
    pose proof (visit_page_same page urls s1 s2) as Hsame.
    destruct (visit_page_run page urls s1) as (u1 & Hr1 & _).
    destruct (visit_page_run page urls s2) as (u2 & Hr2 & _).
    destruct (visit_page net urljoin page urls s1) as [t1 r1].
    destruct (visit_page net urljoin page urls s2) as [t2 r2].
    cbn in *. rewrite Hr1, Hr2 in Hsame. inversion Hsame. subst. apply IH.
Qed.

Lemma leilao_urls_same max_pages max_imoveis s1 s2 :
  leilao_urls net urljoin max_pages max_imoveis s1
  = leilao_urls net urljoin max_pages max_imoveis s2.
Proof.
  unfold leilao_urls, get_imoveis_urls. cbn. unfold method_bind.
  pose proof (visit_pages_same (range_from_1 max_pages) [] s1 s2) as Hsame.
  destruct (visit_pages_run (range_from_1 max_pages) [] s1) as (u1 & Hr1 & _).
  destruct (visit_pages_run (range_from_1 max_pages) [] s2) as (u2 & Hr2 & _).
  destruct (visit_pages net urljoin (range_from_1 max_pages) [] s1) as [t1 r1].
  destruct (visit_pages net urljoin (range_from_1 max_pages) [] s2) as [t2 r2].
  cbn in *. rewrite Hr1, Hr2 in Hsame. inversion Hsame. subst.
  rewrite !logger_run. reflexivity.
Qed.

Lemma for_each_same urls s1 s2 :
  exists collected,
    data (fst (for_each urls (process_url net clock) s1)) = data s1 ++ collected
    /\ data (fst (for_each urls (process_url net clock) s2))
        = data s2 ++ collected.
Proof.
  revert s1 s2. induction urls as [|u urls IH]; intros s1 s2.
  - exists []. cbn. now rewrite !app_nil_r.
  - destruct (process_url_run u s1) as (Hr1 & _ & Hd1).
    destruct (process_url_run u s2) as (Hr2 & _ & Hd2).
    rewrite (extract_imovel_data_same u _
               (fst (logger (Info "Processando imovel") s1))) in Hd2.
    cbn. unfold method_bind.
    destruct (process_url net clock u s1) as [t1 r1].
    destruct (process_url net clock u s2) as [t2 r2].
    cbn in *. subst r1 r2.
    destruct (IH t1 t2) as (c & Hc1 & Hc2).
    eexists. rewrite Hc1, Hc2, Hd1, Hd2, <- !app_assoc. split; reflexivity.
Qed.

Lemma scrape_leiloes_same max_pages max_imoveis s1 s2 :
  exists collected,
    data (fst (scrape_leiloes net urljoin clock max_pages max_imoveis s1))
    = data s1 ++ collected
    /\ data (fst (scrape_leiloes net urljoin clock max_pages max_imoveis s2))
        = data s2 ++ collected.
Proof.
  pose proof (leilao_urls_same max_pages max_imoveis
                (fst (logger (Info "Iniciando coleta de dados de leiloes judiciais") s1))
                (fst (logger (Info "Iniciando coleta de dados de leiloes judiciais") s2)))
    as Hurls.
  unfold leilao_urls in Hurls.
  unfold scrape_leiloes. cbn. unfold method_bind.
  rewrite !logger_run in *. cbn in *.
  set (t1 := mkScraper (data s1) _ _ _) in *.
  set (t2 := mkScraper (data s2) _ _ _) in *.
  destruct (get_imoveis_urls_run max_pages t1) as (u1 & Hr1 & Hd1 & _).
  destruct (get_imoveis_urls_run max_pages t2) as (u2 & Hr2 & Hd2 & _).
  destruct (get_imoveis_urls net urljoin max_pages t1) as [v1 r1].
  destruct (get_imoveis_urls net urljoin max_pages t2) as [v2 r2].
  cbn in *. subst r1 r2. rewrite <- Hurls.
  set (capped := if (max_imoveis <? Z.of_nat (List.length u1))%Z
                 then slice_to max_imoveis u1 else u1).
  destruct (for_each_same capped v1 v2) as (c & Hc1 & Hc2).
  destruct (for_each_run capped v1) as (_ & Hq1 & _).
  destruct (for_each_run capped v2) as (_ & Hq2 & _).
  destruct (for_each capped (process_url net clock) v1) as [w1 q1].
  destruct (for_each capped (process_url net clock) v2) as [w2 q2].
  cbn in *. subst q1 q2. rewrite !logger_run. cbn.
  exists c. rewrite Hc1, Hc2, Hd1, Hd2. auto.
Qed.

End Runs.

End LeilaoFacts.

(** ** The traditional-market scraper *)

Module VivaRealFacts.

Import Web VivaRealScraper Observations.

#[local] Arguments fetch : simpl never.
#[local] Arguments raise_for_status : simpl never.
#[local] Arguments logger : simpl never.
#[local] Arguments times_requested : simpl never.
#[local] Arguments extract_imovel_data : simpl never.
#[local] Arguments visit_page : simpl never.
#[local] Arguments search_imoveis : simpl never.
#[local] Arguments process_url : simpl never.
#[local] Arguments or_default : simpl never.

Lemma vivareal_logger_run ev s :
  logger ev s = (mkScraper (data s) (sent s) (files s) (log s ++ [ev]), inr tt).
Proof. reflexivity. Qed.

Section Runs.

Variable net : server.
Variable urljoin : string -> string -> string.
Variable clock : nat -> string.
Variable list_of_set : list string -> list string.

Lemma vivareal_fetch_run u s :
  fetch net u s
  = (record_request u s,
     raise_for_status (net u (times_requested u (sent s)))).
Proof. reflexivity. Qed.

Lemma vivareal_extract_imovel_data_run u s :
  exists r,
    snd (extract_imovel_data net clock u s) = inr r /\
    data (fst (extract_imovel_data net clock u s)) = data s /\
    files (fst (extract_imovel_data net clock u s)) = files s /\
    sent (fst (extract_imovel_data net clock u s)) = sent s ++ [u] /\
    (failed (net u (times_requested u (sent s))) = true -> r = None).
Proof.
  unfold extract_imovel_data, try_method, failed. cbn.
  unfold method_bind. rewrite vivareal_fetch_run.
  destruct (raise_for_status (net u (times_requested u (sent s)))) as [e|soup];
    cbn; rewrite ?vivareal_logger_run; cbn; eexists; repeat split; auto; discriminate.
Qed.

Lemma vivareal_visit_page_run c t page urls s :
  exists urls',
    snd (visit_page net urljoin c t page urls s) = inr urls' /\
    data (fst (visit_page net urljoin c t page urls s)) = data s /\
    files (fst (visit_page net urljoin c t page urls s)) = files s.
Proof.
  unfold visit_page, try_method. cbn.
  unfold method_bind. rewrite !vivareal_logger_run, vivareal_fetch_run. cbn.
  destruct (raise_for_status _) as [e|soup];
    cbn; rewrite ?vivareal_logger_run; cbn; eexists; repeat split; auto.
Qed.

Lemma vivareal_visit_pages_run c t pages urls s :
  exists urls',
    snd (visit_pages net urljoin c t pages urls s) = inr urls' /\
    data (fst (visit_pages net urljoin c t pages urls s)) = data s /\
    files (fst (visit_pages net urljoin c t pages urls s)) = files s.
Proof.
  revert urls s. induction pages as [|page pages IH]; intros urls s.
  - exists urls. auto.
  - destruct (vivareal_visit_page_run c t page urls s) as (urls1 & Hr & Hd & Hf).
    cbn. unfold method_bind.
    destruct (visit_page net urljoin c t page urls s) as [s1 r1]. cbn in *.
    subst r1.
    destruct (IH urls1 s1) as (urls' & Hr' & Hd' & Hf').
    exists urls'. rewrite Hd', Hf'. auto.
Qed.

Lemma search_imoveis_run c t max_pages s :
  exists urls,
    snd (search_imoveis net urljoin c t max_pages s) = inr urls /\
    data (fst (search_imoveis net urljoin c t max_pages s)) = data s /\
    files (fst (search_imoveis net urljoin c t max_pages s)) = files s.
Proof.
  unfold search_imoveis. cbn. unfold method_bind.
  destruct (vivareal_visit_pages_run c t (range_from_1 max_pages) [] s)
    as (urls & Hr & Hd & Hf).
  destruct (visit_pages net urljoin c t (range_from_1 max_pages) [] s)
    as [s1 r1].
  cbn in *. subst r1. rewrite vivareal_logger_run. cbn. eauto.
Qed.

Lemma search_tipos_run max_pages c tipos all_urls s :
  exists urls,
    snd (search_tipos net urljoin max_pages c tipos all_urls s) = inr urls /\
    data (fst (search_tipos net urljoin max_pages c tipos all_urls s)) = data s /\
    files (fst (search_tipos net urljoin max_pages c tipos all_urls s)) = files s.
Proof.
  revert all_urls s. induction tipos as [|t tipos IH]; intros all_urls s.
  - exists all_urls. auto.
  - cbn. unfold method_bind.
    rewrite vivareal_logger_run. cbn.
    set (s0 := mkScraper (data s) (sent s) (files s) _).
    destruct (search_imoveis_run c t max_pages s0) as (urls & Hr & Hd & Hf).
    destruct (search_imoveis net urljoin c t max_pages s0) as [s1 r1].
    cbn in *. subst r1. unfold sleep. cbn.
    destruct (IH (all_urls ++ urls) s1) as (urls' & Hr' & Hd' & Hf').
    exists urls'. rewrite Hd', Hf', Hd, Hf. auto.
Qed.

Lemma search_cidades_run max_pages cidades tipos all_urls s :
  exists urls,
    snd (search_cidades net urljoin max_pages cidades tipos all_urls s)
    = inr urls /\
    data (fst (search_cidades net urljoin max_pages cidades tipos all_urls s))
    = data s /\
    files (fst (search_cidades net urljoin max_pages cidades tipos all_urls s))
    = files s.
Proof.
  revert all_urls s. induction cidades as [|c cidades IH]; intros all_urls s.
  - exists all_urls. auto.
  - cbn. unfold method_bind.
    destruct (search_tipos_run max_pages c tipos all_urls s)
      as (urls & Hr & Hd & Hf).
    destruct (search_tipos net urljoin max_pages c tipos all_urls s)
      as [s1 r1].
    cbn in *. subst r1.
    destruct (IH urls s1) as (urls' & Hr' & Hd' & Hf').
    exists urls'. rewrite Hd', Hf', Hd, Hf. auto.
Qed.

Lemma vivareal_process_url_run u s :
  snd (process_url net clock u s) = inr tt /\
  files (fst (process_url net clock u s)) = files s /\
  data (fst (process_url net clock u s))
  = data s ++ match snd (extract_imovel_data net clock u
                           (fst (logger (Info "Processando imovel") s))) with
              | inr (Some d) => [d]
              | _ => []
              end.
Proof.
  unfold process_url. cbn. unfold method_bind.
  rewrite vivareal_logger_run. cbn.
  set (s0 := mkScraper (data s) (sent s) (files s)
               (log s ++ [Info "Processando imovel"])).
  destruct (vivareal_extract_imovel_data_run u s0) as (r & Hr & Hd & Hf & _).
  destruct (extract_imovel_data net clock u s0) as [s1 r1]. cbn in *.
  subst r1. destruct r as [d|]; cbn; rewrite ?Hd, ?Hf, ?app_nil_r; auto.
Qed.

Lemma vivareal_for_each_run urls s :
  exists collected,
    snd (for_each urls (process_url net clock) s) = inr tt /\
    files (fst (for_each urls (process_url net clock) s)) = files s /\
    data (fst (for_each urls (process_url net clock) s))
    = data s ++ collected /\
    (List.length collected <= List.length urls)%nat.
Proof.
  revert s. induction urls as [|u urls IH]; intros s.
  - exists []. cbn. rewrite app_nil_r. auto.
  - destruct (vivareal_process_url_run u s) as (Hr & Hf & Hd).
    cbn. unfold method_bind.
    destruct (process_url net clock u s) as [s1 r1]. cbn in *. subst r1.
    destruct (IH s1) as (c & Hr' & Hf' & Hd' & Hlen).
    eexists. rewrite Hr', Hf', Hd', Hd, Hf, <- app_assoc.
    repeat split; auto.
    rewrite length_app.
    destruct (snd (extract_imovel_data net clock u _)) as [|[|]]; cbn; lia.
Qed.

Lemma scrape_mercado_tradicional_run cidades tipos max_pages max_imoveis s :
  exists collected,
    snd (scrape_mercado_tradicional net urljoin clock list_of_set
           cidades tipos max_pages max_imoveis s) = inr tt /\
    files (fst (scrape_mercado_tradicional net urljoin clock list_of_set
                  cidades tipos max_pages max_imoveis s)) = files s /\
    data (fst (scrape_mercado_tradicional net urljoin clock list_of_set
                 cidades tipos max_pages max_imoveis s))
    = data s ++ collected /\
    (List.length collected
     <= List.length (vivareal_urls net urljoin list_of_set cidades tipos
                       max_pages max_imoveis s))%nat.
Proof.
  unfold scrape_mercado_tradicional, vivareal_urls. cbn. unfold method_bind.
  rewrite vivareal_logger_run. cbn.
  set (s0 := mkScraper (data s) (sent s) (files s) _).
  set (cs := or_default cidades _). set (ts := or_default tipos _).
  destruct (search_cidades_run max_pages cs ts [] s0) as (urls & Hr & Hd & Hf).
  destruct (search_cidades net urljoin max_pages cs ts [] s0) as [s1 r1].
  cbn in *. subst r1.
  set (capped := if (max_imoveis <? Z.of_nat (List.length (list_of_set urls)))%Z
                 then slice_to max_imoveis (list_of_set urls)
                 else list_of_set urls).
  destruct (vivareal_for_each_run capped s1) as (c & Hr' & Hf' & Hd' & Hlen).
  destruct (for_each capped (process_url net clock) s1) as [s2 r2].
  cbn in *. subst r2. rewrite vivareal_logger_run. cbn.
  exists c. rewrite Hf', Hd', Hd, Hf. auto.
Qed.

(** [save_data] leaves [data] alone; when it returns, it has written
    all of [data] to the JSON file, and to the CSV file when there is
    any. *)
Lemma vivareal_save_data_run disk filename s :
  data (fst (save_data clock disk filename s)) = data s /\
  (snd (save_data clock disk filename s) = inr tt ->
   exists path,
     files (fst (save_data clock disk filename s))
     = files s
         ++ (path, data s)
            :: match data s with
               | [] => []
               | _ :: _ => [(Text.replace ".json" ".csv" path, data s)]
               end).
Proof.
  unfold save_data. cbn. unfold method_bind, gets, modify, lift.
  destruct (disk _) as [e|[]]; cbn; [split; [reflexivity|discriminate]|].
  rewrite !vivareal_logger_run. cbn.
  destruct (data s) eqn:E; cbn; rewrite ?E.
  - split; [reflexivity|]. intros _. eexists. reflexivity.
  - destruct (disk _) as [e|[]]; cbn; rewrite ?E;
      [split; [reflexivity|discriminate]|].
    rewrite vivareal_logger_run. cbn. rewrite ?E. split; [reflexivity|].
    intros _. eexists. rewrite <- app_assoc. reflexivity.
Qed.

(** *** Runs against a network that always answers the same *)

Hypothesis Hstationary : stationary net clock.

Lemma vivareal_extract_imovel_data_same u s1 s2 :
  snd (extract_imovel_data net clock u s1)
  = snd (extract_imovel_data net clock u s2).
Proof.
  destruct Hstationary as [Hnet Hclock].
  unfold extract_imovel_data, try_method. cbn.
  unfold method_bind. rewrite !vivareal_fetch_run.
  rewrite (Hnet u (times_requested u (sent s1))),
    (Hnet u (times_requested u (sent s2))).
  destruct (raise_for_status (net u 0%nat)) as [e|soup]; cbn;
    rewrite ?vivareal_logger_run; cbn; [reflexivity|].
  unfold gets. cbn.
  now rewrite (Hclock (List.length (sent s1 ++ [u]))),
    (Hclock (List.length (sent s2 ++ [u]))).
Qed.

Lemma vivareal_visit_page_same c t page urls s1 s2 :
  snd (visit_page net urljoin c t page urls s1)
  = snd (visit_page net urljoin c t page urls s2).
Proof.
  destruct Hstationary as [Hnet _].
  unfold visit_page, try_method. cbn.
  unfold method_bind. rewrite !vivareal_logger_run, !vivareal_fetch_run. cbn.
  rewrite (Hnet _ (times_requested _ (sent s1))),
    (Hnet _ (times_requested _ (sent s2))).
  destruct (raise_for_status _) as [e|soup]; cbn; rewrite ?vivareal_logger_run;
    reflexivity.
Qed.

Lemma vivareal_visit_pages_same c t pages urls s1 s2 :
  snd (visit_pages net urljoin c t pages urls s1)
  = snd (visit_pages net urljoin c t pages urls s2).
Proof.
  revert urls s1 s2. induction pages as [|page pages IH]; intros urls s1 s2.
  - reflexivity.
  - cbn. unfold method_bind.
    pose proof (vivareal_visit_page_same c t page urls s1 s2) as Hsame.
    destruct (vivareal_visit_page_run c t page urls s1) as (u1 & Hr1 & _).
    destruct (vivareal_visit_page_run c t page urls s2) as (u2 & Hr2 & _).
    destruct (visit_page net urljoin c t page urls s1) as [t1 r1].
    destruct (visit_page net urljoin c t page urls s2) as [t2 r2].
    cbn in *. rewrite Hr1, Hr2 in Hsame. inversion Hsame. subst. apply IH.
Qed.

Lemma search_imoveis_same c t max_pages s1 s2 :
  snd (search_imoveis net urljoin c t max_pages s1)
  = snd (search_imoveis net urljoin c t max_pages s2).
Proof.
  unfold search_imoveis. cbn. unfold method_bind.
  pose proof (vivareal_visit_pages_same c t (range_from_1 max_pages) [] s1 s2) as Hsame.
  destruct (vivareal_visit_pages_run c t (range_from_1 max_pages) [] s1) as (u1 & Hr1 & _).
  destruct (vivareal_visit_pages_run c t (range_from_1 max_pages) [] s2) as (u2 & Hr2 & _).
  destruct (visit_pages net urljoin c t (range_from_1 max_pages) [] s1) as [t1 r1].
  destruct (visit_pages net urljoin c t (range_from_1 max_pages) [] s2) as [t2 r2].
  cbn in *. rewrite Hr1, Hr2 in Hsame. inversion Hsame. subst.
  rewrite !vivareal_logger_run. reflexivity.
Qed.

Lemma search_tipos_same max_pages c tipos all_urls s1 s2 :
  snd (search_tipos net urljoin max_pages c tipos all_urls s1)
  = snd (search_tipos net urljoin max_pages c tipos all_urls s2).
Proof.
  revert all_urls s1 s2.
  induction tipos as [|t tipos IH]; intros all_urls s1 s2.
  - reflexivity.
  - cbn. unfold method_bind. rewrite !vivareal_logger_run. cbn.
    set (t1 := mkScraper (data s1) _ _ _).
    set (t2 := mkScraper (data s2) _ _ _).
    pose proof (search_imoveis_same c t max_pages t1 t2) as Hsame.
    destruct (search_imoveis_run c t max_pages t1) as (u1 & Hr1 & _).
    destruct (search_imoveis_run c t max_pages t2) as (u2 & Hr2 & _).
    destruct (search_imoveis net urljoin c t max_pages t1) as [v1 r1].
    destruct (search_imoveis net urljoin c t max_pages t2) as [v2 r2].
    cbn in *. rewrite Hr1, Hr2 in Hsame. inversion Hsame. subst.
    unfold sleep. cbn. apply IH.
Qed.

Lemma search_cidades_same max_pages cidades tipos all_urls s1 s2 :
  snd (search_cidades net urljoin max_pages cidades tipos all_urls s1)
  = snd (search_cidades net urljoin max_pages cidades tipos all_urls s2).
Proof.
  revert all_urls s1 s2.
  induction cidades as [|c cidades IH]; intros all_urls s1 s2.
  - reflexivity.
  - cbn. unfold method_bind.
    pose proof (search_tipos_same max_pages c tipos all_urls s1 s2) as Hsame.
    destruct (search_tipos_run max_pages c tipos all_urls s1) as (u1 & Hr1 & _).
    destruct (search_tipos_run max_pages c tipos all_urls s2) as (u2 & Hr2 & _).
    destruct (search_tipos net urljoin max_pages c tipos all_urls s1) as [v1 r1].
    destruct (search_tipos net urljoin max_pages c tipos all_urls s2) as [v2 r2].
    cbn in *. rewrite Hr1, Hr2 in Hsame. inversion Hsame. subst. apply IH.
Qed.

Lemma vivareal_for_each_same urls s1 s2 :
  exists collected,
    data (fst (for_each urls (process_url net clock) s1)) = data s1 ++ collected
    /\ data (fst (for_each urls (process_url net clock) s2))
        = data s2 ++ collected.
Proof.
  revert s1 s2. induction urls as [|u urls IH]; intros s1 s2.
  - exists []. cbn. now rewrite !app_nil_r.
  - destruct (vivareal_process_url_run u s1) as (Hr1 & _ & Hd1).
    destruct (vivareal_process_url_run u s2) as (Hr2 & _ & Hd2).
    rewrite (vivareal_extract_imovel_data_same u _
               (fst (logger (Info "Processando imovel") s1))) in Hd2.
    cbn. unfold method_bind.
    destruct (process_url net clock u s1) as [t1 r1].
    destruct (process_url net clock u s2) as [t2 r2].
    cbn in *. subst r1 r2.
    destruct (IH t1 t2) as (c & Hc1 & Hc2).
    eexists. rewrite Hc1, Hc2, Hd1, Hd2, <- !app_assoc. split; reflexivity.
Qed.

Lemma scrape_mercado_tradicional_same cidades tipos max_pages max_imoveis s1 s2 :
  exists collected,
    data (fst (scrape_mercado_tradicional net urljoin clock list_of_set
                 cidades tipos max_pages max_imoveis s1))
    = data s1 ++ collected
    /\ data (fst (scrape_mercado_tradicional net urljoin clock list_of_set
                    cidades tipos max_pages max_imoveis s2))
        = data s2 ++ collected.
Proof.
  unfold scrape_mercado_tradicional. cbn. unfold method_bind.
  rewrite !vivareal_logger_run. cbn.
  set (t1 := mkScraper (data s1) _ _ _).
  set (t2 := mkScraper (data s2) _ _ _).
  set (cs := or_default cidades _). set (ts := or_default tipos _).
  pose proof (search_cidades_same max_pages cs ts [] t1 t2) as Hsame.
  destruct (search_cidades_run max_pages cs ts [] t1) as (u1 & Hr1 & Hd1 & _).
  destruct (search_cidades_run max_pages cs ts [] t2) as (u2 & Hr2 & Hd2 & _).
  destruct (search_cidades net urljoin max_pages cs ts [] t1) as [v1 r1].
  destruct (search_cidades net urljoin max_pages cs ts [] t2) as [v2 r2].
  cbn in *. rewrite Hr1, Hr2 in Hsame. inversion Hsame. subst.
  set (capped := if (max_imoveis <? Z.of_nat (List.length (list_of_set u2)))%Z
                 then slice_to max_imoveis (list_of_set u2)
                 else list_of_set u2).
  destruct (vivareal_for_each_same capped v1 v2) as (c & Hc1 & Hc2).
  destruct (vivareal_for_each_run capped v1) as (_ & Hq1 & _).
  destruct (vivareal_for_each_run capped v2) as (_ & Hq2 & _).
  destruct (for_each capped (process_url net clock) v1) as [w1 q1].
  destruct (for_each capped (process_url net clock) v2) as [w2 q2].
  cbn in *. subst q1 q2. rewrite !vivareal_logger_run. cbn.
  exists c. rewrite Hc1, Hc2, Hd1, Hd2. auto.
Qed.

End Runs.

End VivaRealFacts.

(** ** More on the analyzer *)

Module AnalyzerFacts.

Import Pandas ImovelAnalyzer PandasFacts Observations Measures.

#[local] Arguments select_rows : simpl never.
#[local] Arguments setitem : simpl never.
#[local] Arguments concat2 : simpl never.
#[local] Arguments _clean_dataframe : simpl never.
#[local] Arguments str_column : simpl never.
#[local] Arguments series_div : simpl never.
#[local] Arguments str_map : simpl never.
#[local] Arguments numeric_values : simpl never.
#[local] Arguments build_statistics : simpl never.
#[local] Arguments _combine_datasets : simpl never.

(** *** Loading *)

(** [load_data] writes the tag of the source in every row, whatever the
    file held in a column [fonte], and leaves the other columns alone. *)
Theorem load_data_overwrites_fonte
        (leiloes tradicional : DataFrame) (a : analyzer) :
  let a' := fst (load_data (Content leiloes) (Content tradicional) a) in
  exists l t,
    df_leiloes a' = Some l /\ df_tradicional a' = Some t /\
    nrows l = nrows leiloes /\ nrows t = nrows tradicional /\
    cells_of l "fonte" = repeat (Str "leilao") (nrows leiloes) /\
    cells_of t "fonte" = repeat (Str "tradicional") (nrows tradicional) /\
    (forall col, String.eqb col "fonte" = false ->
                 get l col = get leiloes col /\ get t col = get tradicional col).
Proof.
  cbn. do 2 eexists. repeat split.
  - unfold cells_of. now rewrite get_setitem_same.
  - unfold cells_of. now rewrite get_setitem_same.
  - now apply get_setitem_other.
  - now apply get_setitem_other.
Qed.

(** The two files are read under one [try]: when reading the auction file
    raises, the traditional file is not read either, and the analyzer
    keeps the frames it had. *)
Theorem load_data_stops_at_first_unreadable_file
        (e : exn) (tradicional : source_file) (a : analyzer) :
  let a' := fst (load_data (Unreadable e) tradicional a) in
  df_leiloes a' = df_leiloes a /\ df_tradicional a' = df_tradicional a /\
  df_combined a' = df_combined a /\
  log a' = log a ++ [Error (Some e)] /\
  snd (load_data (Unreadable e) tradicional a) = inr tt.
Proof. destruct a. cbn. auto. Qed.

(** *** Frames stay well formed *)

Lemma lookup_in {A : Type} k (v : A) l : lookup k l = Some v -> In (k, v) l.
Proof.
  induction l as [|[k' v'] l IH]; simpl; [discriminate|].
  destruct (String.eqb k k') eqn:E.
  - intros H. inversion H. apply String.eqb_eq in E. subst. now left.
  - intros H. right. now apply IH.
Qed.

Lemma well_formed_get df col s :
  well_formed df -> get df col = Some s -> List.length (values s) = nrows df.
Proof.
  intros Hwf Hget. apply lookup_in in Hget.
  unfold well_formed in Hwf. rewrite Forall_forall in Hwf.
  apply (Hwf _ Hget).
Qed.

Lemma Forall_assign {A : Type} (P : string * A -> Prop) k v l :
  Forall P l -> P (k, v) -> Forall P (assign k v l).
Proof.
  intros Hl Hv. induction Hl as [|[k' v'] l Hx Hl IH]; simpl.
  - auto.
  - destruct (String.eqb k k'); constructor; auto.
Qed.

Lemma well_formed_setitem df col s :
  well_formed df -> List.length (values s) = nrows df ->
  well_formed (setitem df col s).
Proof. intros Hwf Hs. now apply Forall_assign. Qed.

Lemma mask_filter_length_eq {A : Type} mask (l : list A) :
  List.length l = List.length mask ->
  List.length (mask_filter mask l) = count_true mask.
Proof.
  unfold count_true. revert l.
  induction mask as [|b mask IH]; intros [|x l]; simpl; try discriminate; auto.
  intros H. injection H as H. destruct b; simpl; rewrite IH; auto.
Qed.

Lemma count_true_le mask : (count_true mask <= List.length mask)%nat.
Proof. unfold count_true. apply filter_length_le. Qed.

Lemma well_formed_select_rows mask df :
  well_formed df -> List.length mask = nrows df ->
  well_formed (select_rows mask df).
Proof.
  intros Hwf Hlen. unfold well_formed, select_rows in *. cbn.
  rewrite Forall_map. eapply Forall_impl; [|exact Hwf].
  intros [k s] Hs. cbn in *. apply mask_filter_length_eq. congruence.
Qed.

Lemma numeric_values_length s xs :
  numeric_values s = inr xs -> List.length xs = List.length (values s).
Proof.
  intros H. apply numeric_cells_map in H. rewrite H. now rewrite length_map.
Qed.

Lemma well_formed_standardize_price fonte df :
  well_formed df -> well_formed (standardize_price fonte df).
Proof.
  intros Hwf. unfold standardize_price.
  destruct (String.eqb fonte "leilao"); [|assumption].
  apply well_formed_setitem; [assumption|].
  destruct (get df "preco_atual") as [s|] eqn:E1;
    [now apply (well_formed_get df "preco_atual")|].
  destruct (get df "preco_inicial") as [s|] eqn:E2;
    [now apply (well_formed_get df "preco_inicial")|].
  cbn. apply repeat_length.
Qed.

Lemma nrows_convert_types f df : nrows (convert_types f df) = nrows df.
Proof.
  unfold convert_types, numeric_columns. cbn.
  repeat match goal with
         | |- context [match get ?d ?c with _ => _ end] =>
             destruct (get d c); cbn
         end; reflexivity.
Qed.

Lemma well_formed_convert_types f df :
  well_formed df -> well_formed (convert_types f df).
Proof.
  unfold convert_types.
  generalize numeric_columns. intros cols. revert df.
  induction cols as [|c cols IH]; intros df Hwf; cbn; [assumption|].
  apply IH. destruct (get df c) as [s|] eqn:E; [|assumption].
  apply well_formed_setitem; [assumption|].
  cbn. rewrite length_map. now apply (well_formed_get df c).
Qed.

Lemma well_formed_derive df pre :
  well_formed df -> derive_preco_m2 df = inr pre ->
  well_formed pre /\ nrows pre = nrows df.
Proof.
  intros Hwf. unfold derive_preco_m2.
  destruct (derives_preco_m2 df) eqn:Ed.
  - fold (derive_preco_m2 df).
    intros H.
    assert (Hd : derive_preco_m2 df = inr pre).
    { unfold derive_preco_m2. now rewrite Ed. }
    destruct (CleaningFacts.derive_preco_m2_derived _ _ Ed Hd)
      as (preco & area & ps & ars & Hp & Ha & Hps & Hars & ->).
    split; [|reflexivity].
    apply well_formed_setitem; [assumption|]. cbn.
    rewrite length_map, length_combine.
    pose proof (well_formed_get _ _ _ Hwf Hp) as Lp.
    pose proof (well_formed_get _ _ _ Hwf Ha) as La.
    rewrite Hps, length_map in Lp. rewrite Hars, length_map in La. lia.
  - intros H. inversion H. subst. auto.
Qed.

Lemma well_formed_remove_outliers df mid :
  well_formed df -> remove_outliers df = inr mid ->
  well_formed mid /\ (nrows mid <= nrows df)%nat.
Proof.
  intros Hwf H.
  destruct (CleaningFacts.remove_outliers_inr _ _ H)
    as [[_ ->]|(s & xs & Hs & Hxs & ->)]; [auto|].
  pose proof (well_formed_get _ _ _ Hwf Hs) as Ls.
  rewrite Hxs, length_map in Ls.
  split.
  - apply well_formed_select_rows; [assumption|]. now rewrite length_map.
  - cbn. etransitivity; [apply count_true_le|]. rewrite length_map. lia.
Qed.

Lemma str_map_length g s s' :
  str_map g s = inr s' -> List.length (values s') = List.length (values s).
Proof.
  unfold str_map. destruct (dtype_of s); [discriminate|].
  destruct (_ || _); [|discriminate].
  intros H. inversion H. cbn. apply length_map.
Qed.

Lemma well_formed_standardize_tipo df d :
  well_formed df -> standardize_tipo df = inr d ->
  well_formed d /\ nrows d = nrows df.
Proof.
  intros Hwf. unfold standardize_tipo.
  destruct (get df "tipo_imovel") as [t|] eqn:E.
  - destruct (str_map Text.lower t) as [e|l] eqn:El; cbn; [discriminate|].
    destruct (str_map Text.strip l) as [e|st] eqn:Es; cbn; [discriminate|].
    intros H. inversion H. split; [|reflexivity].
    apply well_formed_setitem; [assumption|]. cbn.
    rewrite length_map, (str_map_length _ _ _ Es), (str_map_length _ _ _ El).
    now apply (well_formed_get df "tipo_imovel").
  - intros H. inversion H. subst. auto.
Qed.

(** A cleaning pass keeps a frame well formed (one cell per row in every
    column) and never adds a row. *)
Theorem clean_dataframe_keeps_frames_well_formed
        (f : string -> float) (df : DataFrame) (fonte : string)
        (cleaned : DataFrame) :
  well_formed df ->
  _clean_dataframe f df fonte = inr cleaned ->
  well_formed cleaned /\ (nrows cleaned <= nrows df)%nat.
Proof.
  intros Hwf H.
  destruct (CleaningFacts.clean_dataframe_inr _ _ _ _ H)
    as (pre & mid & Hpre & Hmid & Htipo).
  unfold before_rejection in Hpre.
  destruct (well_formed_derive _ _
              (well_formed_convert_types f _
                 (well_formed_standardize_price fonte _ Hwf)) Hpre)
    as [Wpre Npre].
  rewrite nrows_convert_types in Npre.
  assert (Nprice : nrows (standardize_price fonte df) = nrows df).
  { unfold standardize_price. now destruct (String.eqb fonte "leilao"). }
  destruct (well_formed_remove_outliers _ _ Wpre Hmid) as [Wmid Nmid].
  destruct (well_formed_standardize_tipo _ _ Wmid Htipo) as [Wd Nd].
  split; [assumption|]. lia.
Qed.

(** *** Missing columns *)

Lemma convert_types_absent f df col :
  get df col = None -> get (convert_types f df) col = None.
Proof.
  unfold convert_types. generalize numeric_columns. intros cols. revert df.
  induction cols as [|c cols IH]; intros df H; cbn; [assumption|].
  apply IH. destruct (get df c) as [s|] eqn:E; [|assumption].
  destruct (String.eqb col c) eqn:Ec.
  - apply String.eqb_eq in Ec. subst. congruence.
  - now rewrite get_setitem_other.
Qed.

Lemma convert_types_present f df col s :
  get df col = Some s -> exists s', get (convert_types f df) col = Some s'.
Proof.
  unfold convert_types. generalize numeric_columns. intros cols. revert df s.
  induction cols as [|c cols IH]; intros df s H; cbn; [eauto|].
  destruct (get df c) as [sc|] eqn:E; [|eauto].
  destruct (String.eqb col c) eqn:Ec.
  - apply String.eqb_eq in Ec. subst.
    eapply IH. apply get_setitem_same.
  - eapply IH. rewrite get_setitem_other; eauto.
Qed.

(** Without a column [area] (and without a price per square metre to go
    by) the cleaning of an auction frame raises [KeyError('area')]; so
    does the cleaning of a traditional frame that has a price. *)
Theorem clean_dataframe_without_area
        (f : string -> float) (df : DataFrame) (fonte : string) :
  get df "area" = None ->
  get df "preco_m2" = None ->
  fonte = "leilao" \/ has_column df "preco" = true ->
  _clean_dataframe f df fonte = inl (KeyError "area").
Proof.
  intros Harea Hm2 Hpreco.
  set (priced := standardize_price fonte df).
  assert (Ha : get priced "area" = None).
  { unfold priced, standardize_price.
    destruct (String.eqb fonte "leilao"); [|assumption].
    now rewrite get_setitem_other. }
  assert (Hm : get priced "preco_m2" = None).
  { unfold priced, standardize_price.
    destruct (String.eqb fonte "leilao"); [|assumption].
    now rewrite get_setitem_other. }
  assert (Hp : exists s, get priced "preco" = Some s).
  { unfold priced, standardize_price.
    destruct Hpreco as [-> | Hp].
    - cbn. eexists. apply get_setitem_same.
    - destruct (String.eqb fonte "leilao").
      + eexists. apply get_setitem_same.
      + unfold has_column in Hp. destruct (get df "preco"); [eauto|discriminate]. }
  destruct Hp as [s Hp].
  destruct (convert_types_present f _ _ _ Hp) as [s' Hp'].
  apply (convert_types_absent f) in Ha. apply (convert_types_absent f) in Hm.
  unfold _clean_dataframe, before_rejection. fold priced.
  unfold derive_preco_m2, derives_preco_m2, getitem.
  rewrite Hm, Hp', Ha. reflexivity.
Qed.

(** *** What a failed cleaning leaves behind *)

(** When the cleaning of the auction frame raises, [clean_data] stops
    there: the traditional frame is not cleaned, nothing is combined, the
    error is logged and the caller sees a normal return. *)
Theorem clean_data_stops_at_auction_error
        (f : string -> float) (a : analyzer) (df : DataFrame) (e : exn) :
  df_leiloes a = Some df ->
  _clean_dataframe f df "leilao" = inl e ->
  fst (clean_data f a)
  = mkAnalyzer (df_leiloes a) (df_tradicional a) (df_combined a)
      (log a ++ [Error (Some e)])
  /\ snd (clean_data f a) = inr tt.
Proof.
  intros Hl He. destruct a as [dl dt dc lg]. cbn in Hl. subst dl.
  unfold clean_data, try_method. cbn.
  unfold method_bind, gets, lift, modify, method_ret. cbn.
  rewrite He. cbn. auto.
Qed.

(** When the auction frame is cleaned and the cleaning of the traditional
    frame raises, the analyzer keeps the cleaned auction frame, the
    traditional frame as loaded, and the combined frame it had before:
    [_combine_datasets] is not reached. *)
Theorem clean_data_keeps_stale_combined_frame
        (f : string -> float) (a : analyzer) (l l' t : DataFrame) (e : exn) :
  df_leiloes a = Some l ->
  df_tradicional a = Some t ->
  _clean_dataframe f l "leilao" = inr l' ->
  _clean_dataframe f t "tradicional" = inl e ->
  fst (clean_data f a)
  = mkAnalyzer (Some l') (Some t) (df_combined a) (log a ++ [Error (Some e)]).
Proof.
  intros Hl Ht Hcl Hct. destruct a as [dl dt dc lg]. cbn in Hl, Ht. subst dl dt.
  unfold clean_data, try_method. cbn.
  unfold method_bind, gets, lift, modify, method_ret. cbn.
  rewrite Hcl. cbn. rewrite Hct. cbn. reflexivity.
Qed.

(** *** Property types *)

Lemma lower_char_idempotent c :
  Text.lower_char (Text.lower_char c) = Text.lower_char c.
Proof.
  destruct c as [[] [] [] [] [] [] [] []]; reflexivity.
Qed.

Lemma is_space_lower_char c :
  Text.is_space (Text.lower_char c) = Text.is_space c.
Proof.
  destruct c as [[] [] [] [] [] [] [] []]; reflexivity.
Qed.

Lemma chars_text l : Text.chars (Text.text l) = l.
Proof. apply list_ascii_of_string_of_list_ascii. Qed.

Lemma drop_while_idempotent p l :
  Text.drop_while p (Text.drop_while p l) = Text.drop_while p l.
Proof.
  induction l as [|c l IH]; simpl; [reflexivity|].
  destruct (p c) eqn:E; [exact IH|]. simpl. now rewrite E.
Qed.

Lemma drop_while_map p g l :
  (forall c, p (g c) = p c) ->
  Text.drop_while p (map g l) = map g (Text.drop_while p l).
Proof.
  intros H. induction l as [|c l IH]; simpl; [reflexivity|].
  rewrite H. destruct (p c); auto.
Qed.

Lemma drop_while_suffix p l : exists pre, l = pre ++ Text.drop_while p l.
Proof.
  induction l as [|c l [pre IH]]; simpl.
  - exists []. reflexivity.
  - destruct (p c).
    + exists (c :: pre). simpl. now f_equal.
    + exists []. reflexivity.
Qed.

Lemma drop_while_head p l c r :
  Text.drop_while p l = c :: r -> p c = false.
Proof.
  induction l as [|x l IH]; simpl; [discriminate|].
  destruct (p x) eqn:E; [exact IH|].
  intros H. inversion H. now subst.
Qed.

Lemma trimmed_idempotent l : trimmed (trimmed l) = trimmed l.
Proof.
  unfold trimmed.
  set (d := Text.drop_while Text.is_space l).
  set (r := Text.drop_while Text.is_space (rev d)).
  assert (H : Text.drop_while Text.is_space (rev r) = rev r).
  { destruct (drop_while_suffix Text.is_space (rev d)) as [pre Hpre].
    fold r in Hpre.
    apply (f_equal (@rev ascii)) in Hpre.
    rewrite rev_involutive, rev_app_distr in Hpre.
    destruct (rev r) as [|c x] eqn:Er; [reflexivity|].
    simpl in Hpre.
    assert (Hc : Text.is_space c = false)
      by (apply (drop_while_head Text.is_space l c (x ++ rev pre)); exact Hpre).
    simpl. now rewrite Hc. }
  rewrite H, rev_involutive. unfold r at 1.
  now rewrite drop_while_idempotent.
Qed.

Lemma trimmed_lower l :
  trimmed (map Text.lower_char l) = map Text.lower_char (trimmed l).
Proof.
  unfold trimmed.
  rewrite (drop_while_map _ _ _ is_space_lower_char), <- map_rev,
    (drop_while_map _ _ _ is_space_lower_char), <- map_rev.
  reflexivity.
Qed.

Lemma strip_eq s : Text.strip s = Text.text (trimmed (Text.chars s)).
Proof. reflexivity. Qed.

Lemma lower_eq s : Text.lower s = Text.text (map Text.lower_char (Text.chars s)).
Proof. reflexivity. Qed.

Lemma strip_lower_idempotent t :
  Text.strip (Text.lower (Text.strip (Text.lower t)))
  = Text.strip (Text.lower t).
Proof.
  rewrite !strip_eq, !lower_eq, !chars_text.
  rewrite trimmed_lower, trimmed_idempotent, <- trimmed_lower, map_map.
  f_equal. f_equal. apply map_ext. intros c. apply lower_char_idempotent.
Qed.

Lemma tidy_cell_idempotent c : tidy_cell (tidy_cell c) = tidy_cell c.
Proof.
  destruct c as [x|t]; simpl; [reflexivity|].
  now rewrite strip_lower_idempotent.
Qed.

Lemma names_map_to_themselves t t' :
  lookup t tipo_imovel_names = Some t' -> t' = t.
Proof.
  unfold tipo_imovel_names. simpl.
  repeat match goal with
         | |- context [String.eqb t ?k] =>
             let E := fresh "E" in
             destruct (String.eqb t k) eqn:E;
             [apply String.eqb_eq in E; intros H; inversion H; congruence|]
         end.
  discriminate.
Qed.

Lemma replace_names_nothing s :
  values (replace tipo_imovel_names s) = values s.
Proof.
  destruct s as [dt vs]. cbv beta iota delta [replace values dtype_of].
  rewrite <- (map_id vs) at 2.
  apply map_ext. intros [x|t]; [reflexivity|].
  destruct (lookup t tipo_imovel_names) as [t'|] eqn:E; [|reflexivity].
  now rewrite (names_map_to_themselves _ _ E).
Qed.

Lemma replace_names_identity s : replace tipo_imovel_names s = s.
Proof.
  pose proof (replace_names_nothing s) as H.
  destruct s as [dt vs]. unfold replace in *.
  cbv beta iota delta [values dtype_of] in *. now f_equal.
Qed.

Lemma str_map_twice s s1 s2 :
  str_map Text.lower s = inr s1 -> str_map Text.strip s1 = inr s2 ->
  s2 = mkSeries Object (map tidy_cell (values s)).
Proof.
  unfold str_map. destruct (dtype_of s); [discriminate|].
  destruct (_ || _); [|discriminate].
  intros H. inversion H. subst s1. clear H. cbn.
  destruct (_ || _); [|discriminate].
  intros H. inversion H. f_equal. rewrite map_map.
  apply map_ext. intros [x|t]; reflexivity.
Qed.

(** A column that came out of a text method goes into the next one. *)
Lemma str_map_after_str_map g h l :
  str_map h (mkSeries Object
               (map (fun c => match c with
                              | Str t => Str (g t)
                              | Num _ => Num NaN
                              end) l))
  = inr (mkSeries Object
           (map (fun c => match c with
                          | Str t => Str (h (g t))
                          | Num _ => Num NaN
                          end) l)).
Proof.
  unfold str_map. cbv beta iota delta [values dtype_of].
  match goal with
  | |- (if ?b then _ else _) = _ => assert (Hb : b = true)
  end.
  { induction l as [|c l IH]; [reflexivity|].
    destruct c as [x|t]; simpl; [|reflexivity].
    exact IH. }
  rewrite Hb, map_map. cbn. do 2 f_equal.
  apply map_ext. intros [x|t]; reflexivity.
Qed.

(** The table of names maps every name to itself: after the cleaning a
    property type is its text in lower case without surrounding white
    space, whatever the text, and an entry that is not text is missing.
    No type is mapped to another one, none is dropped. *)
Theorem standardize_tipo_only_tidies
        (df d : DataFrame) (tipo : Series) :
  get df "tipo_imovel" = Some tipo ->
  standardize_tipo df = inr d ->
  get d "tipo_imovel" = Some (mkSeries Object (map tidy_cell (values tipo)))
  /\ nrows d = nrows df
  /\ (forall col, String.eqb col "tipo_imovel" = false -> get d col = get df col).
Proof.
  intros Ht. unfold standardize_tipo. rewrite Ht.
  destruct (str_map Text.lower tipo) as [e|l] eqn:El; cbn; [discriminate|].
  destruct (str_map Text.strip l) as [e|st] eqn:Es; cbn; [discriminate|].
  rewrite replace_names_identity, (str_map_twice _ _ _ El Es).
  intros H. inversion H. clear H.
  repeat split.
  - now rewrite get_setitem_same.
  - intros col Hc. now apply get_setitem_other.
Qed.

Lemma assign_twice {A : Type} k (v : A) l :
  assign k v (assign k v l) = assign k v l.
Proof.
  induction l as [|[k' v'] l IH]; simpl.
  - now rewrite String.eqb_refl.
  - destruct (String.eqb k k') eqn:E; simpl.
    + now rewrite String.eqb_refl.
    + now rewrite E, IH.
Qed.

(** Standardizing the property types a second time changes nothing. *)
Theorem standardize_tipo_idempotent (df d : DataFrame) :
  standardize_tipo df = inr d -> standardize_tipo d = inr d.
Proof.
  intros H.
  destruct (get df "tipo_imovel") as [tipo|] eqn:Ht.
  - assert (Ed : d = setitem df "tipo_imovel"
                       (mkSeries Object (map tidy_cell (values tipo)))).
    { unfold standardize_tipo in H. rewrite Ht in H.
      destruct (str_map Text.lower tipo) as [e|l] eqn:El; cbn in H; [discriminate|].
      destruct (str_map Text.strip l) as [e|st] eqn:Es; cbn in H; [discriminate|].
      rewrite replace_names_identity, (str_map_twice _ _ _ El Es) in H.
      now inversion H. }
    assert (Hd : get d "tipo_imovel"
                 = Some (mkSeries Object (map tidy_cell (values tipo))))
      by (rewrite Ed; apply get_setitem_same).
    unfold standardize_tipo. rewrite Hd.
    unfold tidy_cell at 1.
    rewrite (str_map_after_str_map (fun t => Text.strip (Text.lower t))
               Text.lower (values tipo)).
    cbn.
    rewrite (str_map_after_str_map
               (fun t => Text.lower (Text.strip (Text.lower t)))
               Text.strip (values tipo)).
    cbn. rewrite replace_names_identity. f_equal.
    replace (map _ (values tipo)) with (map tidy_cell (values tipo)).
    2:{ apply map_ext. intros [x|t]; cbn; [reflexivity|].
        now rewrite strip_lower_idempotent. }
    rewrite Ed. unfold setitem. cbn. now rewrite assign_twice.
  - unfold standardize_tipo in H. rewrite Ht in H. inversion H. subst d.
    unfold standardize_tipo. now rewrite Ht.
Qed.

(** *** Combining *)

Lemma lookup_some_named {A : Type} col (l : list (string * A)) :
  existsb (String.eqb col) (map fst l) = true <-> exists s, lookup col l = Some s.
Proof.
  induction l as [|[k v] l IH]; simpl.
  - split; [discriminate|intros [s H]; discriminate].
  - destruct (String.eqb col k); simpl; [|exact IH].
    split; eauto.
Qed.

Lemma in_union_names col a b :
  existsb (String.eqb col) (union_names a b)
  = existsb (String.eqb col) a || existsb (String.eqb col) b.
Proof.
  unfold union_names. rewrite existsb_app.
  destruct (existsb (String.eqb col) a) eqn:Ea; [reflexivity|]. simpl.
  induction b as [|k b IH]; simpl; [reflexivity|].
  destruct (existsb (String.eqb k) a) eqn:Ek; simpl.
  - rewrite IH. destruct (String.eqb col k) eqn:E; [|reflexivity].
    apply String.eqb_eq in E. subst. congruence.
  - now rewrite IH.
Qed.

Lemma column_or_missing_length df col :
  well_formed df -> List.length (column_or_missing df col) = nrows df.
Proof.
  intros Hwf. unfold column_or_missing.
  destruct (get df col) as [s|] eqn:E.
  - now apply (well_formed_get df col).
  - apply repeat_length.
Qed.

(** [_combine_datasets] with both frames loaded: the combined frame has
    the rows of the auction frame followed by those of the traditional
    frame; a column that one of them lacks is filled with missing values
    there; the two frames themselves are left as they are, and the
    combined frame is well formed when they are. *)
Theorem combine_datasets_concatenates (a : analyzer) (l t : DataFrame) :
  df_leiloes a = Some l ->
  df_tradicional a = Some t ->
  exists c,
    df_combined (fst (_combine_datasets a)) = Some c /\
    df_leiloes (fst (_combine_datasets a)) = Some l /\
    df_tradicional (fst (_combine_datasets a)) = Some t /\
    nrows c = (nrows l + nrows t)%nat /\
    (forall col,
        has_column l col = true \/ has_column t col = true ->
        cells_of c col = column_or_missing l col ++ column_or_missing t col) /\
    (forall col,
        has_column l col = false -> has_column t col = false ->
        has_column c col = false) /\
    (well_formed l -> well_formed t -> well_formed c).
Proof.
  intros Hl Ht. destruct a as [dl dt dc lg]. cbn in Hl, Ht. subst dl dt.
  exists (concat2 l t).
  unfold _combine_datasets. cbn.
  unfold method_bind, gets, modify, logger. cbn.
  repeat split.
  - intros col Hcol. unfold cells_of, concat2, get. cbn.
    rewrite (StatisticsFacts.lookup_named
               (fun col => mkSeries (join_dtype (get l col) (get t col))
                             (column_or_missing l col ++ column_or_missing t col))).
    rewrite in_union_names.
    assert (H : existsb (String.eqb col) (map fst (columns l))
                || existsb (String.eqb col) (map fst (columns t)) = true).
    { apply orb_true_iff. unfold has_column, get in Hcol.
      destruct Hcol as [H|H]; [left|right]; apply lookup_some_named;
        destruct (lookup col _); eauto; discriminate. }
    now rewrite H.
  - intros col Hcl Hct. unfold has_column, concat2, get. cbn.
    rewrite (StatisticsFacts.lookup_named
               (fun col => mkSeries (join_dtype (get l col) (get t col))
                             (column_or_missing l col ++ column_or_missing t col))).
    rewrite in_union_names.
    assert (H : existsb (String.eqb col) (map fst (columns l))
                || existsb (String.eqb col) (map fst (columns t)) = false).
    { apply orb_false_iff. unfold has_column, get in Hcl, Hct.
      split.
      - destruct (existsb _ (map fst (columns l))) eqn:E; [|reflexivity].
        apply lookup_some_named in E as [s E]. now rewrite E in Hcl.
      - destruct (existsb _ (map fst (columns t))) eqn:E; [|reflexivity].
        apply lookup_some_named in E as [s E]. now rewrite E in Hct. }
    now rewrite H.
  - intros Wl Wt. unfold well_formed, concat2. cbn.
    rewrite Forall_map. apply Forall_forall. intros col _. cbn.
    now rewrite length_app, !column_or_missing_length.
Qed.

(** *** Statistics *)

(** [generate_statistics] never raises and never touches the frames; when
    the file cannot be written the caller gets [None], although the
    statistics were computed. *)
Theorem generate_statistics_lost_on_write_error
        (a : analyzer) (df : DataFrame) (d : stats) (e : exn) :
  df_combined a = Some df ->
  build_statistics df = inr d ->
  generate_statistics (inl e) a
  = (mkAnalyzer (df_leiloes a) (df_tradicional a) (df_combined a)
       (log a ++ [Error (Some e)]),
     inr None)
  /\ snd (generate_statistics (inr tt) a) = inr (Some d).
Proof.
  intros Hc Hb. destruct a as [dl dt dc lg]. cbn in Hc. subst dc.
  unfold generate_statistics, try_method. cbn.
  unfold method_bind, gets, lift, modify, method_ret, logger. cbn.
  rewrite Hb. cbn. auto.
Qed.

#[local] Arguments mean : simpl never.
#[local] Arguments median : simpl never.
#[local] Arguments getitem : simpl never.
#[local] Arguments source_statistics : simpl never.

Lemma source_statistics_total df s k r :
  source_statistics df s k = inr r ->
  total_imoveis r = count_true (map (fun c => cell_eqb c k) (values s)).
Proof.
  unfold source_statistics.
  repeat match goal with
         | |- context [getitem ?d ?c] =>
             destruct (getitem d c) as [?|?]; cbn; [discriminate|]
         | |- context [mean ?x] =>
             destruct (mean x) as [?|?]; cbn; [discriminate|]
         | |- context [median ?x] =>
             destruct (median x) as [?|?]; cbn; [discriminate|]
         end.
  intros H. inversion H. reflexivity.
Qed.

Lemma count_known l :
  Forall known_source l ->
  (count_true (map (fun c => cell_eqb c leilao_key) l)
   + count_true (map (fun c => cell_eqb c tradicional_key) l)
   = List.length l)%nat.
Proof.
  unfold count_true.
  induction 1 as [|c l [-> | ->] _ IH]; simpl; lia.
Qed.

Lemma count_absent l :
  Forall known_source l ->
  forall seen k,
    k = leilao_key \/ k = tradicional_key ->
    existsb (same_cell k) seen = false ->
    ~ In k (unique_cells seen l) ->
    count_true (map (fun c => cell_eqb c k) l) = 0%nat.
Proof.
  unfold count_true, leilao_key, tradicional_key.
  induction 1 as [|c l Hc _ IH]; intros seen k Hk Hseen Hin; [reflexivity|].
  simpl in Hin.
  destruct (existsb (same_cell c) seen) eqn:Ec.
  - assert (Hne : cell_eqb c k = false).
    { destruct Hc as [-> | ->], Hk as [-> | ->]; try reflexivity; congruence. }
    simpl. rewrite Hne. now apply (IH seen).
  - assert (Hne : c <> k) by (intros ->; apply Hin; now left).
    assert (Hne' : cell_eqb c k = false /\ same_cell k c = false).
    { destruct Hc as [-> | ->], Hk as [-> | ->]; auto; congruence. }
    destruct Hne' as [E1 E2]. simpl. rewrite E1.
    apply (IH (c :: seen)); auto.
    + simpl. now rewrite E2.
    + intros Hin'. apply Hin. now right.
Qed.

(** In the statistics of a reachable analyzer every row of the combined
    frame is counted in exactly one source: the per-source totals add up
    to the number of rows. *)
Theorem statistics_count_every_row_once
        (f : string -> float) (a a' : analyzer) (w : result unit)
        (df : DataFrame) (st : stats) :
  reachable f a ->
  df_combined a = Some df ->
  generate_statistics w a = (a', inr (Some st)) ->
  total_counted st = List.length (cells_of df "fonte").
Proof.
  intros Hreach Hdf Hgen.
  destruct (StatisticsFacts.generate_statistics_some _ _ _ _ Hgen)
    as (df' & Hdf' & Hb).
  rewrite Hdf in Hdf'. inversion Hdf'. subst df'. clear Hdf'.
  destruct (StatisticsFacts.reachable_tags _ _ Hreach) as (_ & _ & Hknown).
  unfold build_statistics, getitem in Hb. unfold cells_of.
  destruct (get df "fonte") as [s|] eqn:Hs; cbn in Hb; [|discriminate].
  specialize (Hknown df s Hdf Hs).
  pose proof (count_known _ Hknown) as Hsum.
  pose proof (count_absent _ Hknown [] leilao_key (or_introl eq_refl) eq_refl)
    as HnoL.
  pose proof (count_absent _ Hknown [] tradicional_key (or_intror eq_refl) eq_refl)
    as HnoT.
  unfold unique in Hb.
  destruct (StatisticsFacts.unique_known _ Hknown) as [E|[E|[E|[E|E]]]];
    rewrite E in Hb, HnoL, HnoT;
    unfold leilao_key, tradicional_key in Hb; cbn in Hb;
    repeat match type of Hb with
           | context [source_statistics ?d ?c ?k] =>
               let Es := fresh "Es" in
               destruct (source_statistics d c k) as [?|?] eqn:Es; cbn in Hb;
               [discriminate|apply source_statistics_total in Es]
           end;
    inversion Hb; subst st; clear Hb; cbn;
    fold leilao_key tradicional_key in *.
  - rewrite HnoL, HnoT in Hsum by (simpl; tauto). lia.
  - rewrite HnoT in Hsum
      by (simpl; intros [H|[]]; discriminate H).
    lia.
  - rewrite HnoL in Hsum
      by (simpl; intros [H|[]]; discriminate H).
    lia.
  - lia.
  - lia.
Qed.

(** *** The properties above on concrete frames *)

Lemma three_listings_stay_well_formed :
  well_formed three_listings /\
  exists cleaned,
    _clean_dataframe Scenarios.reads_nothing three_listings "leilao" = inr cleaned /\
    well_formed cleaned /\ (nrows cleaned <= nrows three_listings)%nat.
Proof.
  assert (Hwf : well_formed three_listings) by (repeat constructor).
  split; [exact Hwf|].
  eexists. split; [reflexivity|].
  apply (clean_dataframe_keeps_frames_well_formed Scenarios.reads_nothing
           three_listings "leilao" _ Hwf).
  reflexivity.
Defined.

Lemma empty_auction_file_has_no_area :
  get (loaded_leiloes (ImovelPipeline.leilao_frame [])) "area" = None /\
  get (loaded_leiloes (ImovelPipeline.leilao_frame [])) "preco_m2" = None /\
  _clean_dataframe Scenarios.reads_nothing
    (loaded_leiloes (ImovelPipeline.leilao_frame [])) "leilao"
  = inl (KeyError "area").
Proof.
  split; [reflexivity|]. split; [reflexivity|].
  apply (clean_dataframe_without_area Scenarios.reads_nothing
           (loaded_leiloes (ImovelPipeline.leilao_frame [])) "leilao");
    [reflexivity|reflexivity|left; reflexivity].
Defined.

Lemma empty_auction_frame_stops_the_cleaning :
  let a := mkAnalyzer (Some (loaded_leiloes (ImovelPipeline.leilao_frame [])))
             (Some Scenarios.market_file) None [] in
  _clean_dataframe Scenarios.reads_nothing
    (loaded_leiloes (ImovelPipeline.leilao_frame [])) "leilao"
  = inl (KeyError "area") /\
  fst (clean_data Scenarios.reads_nothing a)
  = mkAnalyzer (df_leiloes a) (df_tradicional a) (df_combined a)
      [Error (Some (KeyError "area"))] /\
  snd (clean_data Scenarios.reads_nothing a) = inr tt.
Proof.
  intros a. split; [reflexivity|].
  apply (clean_data_stops_at_auction_error Scenarios.reads_nothing a
           (loaded_leiloes (ImovelPipeline.leilao_frame [])) (KeyError "area"));
    reflexivity.
Defined.

Lemma market_file_without_price_leaves_frames_apart :
  let t := mkDataFrame 0 [] in
  let a := mkAnalyzer (Some Scenarios.mixed_bids) (Some t) None [] in
  _clean_dataframe Scenarios.reads_nothing Scenarios.mixed_bids "leilao"
  = inr Scenarios.mixed_bids_cleaned /\
  _clean_dataframe Scenarios.reads_nothing t "tradicional"
  = inl (KeyError "preco") /\
  fst (clean_data Scenarios.reads_nothing a)
  = mkAnalyzer (Some Scenarios.mixed_bids_cleaned) (Some t) None
      [Error (Some (KeyError "preco"))].
Proof.
  intros t a.
  assert (Hl : _clean_dataframe Scenarios.reads_nothing Scenarios.mixed_bids "leilao"
               = inr Scenarios.mixed_bids_cleaned) by (vm_compute; reflexivity).
  assert (Ht : _clean_dataframe Scenarios.reads_nothing t "tradicional"
               = inl (KeyError "preco")) by reflexivity.
  split; [exact Hl|]. split; [exact Ht|].
  exact (clean_data_keeps_stale_combined_frame Scenarios.reads_nothing a
           Scenarios.mixed_bids Scenarios.mixed_bids_cleaned t (KeyError "preco")
           eq_refl eq_refl Hl Ht).
Defined.

Lemma three_listings_tidied :
  exists d,
    standardize_tipo three_listings = inr d /\
    get d "tipo_imovel"
    = Some (mkSeries Object [Str "casa"; Str "apartamento"; Num NaN]) /\
    nrows d = 3%nat.
Proof.
  eexists. split; [reflexivity|].
  destruct (standardize_tipo_only_tidies three_listings _
              (mkSeries Object [Str " Casa "; Str "APARTAMENTO"; Num NaN])
              eq_refl eq_refl) as (Hg & Hn & _).
  split; [exact Hg|exact Hn].
Defined.

Lemma three_listings_tidied_twice :
  exists d,
    standardize_tipo three_listings = inr d /\ standardize_tipo d = inr d.
Proof.
  eexists. split; [reflexivity|].
  apply (standardize_tipo_idempotent three_listings). reflexivity.
Defined.

Lemma auction_and_market_files_combined :
  let a := mkAnalyzer (Some Scenarios.auction_file) (Some Scenarios.market_file)
             None [] in
  exists c,
    df_combined (fst (_combine_datasets a)) = Some c /\
    nrows c = 6%nat /\
    cells_of c "preco_inicial"
    = column_or_missing Scenarios.auction_file "preco_inicial"
      ++ repeat (Num NaN) 3.
Proof.
  intros a.
  destruct (combine_datasets_concatenates a Scenarios.auction_file
              Scenarios.market_file eq_refl eq_refl)
    as (c & Hc & _ & _ & Hn & Hcells & _).
  exists c. split; [exact Hc|]. split; [exact Hn|].
  apply (Hcells "preco_inicial"). left. reflexivity.
Defined.

Lemma two_sources_statistics_not_written :
  exists df,
    df_combined Scenarios.two_sources = Some df /\
    build_statistics df = inr Scenarios.two_sources_stats /\
    snd (generate_statistics (inl OSError) Scenarios.two_sources) = inr None /\
    snd (generate_statistics (inr tt) Scenarios.two_sources)
    = inr (Some Scenarios.two_sources_stats).
Proof.
  destruct (df_combined Scenarios.two_sources) as [df|] eqn:E;
    [|vm_compute in E; discriminate E].
  exists df. split; [reflexivity|].
  assert (Hbs : build_statistics df = inr Scenarios.two_sources_stats).
  { vm_compute in E. injection E as <-. vm_compute; reflexivity. }
  split; [exact Hbs|].
  destruct (generate_statistics_lost_on_write_error Scenarios.two_sources df
              Scenarios.two_sources_stats OSError E Hbs) as [H1 H2].
  split; [now rewrite H1|exact H2].
Defined.

Lemma two_sources_rows_counted :
  exists df,
    df_combined Scenarios.two_sources = Some df /\
    total_counted Scenarios.two_sources_stats
    = List.length (cells_of df "fonte").
Proof.
  destruct (df_combined Scenarios.two_sources) as [df|] eqn:E;
    [|vm_compute in E; discriminate E].
  exists df. split; [reflexivity|].
  apply (statistics_count_every_row_once Scenarios.reads_nothing
           Scenarios.two_sources
           (fst (generate_statistics (inr tt) Scenarios.two_sources))
           (inr tt) df Scenarios.two_sources_stats).
  - apply reach_clean, reach_load, reach_init.
  - exact E.
  - vm_compute; reflexivity.
Defined.

End AnalyzerFacts.

(** ** More on the scrapers *)

Module ScraperFacts.

Import Web Observations Measures.

#[local] Arguments raise_for_status : simpl never.
#[local] Arguments errors_logged : simpl never.
#[local] Arguments times_requested : simpl never.
#[local] Arguments LeilaoScraper.fetch : simpl never.
#[local] Arguments LeilaoScraper.logger : simpl never.
#[local] Arguments LeilaoScraper.extract_imovel_data : simpl never.
#[local] Arguments LeilaoScraper.visit_page : simpl never.
#[local] Arguments LeilaoScraper.get_imoveis_urls : simpl never.
#[local] Arguments LeilaoScraper.process_url : simpl never.
#[local] Arguments VivaRealScraper.fetch : simpl never.
#[local] Arguments VivaRealScraper.logger : simpl never.
#[local] Arguments VivaRealScraper.extract_imovel_data : simpl never.
#[local] Arguments VivaRealScraper.visit_page : simpl never.
#[local] Arguments VivaRealScraper.search_imoveis : simpl never.
#[local] Arguments VivaRealScraper.process_url : simpl never.
#[local] Arguments VivaRealScraper.or_default : simpl never.
#[local] Arguments VivaRealScraper._extract_price : simpl never.
#[local] Arguments VivaRealScraper._extract_area : simpl never.
#[local] Arguments VivaRealScraper._extract_address : simpl never.
#[local] Arguments VivaRealScraper._extract_number : simpl never.
#[local] Arguments VivaRealScraper._extract_features : simpl never.
#[local] Arguments VivaRealScraper.truthy_float : simpl never.

(** *** Numbers read from a page *)

Lemma take_drop_while p l :
  Text.take_while p l ++ Text.drop_while p l = l.
Proof.
  induction l as [|c l IH]; simpl; [reflexivity|].
  destruct (p c); simpl; [now rewrite IH|reflexivity].
Qed.

Lemma take_while_all p l : forallb p (Text.take_while p l) = true.
Proof.
  induction l as [|c l IH]; simpl; [reflexivity|].
  destruct (p c) eqn:E; simpl; [now rewrite E|reflexivity].
Qed.

Lemma take_while_whole p l : forallb p l = true -> Text.take_while p l = l.
Proof.
  induction l as [|c l IH]; simpl; [reflexivity|].
  destruct (p c); simpl; [intros H; now rewrite IH|discriminate].
Qed.

Lemma take_while_app p l c r :
  forallb p l = true -> p c = false ->
  Text.take_while p (l ++ c :: r) = l /\ Text.drop_while p (l ++ c :: r) = c :: r.
Proof.
  intros Hl Hc. induction l as [|x l IH]; simpl in *.
  - now rewrite Hc.
  - apply andb_true_iff in Hl as [Hx Hl]. rewrite Hx.
    destruct (IH Hl) as [-> ->]. auto.
Qed.

Lemma drop_while_all p l : forallb p l = true -> Text.drop_while p l = [].
Proof.
  induction l as [|c l IH]; simpl; [reflexivity|].
  destruct (p c); simpl; [exact IH|discriminate].
Qed.

Lemma digits_value_from acc l :
  (0 <= acc)%Z ->
  (0 <= fold_left (fun acc c => 10 * acc + Z.of_nat (Text.code c - 48)) l acc)%Z.
Proof.
  revert acc. induction l as [|c l IH]; intros acc H; cbn [fold_left];
    [assumption|].
  apply IH. lia.
Qed.

Lemma digits_value_nonneg l : (0 <= Text.digits_value l)%Z.
Proof. apply digits_value_from. lia. Qed.

Lemma pow2_positive e : (0 < Float.pow2 e)%Q.
Proof.
  unfold Float.pow2. destruct (0 <=? e)%Z eqn:E.
  - apply Z.leb_le in E. change 0%Q with (inject_Z 0). rewrite <- Zlt_Qlt.
    now apply Z.pow_pos_nonneg.
  - reflexivity.
Qed.

Lemma round_half_even_nonneg x : (0 <= x)%Q -> (0 <= Float.round_half_even x)%Z.
Proof.
  intros H. unfold Float.round_half_even.
  assert (Hf : (0 <= Qfloor x)%Z).
  { change 0%Z with (Qfloor 0). now apply Qfloor_resp_le. }
  destruct (Qcompare _ _); [destruct (Z.even _)| |]; lia.
Qed.

Lemma round_pos_not_negative q : (0 <= q)%Q -> not_negative (Float.round_pos q).
Proof.
  intros H. unfold Float.round_pos.
  set (ulp := Float.pow2 (_ - 52)).
  assert (Hu : (0 < ulp)%Q) by apply pow2_positive.
  destruct (Qle_bool _ _); [now left|right].
  unfold Float.fin. eexists. split; [reflexivity|]. rewrite Qred_correct.
  apply Qmult_le_0_compat; [|now apply Qlt_le_weak].
  change 0%Q with (inject_Z 0). rewrite <- Zle_Qle.
  apply round_half_even_nonneg.
  apply Qle_shift_div_l; [assumption|]. now rewrite Qmult_0_l.
Qed.

Lemma round_not_negative q : (0 <= q)%Q -> not_negative (Float.round q).
Proof.
  intros H. unfold Float.round. destruct (Qcompare q 0) eqn:E.
  - right. exists 0%Q. split; [reflexivity|apply Qle_refl].
  - apply Qlt_alt in E. now apply Qle_not_lt in H.
  - now apply round_pos_not_negative.
Qed.

Lemma decimal_value_not_negative i f : not_negative (Text.decimal_value i f).
Proof.
  unfold Text.decimal_value. apply round_not_negative.
  assert (Hi : (0 <= inject_Z (Text.digits_value i))%Q).
  { change 0%Q with (inject_Z 0). rewrite <- Zle_Qle. apply digits_value_nonneg. }
  assert (Hf : (0 <= inject_Z (Text.digits_value f))%Q).
  { change 0%Q with (inject_Z 0). rewrite <- Zle_Qle. apply digits_value_nonneg. }
  assert (Hp : (0 < inject_Z (10 ^ Z.of_nat (List.length f)))%Q).
  { change 0%Q with (inject_Z 0). rewrite <- Zlt_Qlt.
    apply Z.pow_pos_nonneg; lia. }
  assert (Hd : (0 <= inject_Z (Text.digits_value f)
                    / inject_Z (10 ^ Z.of_nat (List.length f)))%Q).
  { apply Qle_shift_div_l; [assumption|]. now rewrite Qmult_0_l. }
  rewrite <- (Qplus_0_l 0). now apply Qplus_le_compat.
Qed.

Lemma float_of_chars_not_negative l v :
  Text.float_of_chars l = Some v -> not_negative v.
Proof.
  unfold Text.float_of_chars.
  destruct (Text.drop_while Text.is_digit l) as [|c f].
  - destruct (Text.take_while Text.is_digit l); [discriminate|].
    intros H. inversion H. apply decimal_value_not_negative.
  - destruct (_ && _); [|discriminate].
    intros H. inversion H. apply decimal_value_not_negative.
Qed.

Lemma leilao_price_not_negative soup selector v :
  LeilaoScraper._extract_price soup selector = Some v -> not_negative v.
Proof.
  unfold LeilaoScraper._extract_price.
  destruct (LeilaoScraper._safe_extract soup selector) as [t|]; [|discriminate].
  destruct (Text.truthy t); [|discriminate].
  destruct (Text.commas_to_dots _) eqn:E; [discriminate|].
  apply float_of_chars_not_negative.
Qed.

Lemma leilao_area_not_negative soup v :
  LeilaoScraper._extract_area soup = Some v -> not_negative v.
Proof.
  unfold LeilaoScraper._extract_area.
  destruct (LeilaoScraper.or_text _ _) as [t|]; [|discriminate].
  destruct (Text.truthy t); [|discriminate].
  destruct (Text.area_search _); [|discriminate].
  apply float_of_chars_not_negative.
Qed.

Lemma vivareal_price_not_negative soup selectors v :
  VivaRealScraper.price_loop soup selectors = Some v -> not_negative v.
Proof.
  induction selectors as [|sel selectors IH]; simpl; [discriminate|].
  destruct (select_one soup sel) as [t|]; [|exact IH].
  unfold VivaRealScraper.price_of_text.
  destruct (Text.commas_to_dots _); [discriminate|].
  apply float_of_chars_not_negative.
Qed.

Lemma vivareal_area_not_negative soup selectors v :
  VivaRealScraper.area_loop soup selectors = Some v -> not_negative v.
Proof.
  induction selectors as [|sel selectors IH]; simpl; [discriminate|].
  destruct (VivaRealScraper._safe_extract soup sel) as [t|]; [|exact IH].
  destruct (Text.truthy t); [|exact IH].
  destruct (Text.area_search _); [|exact IH].
  apply float_of_chars_not_negative.
Qed.

Lemma market_price_not_negative soup v :
  VivaRealScraper._extract_price soup = Some v -> not_negative v.
Proof. apply vivareal_price_not_negative. Qed.

Lemma market_area_not_negative soup v :
  VivaRealScraper._extract_area soup = Some v -> not_negative v.
Proof. apply vivareal_area_not_negative. Qed.

(** Whatever the page holds, a price or an area that a scraper extracts is
    never [nan] and never negative: it is a finite number that is not
    negative, or the positive infinity that [float] gives for a text of
    too many digits; a minus sign in the text is lost. *)
Theorem extracted_numbers_are_not_negative
        (soup : document) (selector : string) (v : float) :
  In (Some v)
     [LeilaoScraper._extract_price soup selector;
      LeilaoScraper._extract_area soup;
      VivaRealScraper._extract_price soup;
      VivaRealScraper._extract_area soup] ->
  not_negative v.
Proof.
  intros [H|[H|[H|[H|[]]]]]; symmetry in H.
  - now apply (leilao_price_not_negative soup selector).
  - now apply (leilao_area_not_negative soup).
  - now apply market_price_not_negative with soup.
  - now apply market_area_not_negative with soup.
Qed.

(** *** The area pattern *)

Lemma digit_is_no_separator c :
  Text.is_digit c = true -> Text.is_char 44 c = false /\ Text.is_char 46 c = false.
Proof.
  destruct c as [[] [] [] [] [] [] [] []]; cbn; auto; discriminate.
Qed.

Lemma commas_to_dots_digits l :
  forallb Text.is_digit l = true -> Text.commas_to_dots l = l.
Proof.
  unfold Text.commas_to_dots.
  induction l as [|c l IH]; simpl; [reflexivity|].
  intros H. apply andb_true_iff in H as [Hc Hl].
  destruct (digit_is_no_separator c Hc) as [-> _]. now rewrite IH.
Qed.

Lemma commas_to_dots_app a c b :
  Text.commas_to_dots (a ++ c :: b)
  = Text.commas_to_dots a
    ++ (if Text.is_char 44 c then ascii_of_nat 46 else c) :: Text.commas_to_dots b.
Proof. unfold Text.commas_to_dots. now rewrite map_app. Qed.

Lemma digits_float l :
  forallb Text.is_digit l = true -> l <> [] ->
  exists v, Text.float_of_chars l = Some v.
Proof.
  intros Hl Hne. unfold Text.float_of_chars.
  rewrite (drop_while_all _ _ Hl), (take_while_whole _ _ Hl).
  destruct l; [congruence|eauto].
Qed.

Lemma decimal_float i f :
  forallb Text.is_digit i = true -> forallb Text.is_digit f = true -> i <> [] ->
  exists v, Text.float_of_chars (i ++ ascii_of_nat 46 :: f) = Some v.
Proof.
  intros Hi Hf Hne. unfold Text.float_of_chars.
  destruct (take_while_app Text.is_digit i (ascii_of_nat 46) f Hi eq_refl)
    as [-> ->].
  rewrite Hf. cbn [Text.is_char andb].
  replace (Text.is_char 46 (ascii_of_nat 46)) with true by reflexivity.
  destruct i; [congruence|]. cbn. eauto.
Qed.

Lemma area_match_converts l g :
  Text.area_match_here l = Some g ->
  g <> [] /\ exists v, Text.float_of_chars (Text.commas_to_dots g) = Some v.
Proof.
  unfold Text.area_match_here.
  pose proof (take_while_all Text.is_digit l) as Hw.
  destruct (Text.take_while Text.is_digit l) as [|d whole] eqn:Ew; [discriminate|].
  set (rest := Text.drop_while Text.is_digit l).
  assert (Hwhole : forall g', g' = d :: whole ->
             g' <> [] /\ exists v, Text.float_of_chars (Text.commas_to_dots g') = Some v).
  { intros g' ->. split; [discriminate|].
    rewrite (commas_to_dots_digits _ Hw). apply digits_float; [assumption|discriminate]. }
  destruct rest as [|c rest'].
  - destruct (Text.unit_follows []); [|discriminate].
    intros H. inversion H. now apply Hwhole.
  - destruct (Text.is_char 44 c) eqn:Ec.
    + pose proof (take_while_all Text.is_digit rest') as Hf.
      destruct (Text.take_while Text.is_digit rest') as [|d' fraction] eqn:Ef.
      * destruct (Text.unit_follows (c :: rest')); [|discriminate].
        intros H. inversion H. now apply Hwhole.
      * destruct (Text.unit_follows (Text.drop_while Text.is_digit rest')).
        -- intros H. injection H as <-. split; [discriminate|].
           change (d :: whole ++ c :: d' :: fraction)
             with ((d :: whole) ++ c :: d' :: fraction).
           rewrite (commas_to_dots_app (d :: whole) c (d' :: fraction)), Ec.
           rewrite (commas_to_dots_digits _ Hw), (commas_to_dots_digits _ Hf).
           apply decimal_float; [assumption|assumption|discriminate].
        -- destruct (Text.unit_follows (c :: rest')); [|discriminate].
           intros H. inversion H. now apply Hwhole.
    + destruct (Text.unit_follows (c :: rest')); [|discriminate].
      intros H. inversion H. now apply Hwhole.
Qed.

Lemma area_search_converts l g :
  Text.area_search l = Some g ->
  l <> [] /\ exists v, Text.float_of_chars (Text.commas_to_dots g) = Some v.
Proof.
  induction l as [|c l IH].
  - cbn. discriminate.
  - cbn [Text.area_search].
    destruct (Text.area_match_here (c :: l)) as [g'|] eqn:E.
    + intros H. inversion H. subst g'. split; [discriminate|].
      apply (area_match_converts _ _ E).
    + intros H. split; [discriminate|]. apply (IH H).
Qed.

Lemma truthy_chars t : Text.chars t <> [] -> Text.truthy t = true.
Proof. destruct t; [intros H; now contradiction H|reflexivity]. Qed.

(** When the pattern of the area matches the text of the element [.area],
    both scrapers extract an area, and the same one: converting the
    matched group to a number cannot fail (it gives a number that is not
    negative, the positive infinity for a group of too many digits). *)
Theorem area_is_read_when_pattern_matches
        (soup : document) (area_text : string) (group1 : list ascii) :
  select_one soup ".area" = Some area_text ->
  Text.area_search (Text.chars area_text) = Some group1 ->
  exists v,
    Text.float_of_chars (Text.commas_to_dots group1) = Some v /\
    LeilaoScraper._extract_area soup = Some v /\
    VivaRealScraper._extract_area soup = Some v /\
    not_negative v.
Proof.
  intros Hsel Hsearch.
  destruct (area_search_converts _ _ Hsearch) as [Hne [v Hv]].
  pose proof (truthy_chars _ Hne) as Ht.
  exists v. repeat split.
  - assumption.
  - unfold LeilaoScraper._extract_area, LeilaoScraper._safe_extract,
      LeilaoScraper.or_text.
    now rewrite Hsel, Ht, Ht, Hsearch.
  - unfold VivaRealScraper._extract_area, VivaRealScraper.area_selectors.
    cbn [VivaRealScraper.area_loop]. unfold VivaRealScraper._safe_extract.
    now rewrite Hsel, Ht, Hsearch.
  - now apply (float_of_chars_not_negative _ _ Hv).
Qed.

(** *** Thousands separators *)

Lemma digits_hold_no_dot l :
  forallb Text.is_digit l = true -> filter (Text.is_char 46) l = [].
Proof.
  induction l as [|c l IH]; simpl; [reflexivity|].
  intros H. apply andb_true_iff in H as [Hc Hl].
  destruct (digit_is_no_separator c Hc) as [_ ->]. auto.
Qed.

Lemma float_of_chars_one_dot l v :
  Text.float_of_chars l = Some v ->
  (List.length (filter (Text.is_char 46) l) <= 1)%nat.
Proof.
  unfold Text.float_of_chars. intros H.
  rewrite <- (take_drop_while Text.is_digit l), filter_app, length_app.
  rewrite (digits_hold_no_dot _ (take_while_all Text.is_digit l)).
  destruct (Text.drop_while Text.is_digit l) as [|c f]; [cbn; lia|].
  destruct (Text.is_char 46 c) eqn:Ec; [|discriminate].
  destruct (forallb Text.is_digit f) eqn:Ef; [|discriminate].
  cbn [filter]. rewrite Ec, (digits_hold_no_dot _ Ef). cbn. lia.
Qed.

Lemma separator_cases c :
  let kept := Text.is_digit c || Text.is_char 44 c || Text.is_char 46 c in
  let dot := Text.is_char 46 (if Text.is_char 44 c then ascii_of_nat 46 else c) in
  (Text.is_char 44 c || Text.is_char 46 c = true /\ kept = true /\ dot = true)
  \/ (Text.is_char 44 c || Text.is_char 46 c = false
      /\ (kept = false \/ dot = false)).
Proof.
  destruct c as [[] [] [] [] [] [] [] []]; cbn; auto.
Qed.

Lemma dots_after_cleaning l :
  List.length
    (filter (Text.is_char 46) (Text.commas_to_dots (Text.keep_price_chars l)))
  = List.length (filter (fun c => Text.is_char 44 c || Text.is_char 46 c) l).
Proof.
  unfold Text.commas_to_dots, Text.keep_price_chars.
  induction l as [|c l IH]; [reflexivity|].
  cbn [filter].
  destruct (separator_cases c) as [(-> & -> & Hd)|(-> & [->|Hd])];
    cbv zeta in *.
  - cbn [map filter]. rewrite Hd. cbn [List.length]. now rewrite IH.
  - exact IH.
  - destruct (Text.is_digit c || Text.is_char 44 c || Text.is_char 46 c);
      [|exact IH].
    cbn [map filter]. rewrite Hd. exact IH.
Qed.

Lemma cleaned_price_one_separator t v :
  Text.float_of_chars
    (Text.commas_to_dots (Text.keep_price_chars (Text.chars t))) = Some v ->
  (separators t <= 1)%nat.
Proof.
  intros H. apply float_of_chars_one_dot in H.
  rewrite dots_after_cleaning in H. exact H.
Qed.

(** A price written with two or more commas or dots, thousands separators
    included, is not read by either scraper: every comma becomes a dot and
    the text is no number any more. *)
Theorem price_with_two_separators_is_lost
        (soup : document) (selector price_text : string) :
  select_one soup selector = Some price_text ->
  (2 <= separators price_text)%nat ->
  LeilaoScraper._extract_price soup selector = None /\
  VivaRealScraper.price_of_text price_text = None.
Proof.
  intros Hsel Hsep.
  assert (Hnone : match Text.commas_to_dots
                          (Text.keep_price_chars (Text.chars price_text)) with
                  | [] => None
                  | _ :: _ =>
                      Text.float_of_chars
                        (Text.commas_to_dots
                           (Text.keep_price_chars (Text.chars price_text)))
                  end = None).
  { destruct (Text.float_of_chars
                (Text.commas_to_dots
                   (Text.keep_price_chars (Text.chars price_text)))) as [v|] eqn:E.
    - apply cleaned_price_one_separator in E. lia.
    - now destruct (Text.commas_to_dots _). }
  split.
  - unfold LeilaoScraper._extract_price, LeilaoScraper._safe_extract.
    rewrite Hsel. destruct (Text.truthy price_text); [exact Hnone|reflexivity].
  - exact Hnone.
Qed.

(** *** The price per square metre of a market listing *)

Lemma quotient_not_negative p a :
  not_negative p -> not_negative a ->
  VivaRealScraper.truthy_float (Some a) = true ->
  (p = PosInf /\ a = PosInf /\ Float.rounded (Float.div p a) = NaN)
  \/ not_negative (Float.rounded (Float.div p a)).
Proof.
  intros [->|(qp & -> & Hp)] [->|(qa & -> & Ha)];
    unfold VivaRealScraper.truthy_float.
  - intros _. left. auto.
  - unfold Float.is_zero. destruct (Qeq_bool qa 0) eqn:E; [discriminate|].
    intros _. right. left. cbn. unfold Float.is_zero. rewrite E.
    unfold Float.inf_signed, Float.is_neg.
    assert (Hle : Qle_bool 0 qa = true) by now apply Qle_bool_iff.
    now rewrite Hle.
  - intros _. right. right. exists 0%Q. split; [reflexivity|apply Qle_refl].
  - unfold Float.is_zero. destruct (Qeq_bool qa 0) eqn:E; [discriminate|].
    intros _. right. cbn. unfold Float.is_zero. rewrite E.
    unfold Float.fin, Float.rounded. apply round_not_negative.
    rewrite Qred_correct.
    assert (Hne : ~ qa == 0) by (now apply Qeq_bool_neq).
    assert (Hpos : (0 < qa)%Q).
    { apply Qle_lt_or_eq in Ha as [Ha|Ha]; [assumption|].
      contradiction Hne. now symmetry. }
    apply Qle_shift_div_l; [assumption|]. now rewrite Qmult_0_l.
Qed.

(** A market listing carries a price per square metre only when it has a
    price and an area that are not zero; it is then their quotient as a
    double, so no division by zero happens; the quotient is not negative,
    or it is [nan], which happens only when price and area are both
    infinite. *)
Theorem market_price_per_area_is_a_quotient
        (net : server) (clock : nat -> string) (u : string)
        (s : VivaRealScraper.scraper) (d : VivaRealScraper.imovel) :
  snd (VivaRealScraper.extract_imovel_data net clock u s) = inr (Some d) ->
  match VivaRealScraper.preco_m2 d with
  | Some x =>
      exists p a,
        VivaRealScraper.preco d = Some p /\
        VivaRealScraper.area d = Some a /\
        VivaRealScraper.truthy_float (Some p) = true /\
        VivaRealScraper.truthy_float (Some a) = true /\
        x = Float.rounded (Float.div p a) /\
        ((p = PosInf /\ a = PosInf /\ x = NaN) \/ not_negative x)
  | None =>
      VivaRealScraper.truthy_float (VivaRealScraper.preco d) = false \/
      VivaRealScraper.truthy_float (VivaRealScraper.area d) = false
  end.
Proof.
  unfold VivaRealScraper.extract_imovel_data, try_method. cbn.
  unfold method_bind. rewrite VivaRealFacts.vivareal_fetch_run.
  destruct (raise_for_status _) as [e|soup]; cbn;
    [rewrite VivaRealFacts.vivareal_logger_run; cbn; discriminate|].
  intros H. injection H as <-. cbn.
  pose proof (market_price_not_negative soup) as Hp.
  pose proof (market_area_not_negative soup) as Ha.
  destruct (VivaRealScraper._extract_price soup) as [p|]; [|now left].
  destruct (VivaRealScraper._extract_area soup) as [a|]; [|now right].
  destruct (VivaRealScraper.truthy_float (Some p)) eqn:Ep; [|now left].
  destruct (VivaRealScraper.truthy_float (Some a)) eqn:Ea; [|now right].
  cbn [andb]. exists p, a.
  split; [reflexivity|]. split; [reflexivity|].
  split; [assumption|]. split; [assumption|]. split; [reflexivity|].
  apply quotient_not_negative; [now apply Hp|now apply Ha|assumption].
Qed.

(** *** The requests of a run *)

Lemma errors_logged_app l l' :
  errors_logged (l ++ l') = (errors_logged l + errors_logged l')%nat.
Proof. unfold errors_logged. now rewrite filter_app, length_app. Qed.

Lemma not_seen x l : existsb (String.eqb x) l = false -> ~ In x l.
Proof.
  intros H Hin. assert (existsb (String.eqb x) l = true); [|congruence].
  apply existsb_exists. exists x. split; [assumption|apply String.eqb_refl].
Qed.

Lemma capped_length {A : Type} max_imoveis (urls : list A) :
  (0 <= max_imoveis)%Z ->
  (List.length (if (max_imoveis <? Z.of_nat (List.length urls))%Z
                then slice_to max_imoveis urls else urls)
   <= Z.to_nat max_imoveis)%nat.
Proof.
  intros H. destruct (max_imoveis <? Z.of_nat (List.length urls))%Z eqn:E.
  - unfold slice_to. apply Z.leb_le in H. rewrite H.
    rewrite length_firstn. lia.
  - apply Z.ltb_ge in E. lia.
Qed.

Section Links.

Variable urljoin : string -> string -> string.
Variable base : string.

#[local] Abbreviation step := (link_step urljoin base).

Lemma links_distinct links urls :
  NoDup urls -> NoDup (fold_left step links urls).
Proof.
  revert urls. induction links as [|href links IH]; intros urls H;
    [assumption|].
  cbn [fold_left]. apply IH. unfold link_step.
  destruct (Text.truthy href && Text.contains "/imovel/" href); [|assumption].
  cbv zeta.
  destruct (existsb (String.eqb (urljoin base href)) urls) eqn:E; [assumption|].
  apply NoDup_rev in H. rewrite <- (rev_involutive (urls ++ _)).
  apply NoDup_rev. rewrite rev_app_distr. cbn. constructor; [|assumption].
  rewrite <- in_rev. now apply not_seen.
Qed.

Lemma links_linked links urls :
  Forall (linked urljoin base) urls ->
  Forall (linked urljoin base) (fold_left step links urls).
Proof.
  revert urls. induction links as [|href links IH]; intros urls H;
    [assumption|].
  cbn [fold_left]. apply IH. unfold link_step.
  destruct (Text.truthy href) eqn:Et; [|assumption].
  destruct (Text.contains "/imovel/" href) eqn:Ec; [|assumption].
  cbn [andb]. cbv zeta.
  destruct (existsb (String.eqb (urljoin base href)) urls); [assumption|].
  apply Forall_app. split; [assumption|].
  constructor; [|constructor]. now exists href.
Qed.

End Links.

Section LeilaoRuns.

Variable net : server.
Variable urljoin : string -> string -> string.
Variable clock : nat -> string.

#[local] Abbreviation good := (distinct_links urljoin LeilaoScraper.base_url).

Lemma leilao_visit_page_trace page urls s :
  good urls ->
  exists urls',
    snd (LeilaoScraper.visit_page net urljoin page urls s) = inr urls' /\
    good urls' /\
    LeilaoScraper.data (fst (LeilaoScraper.visit_page net urljoin page urls s))
    = LeilaoScraper.data s /\
    LeilaoScraper.sent (fst (LeilaoScraper.visit_page net urljoin page urls s))
    = LeilaoScraper.sent s ++ [leilao_page_url page].
Proof.
  intros [Hn Hl].
  unfold LeilaoScraper.visit_page, try_method. cbn.
  unfold method_bind.
  rewrite !LeilaoFacts.logger_run, LeilaoFacts.fetch_run. cbn.
  destruct (raise_for_status _) as [e|soup]; cbn;
    rewrite ?LeilaoFacts.logger_run; cbn; eexists;
    (split; [reflexivity|]); (split; [|split; reflexivity]).
  - now split.
  - split; [now apply links_distinct|now apply links_linked].
Qed.

Lemma leilao_visit_pages_trace pages urls s :
  good urls ->
  exists urls',
    snd (LeilaoScraper.visit_pages net urljoin pages urls s) = inr urls' /\
    good urls' /\
    LeilaoScraper.data (fst (LeilaoScraper.visit_pages net urljoin pages urls s))
    = LeilaoScraper.data s /\
    LeilaoScraper.sent (fst (LeilaoScraper.visit_pages net urljoin pages urls s))
    = LeilaoScraper.sent s ++ map leilao_page_url pages.
Proof.
  revert urls s. induction pages as [|page pages IH]; intros urls s Hg.
  - exists urls. cbn. rewrite app_nil_r. auto.
  - destruct (leilao_visit_page_trace page urls s Hg)
      as (urls1 & Hr & Hg1 & Hd & Hs).
    cbn. unfold method_bind.
    destruct (LeilaoScraper.visit_page net urljoin page urls s) as [s1 r1].
    cbn in *. subst r1.
    destruct (IH urls1 s1 Hg1) as (urls' & Hr' & Hg' & Hd' & Hs').
    exists urls'. rewrite Hd', Hs', Hd, Hs, <- app_assoc. auto.
Qed.

(** [get_imoveis_urls] requests every index page from 1 to [max_pages],
    in order and once each, whether or not a page fails, and none when
    [max_pages] is not positive; the addresses it returns are distinct,
    and each is the address of a link to a listing joined to the site. *)
Theorem every_index_page_is_requested
        (max_pages : Z) (s : LeilaoScraper.scraper) :
  let r := LeilaoScraper.get_imoveis_urls net urljoin max_pages s in
  LeilaoScraper.sent (fst r)
  = LeilaoScraper.sent s ++ map leilao_page_url (range_from_1 max_pages) /\
  LeilaoScraper.data (fst r) = LeilaoScraper.data s /\
  exists urls,
    snd r = inr urls /\ NoDup urls /\
    Forall (linked urljoin LeilaoScraper.base_url) urls.
Proof.
  unfold LeilaoScraper.get_imoveis_urls. cbn. unfold method_bind.
  destruct (leilao_visit_pages_trace (range_from_1 max_pages) [] s)
    as (urls & Hr & [Hn Hl] & Hd & Hs).
  { split; constructor. }
  destruct (LeilaoScraper.visit_pages net urljoin (range_from_1 max_pages) [] s)
    as [s1 r1].
  cbn in *. subst r1. rewrite LeilaoFacts.logger_run. cbn. eauto 6.
Qed.

Lemma leilao_get_imoveis_urls_sent max_pages s :
  LeilaoScraper.sent (fst (LeilaoScraper.get_imoveis_urls net urljoin max_pages s))
  = LeilaoScraper.sent s ++ map leilao_page_url (range_from_1 max_pages).
Proof.
  unfold LeilaoScraper.get_imoveis_urls. cbn. unfold method_bind.
  destruct (leilao_visit_pages_trace (range_from_1 max_pages) [] s)
    as (urls & Hr & _ & _ & Hs).
  { split; constructor. }
  destruct (LeilaoScraper.visit_pages net urljoin (range_from_1 max_pages) [] s)
    as [s1 r1].
  cbn in *. subst r1. now rewrite LeilaoFacts.logger_run.
Qed.

Lemma leilao_process_url_trace u s :
  LeilaoScraper.sent (fst (LeilaoScraper.process_url net clock u s))
  = LeilaoScraper.sent s ++ [u] /\
  (List.length (LeilaoScraper.data (fst (LeilaoScraper.process_url net clock u s)))
   + errors_logged (LeilaoScraper.log (fst (LeilaoScraper.process_url net clock u s)))
   = List.length (LeilaoScraper.data s) + errors_logged (LeilaoScraper.log s) + 1)%nat.
Proof.
  unfold LeilaoScraper.process_url, LeilaoScraper.extract_imovel_data,
    try_method. cbn.
  unfold method_bind. rewrite LeilaoFacts.logger_run. cbn.
  rewrite LeilaoFacts.fetch_run. cbn.
  destruct (raise_for_status _) as [e|soup]; cbn;
    rewrite ?LeilaoFacts.logger_run; cbn;
    rewrite ?length_app, ?errors_logged_app; unfold errors_logged; cbn;
    split; auto; lia.
Qed.

Lemma leilao_for_each_trace urls s :
  LeilaoScraper.sent (fst (for_each urls (LeilaoScraper.process_url net clock) s))
  = LeilaoScraper.sent s ++ urls /\
  (List.length
     (LeilaoScraper.data (fst (for_each urls (LeilaoScraper.process_url net clock) s)))
   + errors_logged
       (LeilaoScraper.log (fst (for_each urls (LeilaoScraper.process_url net clock) s)))
   = List.length (LeilaoScraper.data s) + errors_logged (LeilaoScraper.log s)
     + List.length urls)%nat.
Proof.
  revert s. induction urls as [|u urls IH]; intros s.
  - cbn. rewrite app_nil_r. split; [reflexivity|lia].
  - destruct (leilao_process_url_trace u s) as [Hs Hc].
    destruct (LeilaoFacts.process_url_run net clock u s) as (Hr & _).
    cbn. unfold method_bind.
    destruct (LeilaoScraper.process_url net clock u s) as [s1 r1].
    cbn in *. subst r1.
    destruct (IH s1) as [Hs' Hc'].
    rewrite Hs', Hs, <- app_assoc. split; [reflexivity|]. cbn. lia.
Qed.

(** A run of [scrape_leiloes] requests the index pages and then, once
    each and in order, the listings it goes through; every one of those
    gives either one more listing in [data] or one more logged error. *)
Theorem every_listing_gives_a_record_or_an_error
        (max_pages max_imoveis : Z) (s : LeilaoScraper.scraper) :
  let s0 :=
    fst (LeilaoScraper.logger
           (Info "Iniciando coleta de dados de leiloes judiciais") s) in
  let found := fst (LeilaoScraper.get_imoveis_urls net urljoin max_pages s0) in
  let urls := leilao_urls net urljoin max_pages max_imoveis s0 in
  let s' :=
    fst (LeilaoScraper.scrape_leiloes net urljoin clock max_pages max_imoveis s) in
  LeilaoScraper.sent s'
  = LeilaoScraper.sent s
      ++ map leilao_page_url (range_from_1 max_pages) ++ urls /\
  (List.length (LeilaoScraper.data s') + errors_logged (LeilaoScraper.log s')
   = List.length (LeilaoScraper.data s) + errors_logged (LeilaoScraper.log found)
     + List.length urls)%nat.
Proof.
  unfold LeilaoScraper.scrape_leiloes, leilao_urls. cbn. unfold method_bind.
  rewrite LeilaoFacts.logger_run. cbn.
  set (s0 := LeilaoScraper.mkScraper _ _ _ _).
  destruct (LeilaoFacts.get_imoveis_urls_run net urljoin max_pages s0)
    as (urls & Hr & Hd & _).
  pose proof (leilao_get_imoveis_urls_sent max_pages s0) as Hsent.
  destruct (LeilaoScraper.get_imoveis_urls net urljoin max_pages s0) as [s1 r1].
  cbn in *. subst r1.
  set (capped := if (max_imoveis <? Z.of_nat (List.length urls))%Z
                 then slice_to max_imoveis urls else urls).
  destruct (leilao_for_each_trace capped s1) as [Hs Hc].
  destruct (LeilaoFacts.for_each_run net clock capped s1) as (_ & Hq & _).
  destruct (for_each capped (LeilaoScraper.process_url net clock) s1) as [s2 r2].
  cbn in *. subst r2. rewrite LeilaoFacts.logger_run. cbn.
  rewrite errors_logged_app, Hs, Hsent, <- app_assoc. cbn.
  split; [reflexivity|]. rewrite Hd in Hc.
  change (errors_logged [Info "Coleta finalizada"]) with 0%nat. lia.
Qed.

(** With a limit that is not negative, a run of [scrape_leiloes] adds at
    most [max_imoveis] listings to [data]. *)
Theorem auction_run_respects_the_limit
        (max_pages max_imoveis : Z) (s : LeilaoScraper.scraper) :
  (0 <= max_imoveis)%Z ->
  (List.length
     (LeilaoScraper.data
        (fst (LeilaoScraper.scrape_leiloes net urljoin clock
                max_pages max_imoveis s)))
   <= List.length (LeilaoScraper.data s) + Z.to_nat max_imoveis)%nat.
Proof.
  intros Hmax.
  destruct (LeilaoFacts.scrape_leiloes_run net urljoin clock
              max_pages max_imoveis s) as (c & _ & _ & Hd & Hlen).
  rewrite Hd, length_app.
  pose proof (capped_length max_imoveis
                (match snd (LeilaoScraper.get_imoveis_urls net urljoin max_pages
                              (fst (LeilaoScraper.logger
                                      (Info "Iniciando coleta de dados de leiloes judiciais")
                                      s))) with
                 | inr urls => urls
                 | inl _ => []
                 end) Hmax) as Hcap.
  unfold leilao_urls in Hlen.
  destruct (snd (LeilaoScraper.get_imoveis_urls net urljoin max_pages _));
    cbn in Hlen; [lia|].
  lia.
Qed.

End LeilaoRuns.

Section VivaRealRuns.

Variable net : server.
Variable urljoin : string -> string -> string.
Variable clock : nat -> string.
Variable list_of_set : list string -> list string.

Lemma market_visit_page_sent c t page urls s :
  VivaRealScraper.sent (fst (VivaRealScraper.visit_page net urljoin c t page urls s))
  = VivaRealScraper.sent s ++ [vivareal_page_url c t page].
Proof.
  unfold VivaRealScraper.visit_page, try_method. cbn.
  unfold method_bind.
  rewrite !VivaRealFacts.vivareal_logger_run, VivaRealFacts.vivareal_fetch_run.
  cbn.
  destruct (raise_for_status _) as [e|soup]; cbn;
    rewrite ?VivaRealFacts.vivareal_logger_run; reflexivity.
Qed.

Lemma market_visit_pages_sent c t pages urls s :
  VivaRealScraper.sent (fst (VivaRealScraper.visit_pages net urljoin c t pages urls s))
  = VivaRealScraper.sent s ++ map (vivareal_page_url c t) pages.
Proof.
  revert urls s. induction pages as [|page pages IH]; intros urls s.
  - cbn. now rewrite app_nil_r.
  - pose proof (market_visit_page_sent c t page urls s) as Hs.
    destruct (VivaRealFacts.vivareal_visit_page_run net urljoin c t page urls s)
      as (urls1 & Hr & _).
    cbn. unfold method_bind.
    destruct (VivaRealScraper.visit_page net urljoin c t page urls s) as [s1 r1].
    cbn in *. subst r1. now rewrite IH, Hs, <- app_assoc.
Qed.

Lemma search_imoveis_sent c t max_pages s :
  VivaRealScraper.sent (fst (VivaRealScraper.search_imoveis net urljoin c t max_pages s))
  = VivaRealScraper.sent s ++ map (vivareal_page_url c t) (range_from_1 max_pages).
Proof.
  unfold VivaRealScraper.search_imoveis. cbn. unfold method_bind.
  pose proof (market_visit_pages_sent c t (range_from_1 max_pages) [] s) as Hs.
  destruct (VivaRealFacts.vivareal_visit_pages_run net urljoin c t
              (range_from_1 max_pages) [] s) as (urls & Hr & _).
  destruct (VivaRealScraper.visit_pages net urljoin c t (range_from_1 max_pages) [] s)
    as [s1 r1].
  cbn in *. subst r1. now rewrite VivaRealFacts.vivareal_logger_run.
Qed.

Lemma search_tipos_sent max_pages c tipos all_urls s :
  VivaRealScraper.sent
    (fst (VivaRealScraper.search_tipos net urljoin max_pages c tipos all_urls s))
  = VivaRealScraper.sent s
      ++ flat_map (fun t => map (vivareal_page_url c t) (range_from_1 max_pages))
           tipos.
Proof.
  revert all_urls s. induction tipos as [|t tipos IH]; intros all_urls s.
  - cbn. now rewrite app_nil_r.
  - cbn. unfold method_bind.
    rewrite VivaRealFacts.vivareal_logger_run. cbn.
    set (s0 := VivaRealScraper.mkScraper _ _ _ _).
    pose proof (search_imoveis_sent c t max_pages s0) as Hs.
    destruct (VivaRealFacts.search_imoveis_run net urljoin c t max_pages s0)
      as (urls & Hr & _).
    destruct (VivaRealScraper.search_imoveis net urljoin c t max_pages s0)
      as [s1 r1].
    cbn in *. subst r1. unfold VivaRealScraper.sleep. cbn.
    now rewrite IH, Hs, <- app_assoc.
Qed.

(** The search requests one page for every city, every type and every
    page number from 1 to [max_pages], cities outermost, whether or not
    a page fails: a failed page does not end the search of its type. *)
Theorem every_search_page_is_requested
        (max_pages : Z) (cidades tipos all_urls : list string)
        (s : VivaRealScraper.scraper) :
  VivaRealScraper.sent
    (fst (VivaRealScraper.search_cidades net urljoin max_pages cidades tipos
            all_urls s))
  = VivaRealScraper.sent s ++ search_urls cidades tipos max_pages.
Proof.
  revert all_urls s. induction cidades as [|c cidades IH]; intros all_urls s.
  - cbn. now rewrite app_nil_r.
  - cbn. unfold method_bind.
    pose proof (search_tipos_sent max_pages c tipos all_urls s) as Hs.
    destruct (VivaRealFacts.search_tipos_run net urljoin max_pages c tipos
                all_urls s) as (urls & Hr & _).
    destruct (VivaRealScraper.search_tipos net urljoin max_pages c tipos all_urls s)
      as [s1 r1].
    cbn in *. subst r1. now rewrite IH, Hs, <- app_assoc.
Qed.

(** With a limit that is not negative, a run of
    [scrape_mercado_tradicional] adds at most [max_imoveis] listings to
    [data], whatever the order in which the set of addresses is listed. *)
Theorem market_run_respects_the_limit
        (cidades tipos : option (list string)) (max_pages max_imoveis : Z)
        (s : VivaRealScraper.scraper) :
  (0 <= max_imoveis)%Z ->
  (List.length
     (VivaRealScraper.data
        (fst (VivaRealScraper.scrape_mercado_tradicional net urljoin clock
                list_of_set cidades tipos max_pages max_imoveis s)))
   <= List.length (VivaRealScraper.data s) + Z.to_nat max_imoveis)%nat.
Proof.
  intros Hmax.
  destruct (VivaRealFacts.scrape_mercado_tradicional_run net urljoin clock
              list_of_set cidades tipos max_pages max_imoveis s)
    as (c & _ & _ & Hd & Hlen).
  rewrite Hd, length_app.
  unfold vivareal_urls in Hlen.
  destruct (snd (VivaRealScraper.search_cidades net urljoin max_pages _ _ [] _))
    as [e|urls]; cbn in Hlen; [lia|].
  pose proof (capped_length max_imoveis (list_of_set urls) Hmax). lia.
Qed.

End VivaRealRuns.

(** *** The files of [save_data] *)

Lemma replace_chars_absent fuel old new l :
  Text.contains_chars old l = false -> Text.replace_chars fuel old new l = l.
Proof.
  revert l. induction fuel as [|fuel IH]; intros l H; [reflexivity|].
  destruct l as [|c l]; [reflexivity|].
  cbn [Text.replace_chars]. cbn [Text.contains_chars] in H.
  apply orb_false_iff in H as [Hs Hc]. rewrite Hs. now rewrite IH.
Qed.

Lemma replace_absent old new s :
  Text.contains old s = false -> Text.replace old new s = s.
Proof.
  unfold Text.contains, Text.replace. intros H.
  rewrite (replace_chars_absent _ _ _ _ H).
  apply string_of_list_ascii_of_string.
Qed.

Lemma data_path_without_json filename :
  Text.contains ".json" filename = false ->
  Text.contains ".json"
    (if Text.starts_with (Text.chars "/") (Text.chars filename)
     then filename else ("../data/" ++ filename)%string) = false.
Proof.
  intros H. destruct (Text.starts_with _ _); [assumption|].
  unfold Text.contains in *. cbn. exact H.
Qed.

#[local] Arguments Text.starts_with : simpl never.
#[local] Arguments Text.replace : simpl never.
#[local] Arguments String.append : simpl never.
#[local] Arguments Text.chars : simpl never.

Lemma leilao_save_data_files clock disk filename s :
  Text.truthy filename = true ->
  LeilaoScraper.data s <> [] ->
  let path := if Text.starts_with (Text.chars "/") (Text.chars filename)
              then filename else ("../data/" ++ filename)%string in
  disk path = inr tt ->
  disk (Text.replace ".json" ".csv" path) = inr tt ->
  LeilaoScraper.files (fst (LeilaoScraper.save_data clock disk (Some filename) s))
  = LeilaoScraper.files s
      ++ [(path, LeilaoScraper.data s);
          (Text.replace ".json" ".csv" path, LeilaoScraper.data s)].
Proof.
  intros Ht Hd path Hj Hc.
  unfold LeilaoScraper.save_data. cbn. unfold method_bind, gets, modify, lift.
  rewrite Ht. fold path. rewrite Hj. cbn.
  rewrite !LeilaoFacts.logger_run. cbn.
  destruct (LeilaoScraper.data s) eqn:E; [congruence|].
  cbn. rewrite Hc. cbn.
  rewrite LeilaoFacts.logger_run. cbn. now rewrite <- app_assoc.
Qed.

Lemma market_save_data_files clock disk filename s :
  Text.truthy filename = true ->
  VivaRealScraper.data s <> [] ->
  let path := if Text.starts_with (Text.chars "/") (Text.chars filename)
              then filename else ("../data/" ++ filename)%string in
  disk path = inr tt ->
  disk (Text.replace ".json" ".csv" path) = inr tt ->
  VivaRealScraper.files
    (fst (VivaRealScraper.save_data clock disk (Some filename) s))
  = VivaRealScraper.files s
      ++ [(path, VivaRealScraper.data s);
          (Text.replace ".json" ".csv" path, VivaRealScraper.data s)].
Proof.
  intros Ht Hd path Hj Hc.
  unfold VivaRealScraper.save_data. cbn. unfold method_bind, gets, modify, lift.
  rewrite Ht. fold path. rewrite Hj. cbn.
  rewrite !VivaRealFacts.vivareal_logger_run. cbn.
  destruct (VivaRealScraper.data s) eqn:E; [congruence|].
  cbn. rewrite Hc. cbn.
  rewrite VivaRealFacts.vivareal_logger_run. cbn. now rewrite <- app_assoc.
Qed.

(** The CSV file gets the path of the JSON file with [.json] replaced by
    [.csv]: under a file name that holds no [.json], and on a disk where
    the file at that path can be written, both scrapers write the CSV
    file over the JSON file they have just written. *)
Theorem csv_is_written_over_json
        (clock : nat -> string) (disk : string -> result unit)
        (filename : string)
        (ls : LeilaoScraper.scraper) (vs : VivaRealScraper.scraper) :
  let path := if Text.starts_with (Text.chars "/") (Text.chars filename)
              then filename else ("../data/" ++ filename)%string in
  Text.truthy filename = true ->
  Text.contains ".json" filename = false ->
  disk path = inr tt ->
  LeilaoScraper.data ls <> [] ->
  VivaRealScraper.data vs <> [] ->
  LeilaoScraper.files
    (fst (LeilaoScraper.save_data clock disk (Some filename) ls))
  = LeilaoScraper.files ls
      ++ [(path, LeilaoScraper.data ls); (path, LeilaoScraper.data ls)] /\
  VivaRealScraper.files
    (fst (VivaRealScraper.save_data clock disk (Some filename) vs))
  = VivaRealScraper.files vs
      ++ [(path, VivaRealScraper.data vs); (path, VivaRealScraper.data vs)].
Proof.
  intros path Ht Hc Hdisk Hl Hv.
  pose proof (replace_absent ".json" ".csv" _ (data_path_without_json _ Hc)) as Hp.
  fold path in Hp.
  assert (Hcsv : disk (Text.replace ".json" ".csv" path) = inr tt)
    by now rewrite Hp.
  split.
  - rewrite (leilao_save_data_files clock disk filename ls Ht Hl Hdisk Hcsv).
    cbv zeta. fold path. now rewrite Hp.
  - rewrite (market_save_data_files clock disk filename vs Ht Hv Hdisk Hcsv).
    cbv zeta. fold path. now rewrite Hp.
Qed.

(** *** The other fields of a market listing *)

Lemma address_loop_first_text soup selectors a :
  VivaRealScraper.address_loop soup selectors = Some a ->
  Text.truthy a = true /\
  In (Some a) (map (VivaRealScraper._safe_extract soup) selectors).
Proof.
  induction selectors as [|sel selectors IH]; cbn; [discriminate|].
  destruct (VivaRealScraper._safe_extract soup sel) as [t|] eqn:E.
  - destruct (Text.truthy t) eqn:Et.
    + intros H. injection H as <-. split; [assumption|now left].
    + intros H. destruct (IH H). split; [assumption|now right].
  - intros H. destruct (IH H). split; [assumption|now right].
Qed.

(** The counts, the address and the features of a market listing are
    never degenerate: a number of rooms is not negative, an address is
    the non-empty text of one of the address selectors, and the features,
    when there are any, are a non-empty list of non-empty texts. *)
Theorem market_fields_are_never_empty (soup : document) (selector : string) :
  match VivaRealScraper._extract_number soup selector with
  | Some n => (0 <= n)%Z
  | None => True
  end /\
  match VivaRealScraper._extract_address soup with
  | Some a =>
      Text.truthy a = true /\
      In (Some a)
         (map (VivaRealScraper._safe_extract soup) VivaRealScraper.address_selectors)
  | None => True
  end /\
  match VivaRealScraper._extract_features soup with
  | Some features =>
      features <> [] /\ Forall (fun t => Text.truthy t = true) features
  | None => True
  end.
Proof.
  split; [|split].
  - unfold VivaRealScraper._extract_number.
    destruct (VivaRealScraper._safe_extract soup selector) as [t|]; [|exact I].
    destruct (Text.truthy t); [|exact I].
    destruct (Text.digits_search (Text.chars t)); [|exact I].
    apply digits_value_nonneg.
  - unfold VivaRealScraper._extract_address.
    destruct (VivaRealScraper.address_loop soup VivaRealScraper.address_selectors)
      as [a|] eqn:E; [|exact I].
    now apply address_loop_first_text.
  - unfold VivaRealScraper._extract_features.
    destruct (filter Text.truthy _) as [|t l] eqn:E; [exact I|].
    split; [discriminate|].
    rewrite <- E. apply Forall_forall. intros x Hx.
    now apply filter_In in Hx.
Qed.

(** *** The properties above on concrete pages *)

Lemma current_price_of_the_listing_is_not_negative :
  In (Some (Float.of_Z 500))
     [LeilaoScraper._extract_price Scenarios.listing_page ".preco-atual";
      LeilaoScraper._extract_area Scenarios.listing_page;
      VivaRealScraper._extract_price Scenarios.listing_page;
      VivaRealScraper._extract_area Scenarios.listing_page] /\
  not_negative (Float.of_Z 500).
Proof.
  assert (H : In (Some (Float.of_Z 500))
                [LeilaoScraper._extract_price Scenarios.listing_page ".preco-atual";
                 LeilaoScraper._extract_area Scenarios.listing_page;
                 VivaRealScraper._extract_price Scenarios.listing_page;
                 VivaRealScraper._extract_area Scenarios.listing_page])
    by (left; vm_compute; reflexivity).
  split; [exact H|].
  exact (extracted_numbers_are_not_negative Scenarios.listing_page
           ".preco-atual" _ H).
Defined.

Lemma area_of_the_listing_is_read :
  select_one Scenarios.listing_page ".area" = Some "85 m2" /\
  Text.area_search (Text.chars "85 m2") = Some (Text.chars "85") /\
  exists v,
    Text.float_of_chars (Text.commas_to_dots (Text.chars "85")) = Some v /\
    LeilaoScraper._extract_area Scenarios.listing_page = Some v /\
    VivaRealScraper._extract_area Scenarios.listing_page = Some v /\
    not_negative v.
Proof.
  assert (H1 : select_one Scenarios.listing_page ".area" = Some "85 m2")
    by reflexivity.
  assert (H2 : Text.area_search (Text.chars "85 m2") = Some (Text.chars "85"))
    by (vm_compute; reflexivity).
  split; [exact H1|]. split; [exact H2|].
  exact (area_is_read_when_pattern_matches Scenarios.listing_page "85 m2"
           (Text.chars "85") H1 H2).
Defined.

Lemma price_with_thousands_is_lost :
  select_one thousands_page ".preco-atual" = Some "R$ 1.250.000,00" /\
  (2 <= separators "R$ 1.250.000,00")%nat /\
  LeilaoScraper._extract_price thousands_page ".preco-atual" = None /\
  VivaRealScraper.price_of_text "R$ 1.250.000,00" = None.
Proof.
  assert (H1 : select_one thousands_page ".preco-atual" = Some "R$ 1.250.000,00")
    by reflexivity.
  assert (H2 : (2 <= separators "R$ 1.250.000,00")%nat)
    by (vm_compute; repeat constructor).
  split; [exact H1|]. split; [exact H2|].
  exact (price_with_two_separators_is_lost thousands_page ".preco-atual"
           "R$ 1.250.000,00" H1 H2).
Defined.

Lemma market_listing_at_5_per_square_metre :
  snd (VivaRealScraper.extract_imovel_data market_net Scenarios.noon "u"
         VivaRealScraper.init) = inr (Some market_listing) /\
  exists p a,
    VivaRealScraper.preco market_listing = Some p /\
    VivaRealScraper.area market_listing = Some a /\
    VivaRealScraper.truthy_float (Some p) = true /\
    VivaRealScraper.truthy_float (Some a) = true /\
    Float.of_Z 5 = Float.rounded (Float.div p a) /\
    ((p = PosInf /\ a = PosInf /\ Float.of_Z 5 = NaN)
     \/ not_negative (Float.of_Z 5)).
Proof.
  assert (H : snd (VivaRealScraper.extract_imovel_data market_net Scenarios.noon
                     "u" VivaRealScraper.init) = inr (Some market_listing))
    by (vm_compute; reflexivity).
  split; [exact H|].
  exact (market_price_per_area_is_a_quotient market_net Scenarios.noon "u"
           VivaRealScraper.init market_listing H).
Defined.

Lemma one_listing_out_of_two :
  (0 <= 1)%Z /\
  (List.length
     (LeilaoScraper.data
        (fst (LeilaoScraper.scrape_leiloes Scenarios.net_two Scenarios.join
                Scenarios.noon 1 1 LeilaoScraper.init)))
   <= List.length (LeilaoScraper.data LeilaoScraper.init) + Z.to_nat 1)%nat.
Proof.
  assert (H : (0 <= 1)%Z) by (intros E; discriminate E).
  split; [exact H|].
  exact (auction_run_respects_the_limit Scenarios.net_two Scenarios.join
           Scenarios.noon 1 1 LeilaoScraper.init H).
Defined.

Lemma one_market_listing_at_most :
  (0 <= 1)%Z /\
  (List.length
     (VivaRealScraper.data
        (fst (VivaRealScraper.scrape_mercado_tradicional market_net Scenarios.join
                Scenarios.noon (fun l => l) None None 1 1 VivaRealScraper.init)))
   <= List.length (VivaRealScraper.data VivaRealScraper.init) + Z.to_nat 1)%nat.
Proof.
  assert (H : (0 <= 1)%Z) by (intros E; discriminate E).
  split; [exact H|].
  exact (market_run_respects_the_limit market_net Scenarios.join Scenarios.noon
           (fun l => l) None None 1 1 VivaRealScraper.init H).
Defined.

Lemma csv_written_over_dados_txt :
  let ls := LeilaoScraper.mkScraper [Scenarios.the_listing] [] [] [] in
  let vs := VivaRealScraper.mkScraper [market_listing] [] [] [] in
  Text.truthy "dados.txt" = true /\
  Text.contains ".json" "dados.txt" = false /\
  writable "../data/dados.txt" = inr tt /\
  LeilaoScraper.data ls <> [] /\
  VivaRealScraper.data vs <> [] /\
  LeilaoScraper.files
    (fst (LeilaoScraper.save_data Scenarios.noon writable (Some "dados.txt") ls))
  = [("../data/dados.txt", [Scenarios.the_listing]);
     ("../data/dados.txt", [Scenarios.the_listing])] /\
  VivaRealScraper.files
    (fst (VivaRealScraper.save_data Scenarios.noon writable (Some "dados.txt") vs))
  = [("../data/dados.txt", [market_listing]);
     ("../data/dados.txt", [market_listing])].
Proof.
  intros ls vs.
  assert (Hl : LeilaoScraper.data ls <> []) by (intros E; discriminate E).
  assert (Hv : VivaRealScraper.data vs <> []) by (intros E; discriminate E).
  split; [reflexivity|]. split; [reflexivity|]. split; [reflexivity|].
  split; [exact Hl|]. split; [exact Hv|].
  exact (csv_is_written_over_json Scenarios.noon writable "dados.txt" ls vs
           eq_refl eq_refl eq_refl Hl Hv).
Defined.

End ScraperFacts.

(** ** Extraction chains, fetches and harvesting runs *)

Module HarvestFacts.

Import Web Observations Measures Scenarios.

#[local] Arguments raise_for_status : simpl never.
#[local] Arguments times_requested : simpl never.
#[local] Arguments LeilaoScraper.fetch : simpl never.
#[local] Arguments LeilaoScraper.logger : simpl never.
#[local] Arguments LeilaoScraper.extract_imovel_data : simpl never.
#[local] Arguments LeilaoScraper.visit_page : simpl never.
#[local] Arguments LeilaoScraper.get_imoveis_urls : simpl never.
#[local] Arguments LeilaoScraper.process_url : simpl never.
#[local] Arguments VivaRealScraper.fetch : simpl never.
#[local] Arguments VivaRealScraper.logger : simpl never.
#[local] Arguments VivaRealScraper.extract_imovel_data : simpl never.
#[local] Arguments VivaRealScraper.visit_page : simpl never.
#[local] Arguments VivaRealScraper.search_imoveis : simpl never.
#[local] Arguments VivaRealScraper.process_url : simpl never.
#[local] Arguments VivaRealScraper.or_default : simpl never.
#[local] Arguments VivaRealScraper._extract_price : simpl never.
#[local] Arguments VivaRealScraper._extract_area : simpl never.
#[local] Arguments VivaRealScraper._extract_address : simpl never.
#[local] Arguments VivaRealScraper._extract_number : simpl never.
#[local] Arguments VivaRealScraper._extract_features : simpl never.
#[local] Arguments VivaRealScraper.truthy_float : simpl never.
#[local] Arguments answers : simpl never.

(** *** Selector chains of the traditional-market scraper *)

Lemma price_loop_first_element soup selector selectors price_text :
  select_one soup selector = Some price_text ->
  VivaRealScraper.price_loop soup (selector :: selectors)
  = VivaRealScraper.price_of_text price_text.
Proof. intros H. cbn. now rewrite H. Qed.

Lemma area_loop_goes_on soup selector selectors area_text :
  select_one soup selector = Some area_text ->
  Text.area_search (Text.chars area_text) = None ->
  VivaRealScraper.area_loop soup (selector :: selectors)
  = VivaRealScraper.area_loop soup selectors.
Proof.
  intros H Hno. cbn. unfold VivaRealScraper._safe_extract. rewrite H, Hno.
  now destruct (Text.truthy area_text).
Qed.

Lemma no_match_is_absent soup selectors :
  (forall selector, In selector selectors -> select_one soup selector = None) ->
  VivaRealScraper.price_loop soup selectors = None
  /\ VivaRealScraper.area_loop soup selectors = None
  /\ VivaRealScraper.address_loop soup selectors = None.
Proof.
  induction selectors as [|sel selectors IH]; intros H; cbn; auto.
  unfold VivaRealScraper._safe_extract. rewrite (H sel (or_introl eq_refl)).
  apply IH. intros s Hs. apply H. now right.
Qed.

(** C6 on two pages: the price chain ends at the first selector that
      finds an element, although its text holds no number and the second
      selector would give 500; the area chain goes on to the second selector
      and gives 85; on a page where nothing matches both give [None]. *)
Lemma C6_price_chain_stops_at_first_element :
  VivaRealScraper._extract_price price_fallback_page = None
  /\ VivaRealScraper.price_of_text "R$ 500" = Some (Float.of_Z 500)
  /\ VivaRealScraper._extract_area area_fallback_page = Some (Float.of_Z 85)
  /\ VivaRealScraper._extract_price empty_page = None
  /\ VivaRealScraper._extract_area empty_page = None.
Proof. repeat split; vm_compute; reflexivity. Qed.

(** *** Fetches *)

(** C7, amended. Every fetch costs exactly one request, whether it fails
      or not; when it fails, for whatever reason, the failure is logged and
      reported at once: the listing is [None], the index page is skipped with
      the URLs found so far kept, and nothing is tried again. *)
Theorem C7_failed_fetch_is_not_retried
        (net : server) (urljoin : string -> string -> string)
        (clock : nat -> string) (u : string) (page : nat) (urls : list string)
        (s : LeilaoScraper.scraper) :
  let page_url :=
    (LeilaoScraper.base_url ++ "/imoveis?page=" ++ Text.of_nat page)%string in
  (LeilaoScraper.sent (fst (LeilaoScraper.extract_imovel_data net clock u s))
   = LeilaoScraper.sent s ++ [u]
   /\ forall e,
       raise_for_status (net u (times_requested u (LeilaoScraper.sent s))) = inl e ->
       snd (LeilaoScraper.extract_imovel_data net clock u s) = inr None
       /\ LeilaoScraper.log (fst (LeilaoScraper.extract_imovel_data net clock u s))
          = LeilaoScraper.log s ++ [Error (Some e)])
  /\
  (LeilaoScraper.sent (fst (LeilaoScraper.visit_page net urljoin page urls s))
   = LeilaoScraper.sent s ++ [page_url]
   /\ forall e,
       raise_for_status
         (net page_url (times_requested page_url (LeilaoScraper.sent s))) = inl e ->
       snd (LeilaoScraper.visit_page net urljoin page urls s) = inr urls
       /\ LeilaoScraper.log (fst (LeilaoScraper.visit_page net urljoin page urls s))
          = LeilaoScraper.log s ++ [Info "Processando pagina"; Error (Some e)]).
Proof.
  intros page_url. split.
  - unfold LeilaoScraper.extract_imovel_data, try_method. cbn.
    unfold method_bind. rewrite LeilaoFacts.fetch_run.
    destruct (raise_for_status _) as [e0|soup]; cbn;
      rewrite ?LeilaoFacts.logger_run; cbn;
      (split; [reflexivity|]); intros e He; [|discriminate He].
    injection He as <-. auto.
  - unfold LeilaoScraper.visit_page, try_method. cbn.
    unfold method_bind.
    rewrite !LeilaoFacts.logger_run, LeilaoFacts.fetch_run. cbn.
    fold page_url.
    destruct (raise_for_status _) as [e0|soup]; cbn;
      rewrite ?LeilaoFacts.logger_run; cbn;
      (split; [reflexivity|]); intros e He; [|discriminate He].
    injection He as <-. rewrite <- app_assoc. auto.
Qed.

(** C7, amended, on a network where every request times out. *)
Lemma C7_network_down :
  raise_for_status (down listing_url 0%nat) = inl Timeout /\
  LeilaoScraper.sent
    (fst (LeilaoScraper.extract_imovel_data down noon listing_url
            LeilaoScraper.init)) = [listing_url]
  /\ snd (LeilaoScraper.extract_imovel_data down noon listing_url
            LeilaoScraper.init) = inr None
  /\ LeilaoScraper.log
       (fst (LeilaoScraper.extract_imovel_data down noon listing_url
               LeilaoScraper.init)) = [Error (Some Timeout)].
Proof.
  assert (H : raise_for_status (down listing_url 0%nat) = inl Timeout)
    by reflexivity.
  split; [exact H|].
  destruct (C7_failed_fetch_is_not_retried down join noon listing_url 1 []
              LeilaoScraper.init) as [[Hs Hf] _].
  split; [exact Hs|]. exact (Hf Timeout H).
Defined.

(** C7 as stated fails: after a timeout that a second request would have
      overcome, the URL has been requested once, not twice. *)
Lemma C7_timeout_is_not_retried :
  ~ (forall (net : server) (clock : nat -> string) (u : string)
            (s : LeilaoScraper.scraper),
        transient (net u (times_requested u (LeilaoScraper.sent s))) = true ->
        (times_requested u (LeilaoScraper.sent s) + 2
         <= times_requested u
              (LeilaoScraper.sent
                 (fst (LeilaoScraper.extract_imovel_data net clock u s))))%nat).
Proof.
  intros H.
  specialize (H flaky noon listing_url LeilaoScraper.init eq_refl).
  vm_compute in H. lia.
Qed.

(** *** Harvesting runs *)

Lemma answers_after_other net sent u u' :
  u <> u' -> answers net (sent ++ [u]) u' = answers net sent u'.
Proof.
  intros Hne. unfold answers, times_requested. rewrite count_occ_app. cbn.
  destruct (string_dec u u'); [contradiction|]. now rewrite Nat.add_0_r.
Qed.

Lemma answers_after_others net sent u urls :
  ~ In u urls ->
  filter (answers net (sent ++ [u])) urls = filter (answers net sent) urls.
Proof.
  intros Hnot. apply filter_ext_in. intros u' Hin.
  apply answers_after_other. intros ->. contradiction.
Qed.

Lemma NoDup_firstn {A : Type} n (l : list A) : NoDup l -> NoDup (firstn n l).
Proof.
  intros H. revert n. induction H as [|x l Hx H IH]; intros [|n]; cbn;
    try constructor; [|apply IH].
  intros Hin. apply Hx. revert Hin. clear. revert n.
  induction l as [|y l IH]; intros [|n]; cbn; try contradiction.
  intros [->|Hin]; [now left|right; now apply (IH n)].
Qed.

Lemma NoDup_capped max_imoveis (urls : list string) :
  NoDup urls ->
  NoDup (if (max_imoveis <? Z.of_nat (List.length urls))%Z
         then slice_to max_imoveis urls else urls).
Proof.
  intros H. destruct (max_imoveis <? _)%Z; [|assumption].
  unfold slice_to. destruct (0 <=? max_imoveis)%Z; now apply NoDup_firstn.
Qed.

Section LeilaoHarvest.

Variable net : server.
Variable urljoin : string -> string -> string.
Variable clock : nat -> string.

Lemma leilao_process_url_harvest u s :
  LeilaoScraper.sent (fst (LeilaoScraper.process_url net clock u s))
  = LeilaoScraper.sent s ++ [u] /\
  exists got,
    LeilaoScraper.data (fst (LeilaoScraper.process_url net clock u s))
    = LeilaoScraper.data s ++ got /\
    map LeilaoScraper.url got = filter (answers net (LeilaoScraper.sent s)) [u].
Proof.
  unfold LeilaoScraper.process_url, LeilaoScraper.extract_imovel_data,
    try_method. cbn.
  unfold method_bind. rewrite LeilaoFacts.logger_run. cbn.
  rewrite LeilaoFacts.fetch_run. cbn. unfold answers, failed.
  destruct (raise_for_status _) as [e|soup]; cbn;
    rewrite ?LeilaoFacts.logger_run; cbn; (split; [reflexivity|]).
  - exists []. now rewrite app_nil_r.
  - eexists [_]. split; reflexivity.
Qed.

Lemma leilao_for_each_harvest urls :
  NoDup urls ->
  forall s,
  exists got,
    LeilaoScraper.data
      (fst (for_each urls (LeilaoScraper.process_url net clock) s))
    = LeilaoScraper.data s ++ got /\
    map LeilaoScraper.url got
    = filter (answers net (LeilaoScraper.sent s)) urls.
Proof.
  induction 1 as [|u urls Hu Hn IH]; intros s.
  - exists []. cbn. now rewrite app_nil_r.
  - destruct (leilao_process_url_harvest u s) as (Hs & got & Hd & Hg).
    destruct (LeilaoFacts.process_url_run net clock u s) as (Hr & _).
    cbn [for_each]. unfold method_bind.
    destruct (LeilaoScraper.process_url net clock u s) as [s1 r1].
    cbn in Hs, Hd, Hr. subst r1.
    destruct (IH s1) as (got' & Hd' & Hg').
    exists (got ++ got'). rewrite Hd', Hd, <- app_assoc.
    split; [reflexivity|].
    rewrite map_app, Hg, Hg', Hs, (answers_after_others _ _ _ _ Hu).
    cbn [filter]. now destruct (answers net (LeilaoScraper.sent s) u).
Qed.

Lemma leilao_urls_distinct max_pages s :
  exists urls,
    snd (LeilaoScraper.get_imoveis_urls net urljoin max_pages s) = inr urls /\
    NoDup urls /\
    LeilaoScraper.data (fst (LeilaoScraper.get_imoveis_urls net urljoin max_pages s))
    = LeilaoScraper.data s.
Proof.
  unfold LeilaoScraper.get_imoveis_urls. cbn. unfold method_bind.
  destruct (ScraperFacts.leilao_visit_pages_trace net urljoin
              (range_from_1 max_pages) [] s)
    as (urls & Hr & [Hn _] & Hd & _).
  { split; constructor. }
  destruct (LeilaoScraper.visit_pages net urljoin (range_from_1 max_pages) [] s)
    as [s1 r1].
  cbn in Hr, Hd. subst r1. rewrite LeilaoFacts.logger_run. cbn. eauto.
Qed.

(** A run of [scrape_leiloes] appends one listing for every URL that
    answers, and nothing else. *)
Lemma scrape_leiloes_harvest max_pages max_imoveis s :
  exists collected,
    snd (LeilaoScraper.scrape_leiloes net urljoin clock max_pages max_imoveis s)
    = inr tt /\
    LeilaoScraper.data
      (fst (LeilaoScraper.scrape_leiloes net urljoin clock
              max_pages max_imoveis s))
    = LeilaoScraper.data s ++ collected /\
    map LeilaoScraper.url collected
    = leilao_harvest net urljoin max_pages max_imoveis s.
Proof.
  destruct (LeilaoFacts.scrape_leiloes_run net urljoin clock
              max_pages max_imoveis s) as (c0 & Hret & _).
  rewrite Hret. clear c0 Hret.
  unfold LeilaoScraper.scrape_leiloes, leilao_harvest, leilao_urls. cbn.
  unfold method_bind. rewrite LeilaoFacts.logger_run. cbn.
  set (s0 := LeilaoScraper.mkScraper _ _ _ _).
  destruct (leilao_urls_distinct max_pages s0) as (urls & Hr & Hn & Hd).
  destruct (LeilaoScraper.get_imoveis_urls net urljoin max_pages s0) as [s1 r1].
  cbn in Hr, Hd. subst r1. cbn.
  set (capped := if (max_imoveis <? Z.of_nat (List.length urls))%Z
                 then slice_to max_imoveis urls else urls).
  destruct (leilao_for_each_harvest capped (NoDup_capped _ _ Hn) s1)
    as (got & Hg & Hm).
  destruct (LeilaoFacts.for_each_run net clock capped s1) as (_ & Hq & _).
  destruct (for_each capped (LeilaoScraper.process_url net clock) s1) as [s2 r2].
  cbn in Hg, Hq. subst r2. rewrite LeilaoFacts.logger_run. cbn.
  exists got. rewrite Hg, Hd. auto.
Qed.

End LeilaoHarvest.

Section VivaRealHarvest.

Variable net : server.
Variable urljoin : string -> string -> string.
Variable clock : nat -> string.
Variable list_of_set : list string -> list string.

Lemma market_process_url_harvest u s :
  VivaRealScraper.sent (fst (VivaRealScraper.process_url net clock u s))
  = VivaRealScraper.sent s ++ [u] /\
  exists got,
    VivaRealScraper.data (fst (VivaRealScraper.process_url net clock u s))
    = VivaRealScraper.data s ++ got /\
    map VivaRealScraper.url got
    = filter (answers net (VivaRealScraper.sent s)) [u].
Proof.
  unfold VivaRealScraper.process_url, VivaRealScraper.extract_imovel_data,
    try_method. cbn.
  unfold method_bind. rewrite VivaRealFacts.vivareal_logger_run. cbn.
  rewrite VivaRealFacts.vivareal_fetch_run. cbn. unfold answers, failed.
  destruct (raise_for_status _) as [e|soup]; cbn;
    rewrite ?VivaRealFacts.vivareal_logger_run; cbn; (split; [reflexivity|]).
  - exists []. now rewrite app_nil_r.
  - eexists [_]. split; reflexivity.
Qed.

Lemma market_for_each_harvest urls :
  NoDup urls ->
  forall s,
  exists got,
    VivaRealScraper.data
      (fst (for_each urls (VivaRealScraper.process_url net clock) s))
    = VivaRealScraper.data s ++ got /\
    map VivaRealScraper.url got
    = filter (answers net (VivaRealScraper.sent s)) urls.
Proof.
  induction 1 as [|u urls Hu Hn IH]; intros s.
  - exists []. cbn. now rewrite app_nil_r.
  - destruct (market_process_url_harvest u s) as (Hs & got & Hd & Hg).
    destruct (VivaRealFacts.vivareal_process_url_run net clock u s) as (Hr & _).
    cbn [for_each]. unfold method_bind.
    destruct (VivaRealScraper.process_url net clock u s) as [s1 r1].
    cbn in Hs, Hd, Hr. subst r1.
    destruct (IH s1) as (got' & Hd' & Hg').
    exists (got ++ got'). rewrite Hd', Hd, <- app_assoc.
    split; [reflexivity|].
    rewrite map_app, Hg, Hg', Hs, (answers_after_others _ _ _ _ Hu).
    cbn [filter]. now destruct (answers net (VivaRealScraper.sent s) u).
Qed.

(** A run of [scrape_mercado_tradicional] appends one listing for every
    URL that answers, and nothing else. *)
Lemma scrape_mercado_tradicional_harvest cidades tipos max_pages max_imoveis s :
  (forall l, NoDup (list_of_set l)) ->
  exists collected,
    snd (VivaRealScraper.scrape_mercado_tradicional net urljoin clock
           list_of_set cidades tipos max_pages max_imoveis s) = inr tt /\
    VivaRealScraper.data
      (fst (VivaRealScraper.scrape_mercado_tradicional net urljoin clock
              list_of_set cidades tipos max_pages max_imoveis s))
    = VivaRealScraper.data s ++ collected /\
    map VivaRealScraper.url collected
    = vivareal_harvest net urljoin list_of_set cidades tipos
        max_pages max_imoveis s.
Proof.
  intros Hset.
  destruct (VivaRealFacts.scrape_mercado_tradicional_run net urljoin clock
              list_of_set cidades tipos max_pages max_imoveis s)
    as (c0 & Hret & _).
  rewrite Hret. clear c0 Hret.
  unfold VivaRealScraper.scrape_mercado_tradicional, vivareal_harvest,
    vivareal_urls. cbn.
  unfold method_bind. rewrite VivaRealFacts.vivareal_logger_run. cbn.
  set (s0 := VivaRealScraper.mkScraper _ _ _ _).
  set (cs := VivaRealScraper.or_default cidades _).
  set (ts := VivaRealScraper.or_default tipos _).
  destruct (VivaRealFacts.search_cidades_run net urljoin max_pages cs ts [] s0)
    as (urls & Hr & Hd & _).
  destruct (VivaRealScraper.search_cidades net urljoin max_pages cs ts [] s0)
    as [s1 r1].
  cbn in Hr, Hd. subst r1. cbn.
  set (capped := if (max_imoveis <? Z.of_nat (List.length (list_of_set urls)))%Z
                 then slice_to max_imoveis (list_of_set urls)
                 else list_of_set urls).
  destruct (market_for_each_harvest capped (NoDup_capped _ _ (Hset urls)) s1)
    as (got & Hg & Hm).
  destruct (VivaRealFacts.vivareal_for_each_run net clock capped s1)
    as (_ & Hq & _).
  destruct (for_each capped (VivaRealScraper.process_url net clock) s1)
    as [s2 r2].
  cbn in Hg, Hq. subst r2. rewrite VivaRealFacts.vivareal_logger_run. cbn.
  exists got. rewrite Hg, Hd. auto.
Qed.

End VivaRealHarvest.

(** C8, amended. A run of either scraper ends normally whatever fails and
      returns no value; it leaves in [data] the listings it held followed by
      one listing for every URL it went through whose request was answered,
      in order, and none for a URL whose request failed: a partial result,
      not all or nothing.  ([list(set(...))] lists no URL twice.) *)
Theorem C8_partial_results_without_counts
        (net : server) (urljoin : string -> string -> string)
        (clock : nat -> string) (list_of_set : list string -> list string)
        (cidades tipos : option (list string)) (max_pages max_imoveis : Z)
        (s : LeilaoScraper.scraper) (v : VivaRealScraper.scraper) :
  (exists collected,
      snd (LeilaoScraper.scrape_leiloes net urljoin clock max_pages max_imoveis s)
      = inr tt
      /\ LeilaoScraper.data
           (fst (LeilaoScraper.scrape_leiloes net urljoin clock
                   max_pages max_imoveis s))
         = LeilaoScraper.data s ++ collected
      /\ map LeilaoScraper.url collected
         = leilao_harvest net urljoin max_pages max_imoveis s
      /\ (List.length collected
          <= List.length
               (leilao_urls net urljoin max_pages max_imoveis
                  (fst (LeilaoScraper.logger
                          (Info "Iniciando coleta de dados de leiloes judiciais")
                          s))))%nat)
  /\
  ((forall l, NoDup (list_of_set l)) ->
   exists collected,
      snd (VivaRealScraper.scrape_mercado_tradicional net urljoin clock
             list_of_set cidades tipos max_pages max_imoveis v) = inr tt
      /\ VivaRealScraper.data
           (fst (VivaRealScraper.scrape_mercado_tradicional net urljoin clock
                   list_of_set cidades tipos max_pages max_imoveis v))
         = VivaRealScraper.data v ++ collected
      /\ map VivaRealScraper.url collected
         = vivareal_harvest net urljoin list_of_set cidades tipos
             max_pages max_imoveis v
      /\ (List.length collected
          <= List.length
               (vivareal_urls net urljoin list_of_set cidades tipos
                  max_pages max_imoveis v))%nat).
Proof.
  split.
  - destruct (scrape_leiloes_harvest net urljoin clock max_pages max_imoveis s)
      as (c & Hr & Hd & Hm).
    exists c. repeat split; auto.
    rewrite <- (length_map LeilaoScraper.url), Hm.
    unfold leilao_harvest. apply filter_length_le.
  - intros Hset.
    destruct (scrape_mercado_tradicional_harvest net urljoin clock list_of_set
                cidades tipos max_pages max_imoveis v Hset)
      as (c & Hr & Hd & Hm).
    exists c. repeat split; auto.
    rewrite <- (length_map VivaRealScraper.url), Hm.
    unfold vivareal_harvest. apply filter_length_le.
Qed.

(** C8, amended, on two sites that list two listings each, the first of
      which is not found: each run ends with the second listing alone. *)
Lemma C8_one_listing_out_of_two :
  (forall l, NoDup (set_list l)) /\
  leilao_harvest two_sites join 1 100 LeilaoScraper.init
  = [(LeilaoScraper.base_url ++ "/imovel/1")%string] /\
  vivareal_harvest two_sites join set_list None None 1 100 VivaRealScraper.init
  = [(VivaRealScraper.base_url ++ "/imovel/1")%string] /\
  map LeilaoScraper.url
    (LeilaoScraper.data
       (fst (LeilaoScraper.scrape_leiloes two_sites join noon 1 100
               LeilaoScraper.init)))
  = [(LeilaoScraper.base_url ++ "/imovel/1")%string] /\
  map VivaRealScraper.url
    (VivaRealScraper.data
       (fst (VivaRealScraper.scrape_mercado_tradicional two_sites join noon
               set_list None None 1 100 VivaRealScraper.init)))
  = [(VivaRealScraper.base_url ++ "/imovel/1")%string].
Proof.
  assert (Hset : forall l, NoDup (set_list l))
    by (intros l; apply NoDup_nodup).
  assert (Hl : leilao_harvest two_sites join 1 100 LeilaoScraper.init
               = [(LeilaoScraper.base_url ++ "/imovel/1")%string])
    by (vm_compute; reflexivity).
  assert (Hv : vivareal_harvest two_sites join set_list None None 1 100
                 VivaRealScraper.init
               = [(VivaRealScraper.base_url ++ "/imovel/1")%string])
    by (vm_compute; reflexivity).
  split; [exact Hset|]. split; [exact Hl|]. split; [exact Hv|].
  destruct (C8_partial_results_without_counts two_sites join noon set_list
              None None 1 100 LeilaoScraper.init VivaRealScraper.init)
    as [(c1 & _ & Hd1 & Hm1 & _) Hmarket].
  destruct (Hmarket Hset) as (c2 & _ & Hd2 & Hm2 & _).
  rewrite Hd1, Hd2. cbn [LeilaoScraper.data VivaRealScraper.data
                           LeilaoScraper.init VivaRealScraper.init app].
  rewrite Hm1, Hm2. split; [exact Hl|exact Hv].
Defined.

(** C8 as stated fails: no reading of what a run returns and of [data]
      gives the numbers of attempted URLs and of failures; two runs that
      differ in both leave the same [data]. *)
Lemma C8_counts_are_not_returned :
  ~ (exists report : result unit * list LeilaoScraper.imovel -> nat * nat,
        forall (net : server) (urljoin : string -> string -> string)
               (clock : nat -> string) (max_pages max_imoveis : Z),
          let run :=
            LeilaoScraper.scrape_leiloes net urljoin clock max_pages max_imoveis
              LeilaoScraper.init in
          let attempted :=
            List.length (leilao_urls net urljoin max_pages max_imoveis
                           LeilaoScraper.init) in
          report (snd run, LeilaoScraper.data (fst run))
          = (attempted,
             (attempted - List.length (LeilaoScraper.data (fst run)))%nat)).
Proof.
  intros [report H].
  pose proof (H net_one join noon 1%Z 100%Z) as H1.
  pose proof (H net_two join noon 1%Z 100%Z) as H2.
  vm_compute in H1, H2. rewrite H1 in H2. discriminate H2.
Qed.



End HarvestFacts.

(** ** From the scrapers to the statistics *)

Module PipelineFacts.

Import Pandas ImovelAnalyzer PandasFacts Observations Measures ImovelPipeline.

#[local] Arguments select_rows : simpl never.
#[local] Arguments setitem : simpl never.
#[local] Arguments _clean_dataframe : simpl never.
#[local] Arguments str_column : simpl never.
#[local] Arguments series_div : simpl never.
#[local] Arguments str_map : simpl never.
#[local] Arguments numeric_values : simpl never.
#[local] Arguments to_numeric : simpl never.
#[local] Arguments text_series : simpl never.
#[local] Arguments float_series : simpl never.

(** *** Cleaning what the auction scraper collected *)

Section Cleaning.

Variable f : string -> float.

Lemma numeric_values_to_numeric s :
  exists xs, numeric_values (to_numeric f s) = inr xs.
Proof.
  unfold numeric_values, to_numeric. cbn [values].
  induction (values s) as [|c l [xs IH]]; cbn; [eauto|].
  destruct c; cbn; rewrite IH; cbn; eauto.
Qed.

Lemma coerced_stays_coerced cols df col :
  (exists s0, get df col = Some (to_numeric f s0)) ->
  exists s0,
    get (fold_left
           (fun d c => match get d c with
                       | Some s => setitem d c (to_numeric f s)
                       | None => d
                       end) cols df) col
    = Some (to_numeric f s0).
Proof.
  revert df. induction cols as [|c cols IH]; intros df H; [exact H|].
  cbn [fold_left]. apply IH. destruct H as [s0 H].
  destruct (get df c) as [s|] eqn:E; [|eauto].
  destruct (String.eqb col c) eqn:Ec.
  - apply String.eqb_eq in Ec. subst. exists s. apply get_setitem_same.
  - exists s0. now rewrite get_setitem_other.
Qed.

Lemma coerced_when_listed cols df col s :
  In col cols -> get df col = Some s ->
  exists s0,
    get (fold_left
           (fun d c => match get d c with
                       | Some s => setitem d c (to_numeric f s)
                       | None => d
                       end) cols df) col
    = Some (to_numeric f s0).
Proof.
  revert df s. induction cols as [|c cols IH]; intros df s Hin H; [destruct Hin|].
  cbn [fold_left].
  destruct (String.eqb col c) eqn:Ec.
  - apply String.eqb_eq in Ec. subst c. rewrite H.
    apply coerced_stays_coerced. exists s. apply get_setitem_same.
  - destruct Hin as [->|Hin]; [now rewrite String.eqb_refl in Ec|].
    destruct (get df c) as [sc|] eqn:E.
    + apply (IH _ s Hin). now rewrite get_setitem_other.
    + now apply (IH _ s Hin).
Qed.

Lemma untouched_when_not_listed cols df col :
  existsb (String.eqb col) cols = false ->
  get (fold_left
         (fun d c => match get d c with
                     | Some s => setitem d c (to_numeric f s)
                     | None => d
                     end) cols df) col
  = get df col.
Proof.
  revert df. induction cols as [|c cols IH]; intros df H; [reflexivity|].
  cbn [fold_left]. cbn [existsb] in H. apply orb_false_iff in H as [Hc H].
  rewrite (IH _ H). destruct (get df c); [|reflexivity].
  now apply get_setitem_other.
Qed.

Lemma textual_filtered mask l :
  Forall (fun c => is_str c = true \/ isna c = true) l ->
  Forall (fun c => is_str c = true \/ isna c = true) (mask_filter mask l).
Proof.
  intros H. revert mask. induction H as [|c l Hc H IH]; intros mask.
  - destruct mask; constructor.
  - destruct mask as [|[] mask]; cbn; [constructor| |apply IH].
    constructor; [assumption|apply IH].
Qed.

Lemma textual_has_accessor l :
  Forall (fun c => is_str c = true \/ isna c = true) l ->
  existsb is_str l || forallb isna l = true.
Proof.
  induction 1 as [|c l [Hc|Hc] H IH]; cbn; [reflexivity| |].
  - now rewrite Hc.
  - rewrite Hc. cbn [andb]. destruct (is_str c); [reflexivity|exact IH].
Qed.

Lemma str_map_textual g s :
  textual s ->
  exists s', str_map g s = inr s' /\ textual s'.
Proof.
  intros [Hd Hc]. unfold str_map. rewrite Hd, (textual_has_accessor _ Hc).
  eexists. split; [reflexivity|]. split; [reflexivity|]. cbn [values].
  induction Hc as [|c l Hc H IH]; cbn; constructor; [|exact IH].
  destruct c; [now right|now left].
Qed.

Lemma auction_cleaning_returns df :
  get df "preco_m2" = None ->
  has_column df "area" = true ->
  (forall s, get df "tipo_imovel" = Some s -> textual s) ->
  exists cleaned, _clean_dataframe f df "leilao" = inr cleaned.
Proof.
  intros Hm2 Harea Htipo.
  set (priced := standardize_price "leilao" df).
  assert (Hpp : exists s, get priced "preco" = Some s).
  { eexists. unfold priced, standardize_price. cbn [String.eqb Ascii.eqb Bool.eqb].
    cbn. apply get_setitem_same. }
  assert (Hpa : exists s, get priced "area" = Some s).
  { unfold priced, standardize_price. cbn. rewrite get_setitem_other by reflexivity.
    unfold has_column in Harea. destruct (get df "area"); [eauto|discriminate]. }
  assert (Hpm : get priced "preco_m2" = None).
  { unfold priced, standardize_price. cbn. now rewrite get_setitem_other. }
  assert (Hpt : get priced "tipo_imovel" = get df "tipo_imovel").
  { unfold priced, standardize_price. cbn. now rewrite get_setitem_other. }
  destruct Hpp as [p Hpp]. destruct Hpa as [a Hpa].
  set (typed := convert_types f priced).
  destruct (coerced_when_listed numeric_columns priced "preco" p
              ltac:(cbn; auto) Hpp) as [p0 Hp].
  destruct (coerced_when_listed numeric_columns priced "area" a
              ltac:(cbn; auto) Hpa) as [a0 Ha].
  pose proof (untouched_when_not_listed numeric_columns priced "preco_m2"
                eq_refl) as Hm.
  pose proof (untouched_when_not_listed numeric_columns priced "tipo_imovel"
                eq_refl) as Ht.
  fold (convert_types f priced) in Hp, Ha, Hm, Ht. fold typed in Hp, Ha, Hm, Ht.
  rewrite Hpm in Hm. rewrite Hpt in Ht.
  destruct (numeric_values_to_numeric p0) as [xs Hxs].
  destruct (numeric_values_to_numeric a0) as [ys Hys].
  unfold _clean_dataframe, before_rejection. fold priced. fold typed.
  clearbody typed. clear Hpp Hpa Hpm Hpt. clearbody priced.
  unfold derive_preco_m2, derives_preco_m2, getitem.
  rewrite Hm, Hp, Ha. cbn. unfold series_div. rewrite Hxs, Hys. cbn.
  set (m2 := mkSeries Float64 _).
  set (pre := setitem typed "preco_m2" m2).
  assert (Hpre : get pre "preco_m2" = Some m2) by apply get_setitem_same.
  assert (Hpret : get pre "tipo_imovel" = get df "tipo_imovel").
  { unfold pre. rewrite get_setitem_other by reflexivity. exact Ht. }
  assert (Hn : numeric_values m2
               = inr (map (fun p => Float.div (fst p) (snd p)) (combine xs ys))).
  { unfold numeric_values, m2. cbn [values]. rewrite <- numeric_cells_of_map.
    now rewrite map_map. }
  unfold remove_outliers, outlier_bounds, quantile, keep_between, getitem, between.
  clearbody pre. clearbody m2.
  rewrite Hpre. cbn. rewrite Hn. cbn.
  set (mask := map _ _). clearbody mask.
  unfold standardize_tipo. rewrite get_select_rows, Hpret.
  destruct (get df "tipo_imovel") as [t|] eqn:Et; cbn; [|eauto].
  destruct (Htipo t eq_refl) as [Hd Hc].
  destruct (str_map_textual Text.lower
              (mkSeries (dtype_of t) (mask_filter mask (values t))))
    as (lowered & -> & Hl).
  { split; [exact Hd|]. cbn [values]. now apply textual_filtered. }
  cbn.
  destruct (str_map_textual Text.strip lowered Hl) as (stripped & -> & _).
  cbn. eauto.
Qed.

Lemma text_series_textual l : textual (text_series l).
Proof.
  split; [reflexivity|]. unfold text_series. cbn [values].
  induction l as [|[t|] l IH]; cbn; constructor; auto.
Qed.

(** What the auction scraper saved can be cleaned exactly when it is not
    empty: with one listing or more the cleaning returns a frame; with
    none, the frame read from the file has no column and the cleaning
    raises [KeyError('area')]. *)
Theorem collected_auction_listings_can_be_cleaned
        (records : list LeilaoScraper.imovel) :
  match records with
  | [] =>
      _clean_dataframe f (loaded_leiloes (leilao_frame records)) "leilao"
      = inl (KeyError "area")
  | _ :: _ =>
      exists cleaned,
        _clean_dataframe f (loaded_leiloes (leilao_frame records)) "leilao"
        = inr cleaned
  end.
Proof.
  destruct records as [|r records]; [reflexivity|].
  apply auction_cleaning_returns.
  - reflexivity.
  - reflexivity.
  - intros s H. cbn in H. injection H as <-. apply text_series_textual.
Qed.

End Cleaning.

(** *** The whole pipeline *)

#[local] Arguments Text.starts_with : simpl never.
#[local] Arguments Text.replace : simpl never.
#[local] Arguments String.append : simpl never.
#[local] Arguments Text.chars : simpl never.
#[local] Arguments LeilaoScraper.logger : simpl never.
#[local] Arguments LeilaoScraper.scrape_leiloes : simpl never.
#[local] Arguments LeilaoScraper.save_data : simpl never.
#[local] Arguments VivaRealScraper.scrape_mercado_tradicional : simpl never.
#[local] Arguments VivaRealScraper.save_data : simpl never.
#[local] Arguments leilao_frame : simpl never.
#[local] Arguments read_file : simpl never.
#[local] Arguments loaded_leiloes : simpl never.
#[local] Arguments build_statistics : simpl never.

Lemma read_last_written {A : Type} path (v : A) files :
  read_file path (files ++ [(path, v)]) = Some v.
Proof.
  unfold read_file. rewrite rev_app_distr. cbn. now rewrite String.eqb_refl.
Qed.

Lemma read_written_twice {A : Type} path other (v : A) files :
  read_file path (files ++ [(path, v); (other, v)]) = Some v.
Proof.
  unfold read_file. rewrite rev_app_distr. cbn.
  destruct (String.eqb path other); [reflexivity|].
  now rewrite String.eqb_refl.
Qed.

Lemma leilao_save_data_read clock disk filename s :
  Text.truthy filename = true ->
  Text.starts_with (Text.chars "/") (Text.chars filename) = false ->
  disk ("../data/" ++ filename)%string = inr tt ->
  LeilaoScraper.data s = [] ->
  snd (LeilaoScraper.save_data clock disk (Some filename) s) = inr tt /\
  LeilaoScraper.data (fst (LeilaoScraper.save_data clock disk (Some filename) s))
  = [] /\
  read_file ("../data/" ++ filename)%string
    (LeilaoScraper.files
       (fst (LeilaoScraper.save_data clock disk (Some filename) s)))
  = Some [].
Proof.
  intros Ht Hs Hdisk Hd.
  unfold LeilaoScraper.save_data. cbn. unfold method_bind, gets, modify, lift.
  rewrite Ht, Hs, Hdisk. cbn.
  rewrite !LeilaoFacts.logger_run. cbn. rewrite Hd. cbn.
  split; [reflexivity|]. split; [reflexivity|]. apply read_last_written.
Qed.

Section Pipeline.

Variable net : Web.server.
Variable urljoin : string -> string -> string.
Variable clock : nat -> string.
Variable list_of_set : list string -> list string.
Variable disk : string -> result unit.
Variable str_to_float : string -> float.
Variable vivareal_frame : list VivaRealScraper.imovel -> DataFrame.
Variable timestamp : string.
Variable write_stats plots opening write_again closing : result unit.

(** When the auction scraper holds no listing and its file can be
    written, the analysis reads an empty list. *)
Lemma run_leilao_scraping_read max_pages max_imoveis :
  let r :=
    run_leilao_scraping net urljoin clock disk timestamp max_pages max_imoveis in
  disk ("../data/leiloes_data_" ++ timestamp ++ ".json")%string = inr tt ->
  LeilaoScraper.data (fst r) = [] ->
  is_some (snd r) = true /\
  open_file leilao_frame (LeilaoScraper.files (fst r)) (snd r)
  = Content (leilao_frame []).
Proof.
  unfold run_leilao_scraping. cbn. unfold method_bind.
  destruct (LeilaoFacts.scrape_leiloes_run net urljoin clock max_pages max_imoveis
              LeilaoScraper.init) as (c & Hr & _).
  destruct (LeilaoScraper.scrape_leiloes net urljoin clock max_pages max_imoveis
              LeilaoScraper.init) as [s1 r1].
  cbn in Hr. subst r1. intros Hdisk.
  destruct (LeilaoFacts.save_data_run clock disk
              (Some ("leiloes_data_" ++ timestamp ++ ".json")%string) s1)
    as [Hsame _].
  pose proof (leilao_save_data_read clock disk
                ("leiloes_data_" ++ timestamp ++ ".json")%string s1
                eq_refl eq_refl Hdisk) as Hread.
  destruct (LeilaoScraper.save_data clock disk _ s1) as [s2 r2].
  cbn in Hsame, Hread.
  destruct r2 as [e|[]]; cbn; intros Hempty; rewrite Hsame in Hempty;
    destruct (Hread Hempty) as (Hs & _ & Hf); [discriminate Hs|].
  split; [reflexivity|]. now rewrite Hf.
Qed.

Lemma analysis_stops_without_clean_auction df v e :
  _clean_dataframe str_to_float (loaded_leiloes df) "leilao" = inl e ->
  snd (run_analysis str_to_float write_stats plots opening write_again closing
         (Content df) v) = None.
Proof.
  intros He. unfold run_analysis, load_data, clean_data,
    generate_statistics, Reports.create_visualizations,
    Reports.generate_report, try_method.
  fold (loaded_leiloes df).
  destruct v as [|e'|t]; cbn; unfold method_bind, gets, lift, modify, method_ret;
    cbn; rewrite He; cbn; reflexivity.
Qed.

Lemma load_data_returns l v a : snd (load_data l v a) = inr tt.
Proof.
  unfold load_data, try_method. cbn.
  unfold method_bind, gets, lift, modify, method_ret.
  destruct l as [|e|df]; destruct v as [|e'|df']; reflexivity.
Qed.

Lemma generate_statistics_returns w a :
  exists r, snd (generate_statistics w a) = inr r.
Proof.
  unfold generate_statistics, try_method. cbn.
  unfold method_bind, gets, lift, modify, method_ret, logger. cbn.
  destruct (df_combined a) as [df|]; cbn; [|eexists; reflexivity].
  destruct (build_statistics df) as [e|d]; cbn; [eexists; reflexivity|].
  destruct w as [e'|[]]; cbn; eexists; reflexivity.
Qed.

Lemma create_visualizations_returns p a :
  snd (Reports.create_visualizations p a) = inr tt.
Proof.
  unfold Reports.create_visualizations, try_method. cbn.
  unfold method_bind, gets, lift, modify, method_ret. cbn.
  destruct (df_combined a) as [df|]; cbn; [|reflexivity].
  destruct p as [e|[]]; reflexivity.
Qed.

#[local] Arguments generate_statistics : simpl never.

Lemma generate_report_returns o w c a :
  snd (Reports.generate_report o w c a) = inr tt.
Proof.
  unfold Reports.generate_report, try_method. cbn.
  unfold method_bind, gets, lift, modify, method_ret. cbn.
  destruct (df_combined a) as [df|]; cbn; [|reflexivity].
  destruct o as [e|[]]; cbn; [reflexivity|].
  destruct (generate_statistics_returns w a) as [r Hr].
  destruct (generate_statistics w a) as [a1 r1]. cbn in Hr. subst r1. cbn.
  destruct c as [e'|[]]; reflexivity.
Qed.

#[local] Arguments Reports.create_visualizations : simpl never.
#[local] Arguments Reports.generate_report : simpl never.
#[local] Arguments load_data : simpl never.
#[local] Arguments clean_data : simpl never.

(** [run_analysis] returns what the first call of [generate_statistics]
    returned, on the frames as loaded and cleaned: neither the plots nor
    the report, whether they succeed or fail, change what the caller
    gets. *)
Theorem analysis_returns_the_first_statistics
        (leiloes vivareal : source_file) :
  snd (run_analysis str_to_float write_stats plots opening write_again closing
         leiloes vivareal)
  = match snd (generate_statistics write_stats
                 (fst (clean_data str_to_float
                         (fst (load_data leiloes vivareal init))))) with
    | inr stats => stats
    | inl _ => None
    end.
Proof.
  unfold run_analysis. cbn. unfold method_bind.
  pose proof (load_data_returns leiloes vivareal init) as H1.
  destruct (load_data leiloes vivareal init) as [a1 r1].
  cbn in H1. subst r1. cbn.
  pose proof (CleaningFacts.clean_data_returns str_to_float a1) as H2.
  destruct (clean_data str_to_float a1) as [a2 r2].
  cbn in H2. subst r2. cbn.
  destruct (generate_statistics_returns write_stats a2) as [st H3].
  destruct (generate_statistics write_stats a2) as [a3 r3].
  cbn in H3. subst r3. cbn.
  pose proof (create_visualizations_returns plots a3) as H4.
  destruct (Reports.create_visualizations plots a3) as [a4 r4].
  cbn in H4. subst r4.
  pose proof (generate_report_returns opening write_again closing a4) as H5.
  destruct (Reports.generate_report opening write_again closing a4) as [a5 r5].
  cbn in H5. subst r5. reflexivity.
Qed.

(** When the auction scraper collected no listing and its file is
    written, the pipeline gives no statistics, whatever the market scraper
    collected: the auction file holds an empty list, its cleaning raises,
    and nothing is combined. *)
Theorem no_auction_listing_no_statistics (cfg : option config) :
  let c := match cfg with Some c => c | None => default_config end in
  disk ("../data/leiloes_data_" ++ timestamp ++ ".json")%string = inr tt ->
  LeilaoScraper.data
    (fst (run_leilao_scraping net urljoin clock disk timestamp
            (leiloes_max_pages c) (leiloes_max_imoveis c))) = [] ->
  exists o,
    run_full_pipeline net urljoin clock list_of_set disk str_to_float
      vivareal_frame timestamp write_stats plots opening write_again closing
      cfg = Some o /\
    statistics o = None.
Proof.
  intros c Hdisk Hempty. unfold run_full_pipeline. fold c.
  destruct (run_leilao_scraping_read (leiloes_max_pages c)
              (leiloes_max_imoveis c) Hdisk Hempty) as [Hsome Hopen].
  destruct (run_leilao_scraping net urljoin clock disk timestamp
              (leiloes_max_pages c) (leiloes_max_imoveis c)) as [ls lp].
  cbn [fst snd] in *.
  destruct (run_vivareal_scraping net urljoin clock list_of_set disk timestamp
              (vivareal_cidades c) (vivareal_tipos c)
              (vivareal_max_pages c) (vivareal_max_imoveis c)) as [vs vp].
  rewrite Hsome. cbn [orb]. rewrite Hopen.
  pose proof (analysis_stops_without_clean_auction (leilao_frame [])
                (open_file vivareal_frame (VivaRealScraper.files vs) vp)
                (KeyError "area") eq_refl) as Hstats.
  destruct (run_analysis _ _ _ _ _ _ _ _) as [a stats].
  cbn in Hstats. subst stats. eexists. split; reflexivity.
Qed.

End Pipeline.

(** The pipeline against a network that is down. *)
Lemma network_down_no_statistics :
  writable "../data/leiloes_data_20250101_120000.json" = inr tt /\
  LeilaoScraper.data
    (fst (run_leilao_scraping Scenarios.down Scenarios.join Scenarios.noon
            writable "20250101_120000"
            (leiloes_max_pages default_config)
            (leiloes_max_imoveis default_config))) = [] /\
  exists o,
    run_full_pipeline Scenarios.down Scenarios.join Scenarios.noon (fun l => l)
      writable Scenarios.reads_nothing (fun _ => mkDataFrame 0 [])
      "20250101_120000"
      (inr tt) (inr tt) (inr tt) (inr tt) (inr tt) None = Some o /\
    statistics o = None.
Proof.
  assert (H : LeilaoScraper.data
                (fst (run_leilao_scraping Scenarios.down Scenarios.join
                        Scenarios.noon writable "20250101_120000"
                        (leiloes_max_pages default_config)
                        (leiloes_max_imoveis default_config))) = [])
    by (vm_compute; reflexivity).
  split; [reflexivity|]. split; [exact H|].
  exact (no_auction_listing_no_statistics Scenarios.down Scenarios.join
           Scenarios.noon (fun l => l) writable Scenarios.reads_nothing
           (fun _ => mkDataFrame 0 []) "20250101_120000"
           (inr tt) (inr tt) (inr tt) (inr tt) (inr tt) None eq_refl H).
Defined.

End PipelineFacts.
